(** * ErriezBMX280: BMP280 / BME280 sensor driver

    A shallow embedding of [ErriezBMX280.cpp] / [ErriezBMX280.h].

    - Fixed-width C++ integers are integers of [Z] with the wrap-around of
      each width written out ([to_int32], [to_uint16], ...): signed
      overflow wraps, signed right shift is arithmetic ([Z.shiftr]),
      signed division truncates towards zero ([Z.quot]).  Values of type
      [int] are kept unbounded and reduced where the source converts them
      to a fixed width, which gives the same result for a 16-bit and a
      32-bit [int].
    - Where C++ leaves the order of two calls in one expression open (the
      two [Wire.read()] of [read16], the two [read8] of dig_H4 and
      dig_H5), the left operand is evaluated first.
    - The Arduino [Wire] object is a record holding the transmit and
      receive buffers, the state of the attached I2C bus and the trace of
      every bus transaction performed so far.  The bus itself is an
      interface ([I2CBus]): the driver is verified against every bus.
    - Member functions are state transformers over [World], the pair of
      the driver object and [Wire].  The poll loop of [begin] takes a
      bound on its rounds.
    - A C++ [float] result is represented by the exact rational it denotes
      before the final rounding of the floating-point division.  The
      conversion of an integer to [float] is exact in [readTemperature]
      and [readHumidity] (fewer than 24 significant bits); in
      [readPressure] the 64-bit [p] is rounded to IEEE binary32, to
      nearest with ties to even ([to_float], from the Standard Library's
      specification of IEEE arithmetic), and the division by 256 that
      follows is exact.
      [readAltitude], which is floating-point throughout, is left out. *)

From Stdlib Require Import ZArith List Bool Lia QArith SpecFloat.
Import ListNotations.
Local Open Scope Z_scope.

(* ================================================================== *)
(** ** Fixed-width integers *)

Module CInt.

(** Conversion to an unsigned type of [w] bits. *)
Definition wrap_unsigned (w : Z) (x : Z) : Z := x mod 2 ^ w.

(** Conversion to a signed two's complement type of [w] bits. *)
Definition wrap_signed (w : Z) (x : Z) : Z :=
  (x + 2 ^ (w - 1)) mod 2 ^ w - 2 ^ (w - 1).

Definition to_uint8 := wrap_unsigned 8.
Definition to_uint16 := wrap_unsigned 16.
Definition to_uint32 := wrap_unsigned 32.
Definition to_int8 := wrap_signed 8.
Definition to_int16 := wrap_signed 16.
Definition to_int32 := wrap_signed 32.
Definition to_int64 := wrap_signed 64.

Definition is_uint8 (x : Z) : Prop := 0 <= x < 256.
Definition is_uint16 (x : Z) : Prop := 0 <= x < 65536.
Definition is_int8 (x : Z) : Prop := -128 <= x < 128.
Definition is_int16 (x : Z) : Prop := -32768 <= x < 32768.
Definition is_int32 (x : Z) : Prop := -2147483648 <= x < 2147483648.
Definition is_int64 (x : Z) : Prop :=
  -9223372036854775808 <= x < 9223372036854775808.

(** [int32_t] arithmetic. *)
Definition add32 (a b : Z) : Z := to_int32 (a + b).
Definition sub32 (a b : Z) : Z := to_int32 (a - b).
Definition mul32 (a b : Z) : Z := to_int32 (a * b).
Definition shl32 (a n : Z) : Z := to_int32 (Z.shiftl a n).
Definition shr32 (a n : Z) : Z := Z.shiftr a n.

(** [int64_t] arithmetic. *)
Definition add64 (a b : Z) : Z := to_int64 (a + b).
Definition sub64 (a b : Z) : Z := to_int64 (a - b).
Definition mul64 (a b : Z) : Z := to_int64 (a * b).
Definition shl64 (a n : Z) : Z := to_int64 (Z.shiftl a n).
Definition shr64 (a n : Z) : Z := Z.shiftr a n.

(** [int64_t] division: a zero divisor is a fault, reported as [None]. *)
Definition div64 (a b : Z) : option Z :=
  if b =? 0 then None else Some (to_int64 (Z.quot a b)).

End CInt.
Import CInt.

(** A [float] value, as the rational [n / d] it is computed from. *)
Definition float_div (n : Z) (d : positive) : Q := n # d.
Definition float_of_int (n : Z) : Q := n # 1.

(** [(float) n] for an integer [n] below the binary32 overflow threshold
    (every [int64_t] is): the binary32 number nearest to [n], ties to the
    even significand.  The result is again an integer. *)
Definition to_float (n : Z) : Z :=
  match binary_normalize 24 128 n 0 false with
  | S754_finite s m e => cond_Zopp s (Z.shiftl (Zpos m) e)
  | _ => 0
  end.

(* ================================================================== *)
(** ** ErriezBMX280.h: register map and enumerations *)

Definition BMX280_I2C_ADDR : Z := 0x76.
Definition BMX280_I2C_ADDR_ALT : Z := 0x77.

Definition BMX280_REG_DIG_T1 : Z := 0x88.
Definition BMX280_REG_DIG_T2 : Z := 0x8A.
Definition BMX280_REG_DIG_T3 : Z := 0x8C.

Definition BMX280_REG_DIG_P1 : Z := 0x8E.
Definition BMX280_REG_DIG_P2 : Z := 0x90.
Definition BMX280_REG_DIG_P3 : Z := 0x92.
Definition BMX280_REG_DIG_P4 : Z := 0x94.
Definition BMX280_REG_DIG_P5 : Z := 0x96.
Definition BMX280_REG_DIG_P6 : Z := 0x98.
Definition BMX280_REG_DIG_P7 : Z := 0x9A.
Definition BMX280_REG_DIG_P8 : Z := 0x9C.
Definition BMX280_REG_DIG_P9 : Z := 0x9E.

Definition BME280_REG_DIG_H1 : Z := 0xA1.
Definition BME280_REG_DIG_H2 : Z := 0xE1.
Definition BME280_REG_DIG_H3 : Z := 0xE3.
Definition BME280_REG_DIG_H4 : Z := 0xE4.
Definition BME280_REG_DIG_H5 : Z := 0xE5.
Definition BME280_REG_DIG_H6 : Z := 0xE7.

Definition BME280_REG_CHIPID : Z := 0xD0.
Definition BME280_REG_RESET : Z := 0xE0.

Definition BME280_REG_CTRL_HUM : Z := 0xF2.
Definition BMX280_REG_STATUS : Z := 0xF3.
Definition BMX280_REG_CTRL_MEAS : Z := 0xF4.
Definition BMX280_REG_CONFIG : Z := 0xF5.
Definition BMX280_REG_PRESS : Z := 0xF7.
Definition BMX280_REG_TEMP : Z := 0xFA.
Definition BME280_REG_HUM : Z := 0xFD.

Definition CHIP_ID_BMP280 : Z := 0x58.
Definition CHIP_ID_BME280 : Z := 0x60.
Definition RESET_KEY : Z := 0xB6.
Definition STATUS_IM_UPDATE : Z := 0.

Inductive BMX280_Mode_e :=
| BMX280_MODE_SLEEP
| BMX280_MODE_FORCED
| BMX280_MODE_NORMAL.

Inductive BMX280_Sampling_e :=
| BMX280_SAMPLING_NONE
| BMX280_SAMPLING_X1
| BMX280_SAMPLING_X2
| BMX280_SAMPLING_X4
| BMX280_SAMPLING_X8
| BMX280_SAMPLING_X16.

Inductive BMX280_Filter_e :=
| BMX280_FILTER_OFF
| BMX280_FILTER_X2
| BMX280_FILTER_X4
| BMX280_FILTER_X8
| BMX280_FILTER_X16.

Inductive BMX280_Standby_e :=
| BMX280_STANDBY_MS_0_5
| BMX280_STANDBY_MS_10
| BMX280_STANDBY_MS_20
| BMX280_STANDBY_MS_62_5
| BMX280_STANDBY_MS_125
| BMX280_STANDBY_MS_250
| BMX280_STANDBY_MS_500
| BMX280_STANDBY_MS_1000.

(** The enumerators' integer codes (the implicit enum-to-int conversion). *)
Definition mode_code (m : BMX280_Mode_e) : Z :=
  match m with
  | BMX280_MODE_SLEEP => 0 (* 0b00 *)
  | BMX280_MODE_FORCED => 1 (* 0b01 *)
  | BMX280_MODE_NORMAL => 3 (* 0b11 *)
  end.

Definition sampling_code (s : BMX280_Sampling_e) : Z :=
  match s with
  | BMX280_SAMPLING_NONE => 0 (* 0b000 *)
  | BMX280_SAMPLING_X1 => 1 (* 0b001 *)
  | BMX280_SAMPLING_X2 => 2 (* 0b010 *)
  | BMX280_SAMPLING_X4 => 3 (* 0b011 *)
  | BMX280_SAMPLING_X8 => 4 (* 0b100 *)
  | BMX280_SAMPLING_X16 => 5 (* 0b101 *)
  end.

Definition filter_code (f : BMX280_Filter_e) : Z :=
  match f with
  | BMX280_FILTER_OFF => 0 (* 0b000 *)
  | BMX280_FILTER_X2 => 1 (* 0b001 *)
  | BMX280_FILTER_X4 => 2 (* 0b010 *)
  | BMX280_FILTER_X8 => 3 (* 0b011 *)
  | BMX280_FILTER_X16 => 4 (* 0b100 *)
  end.

Definition standby_code (d : BMX280_Standby_e) : Z :=
  match d with
  | BMX280_STANDBY_MS_0_5 => 0 (* 0b000 *)
  | BMX280_STANDBY_MS_10 => 6 (* 0b110 *)
  | BMX280_STANDBY_MS_20 => 7 (* 0b111 *)
  | BMX280_STANDBY_MS_62_5 => 1 (* 0b001 *)
  | BMX280_STANDBY_MS_125 => 2 (* 0b010 *)
  | BMX280_STANDBY_MS_250 => 3 (* 0b011 *)
  | BMX280_STANDBY_MS_500 => 4 (* 0b100 *)
  | BMX280_STANDBY_MS_1000 => 5 (* 0b101 *)
  end.

(* ================================================================== *)
(** ** The driver object *)

(** The private members of [class ErriezBMX280]. *)
Record ErriezBMX280 := mkBMX280 {
  _i2cAddr : Z;   (* uint8_t *)
  _chipID : Z;    (* uint8_t *)
  _t_fine : Z;    (* int32_t *)

  _dig_T1 : Z;    (* uint16_t *)
  _dig_T2 : Z;    (* int16_t *)
  _dig_T3 : Z;    (* int16_t *)

  _dig_P1 : Z;    (* uint16_t *)
  _dig_P2 : Z;    (* int16_t *)
  _dig_P3 : Z;
  _dig_P4 : Z;
  _dig_P5 : Z;
  _dig_P6 : Z;
  _dig_P7 : Z;
  _dig_P8 : Z;
  _dig_P9 : Z;

  _dig_H1 : Z;    (* uint8_t *)
  _dig_H2 : Z;    (* int16_t *)
  _dig_H3 : Z;    (* uint8_t *)
  _dig_H4 : Z;    (* int16_t *)
  _dig_H5 : Z;    (* int16_t *)
  _dig_H6 : Z     (* int8_t *)
}.

(** The members hold values of their declared types. *)
Record members_in_range (o : ErriezBMX280) : Prop := {
  r_i2cAddr : is_uint8 (_i2cAddr o);
  r_chipID : is_uint8 (_chipID o);
  r_t_fine : is_int32 (_t_fine o);
  r_T1 : is_uint16 (_dig_T1 o);
  r_T2 : is_int16 (_dig_T2 o);
  r_T3 : is_int16 (_dig_T3 o);
  r_P1 : is_uint16 (_dig_P1 o);
  r_P2 : is_int16 (_dig_P2 o);
  r_P3 : is_int16 (_dig_P3 o);
  r_P4 : is_int16 (_dig_P4 o);
  r_P5 : is_int16 (_dig_P5 o);
  r_P6 : is_int16 (_dig_P6 o);
  r_P7 : is_int16 (_dig_P7 o);
  r_P8 : is_int16 (_dig_P8 o);
  r_P9 : is_int16 (_dig_P9 o);
  r_H1 : is_uint8 (_dig_H1 o);
  r_H2 : is_int16 (_dig_H2 o);
  r_H3 : is_uint8 (_dig_H3 o);
  r_H4 : is_int16 (_dig_H4 o);
  r_H5 : is_int16 (_dig_H5 o);
  r_H6 : is_int8 (_dig_H6 o)
}.

(** Assignment to one member. *)
Definition set_chipID (v : Z) (o : ErriezBMX280) : ErriezBMX280 :=
  mkBMX280 (_i2cAddr o) v (_t_fine o)
           (_dig_T1 o) (_dig_T2 o) (_dig_T3 o)
           (_dig_P1 o) (_dig_P2 o) (_dig_P3 o) (_dig_P4 o) (_dig_P5 o)
           (_dig_P6 o) (_dig_P7 o) (_dig_P8 o) (_dig_P9 o)
           (_dig_H1 o) (_dig_H2 o) (_dig_H3 o) (_dig_H4 o) (_dig_H5 o) (_dig_H6 o).

Definition set_t_fine (v : Z) (o : ErriezBMX280) : ErriezBMX280 :=
  mkBMX280 (_i2cAddr o) (_chipID o) v
           (_dig_T1 o) (_dig_T2 o) (_dig_T3 o)
           (_dig_P1 o) (_dig_P2 o) (_dig_P3 o) (_dig_P4 o) (_dig_P5 o)
           (_dig_P6 o) (_dig_P7 o) (_dig_P8 o) (_dig_P9 o)
           (_dig_H1 o) (_dig_H2 o) (_dig_H3 o) (_dig_H4 o) (_dig_H5 o) (_dig_H6 o).

Definition set_dig_T1 (v : Z) (o : ErriezBMX280) : ErriezBMX280 :=
  mkBMX280 (_i2cAddr o) (_chipID o) (_t_fine o)
           v (_dig_T2 o) (_dig_T3 o)
           (_dig_P1 o) (_dig_P2 o) (_dig_P3 o) (_dig_P4 o) (_dig_P5 o)
           (_dig_P6 o) (_dig_P7 o) (_dig_P8 o) (_dig_P9 o)
           (_dig_H1 o) (_dig_H2 o) (_dig_H3 o) (_dig_H4 o) (_dig_H5 o) (_dig_H6 o).

Definition set_dig_T2 (v : Z) (o : ErriezBMX280) : ErriezBMX280 :=
  mkBMX280 (_i2cAddr o) (_chipID o) (_t_fine o)
           (_dig_T1 o) v (_dig_T3 o)
           (_dig_P1 o) (_dig_P2 o) (_dig_P3 o) (_dig_P4 o) (_dig_P5 o)
           (_dig_P6 o) (_dig_P7 o) (_dig_P8 o) (_dig_P9 o)
           (_dig_H1 o) (_dig_H2 o) (_dig_H3 o) (_dig_H4 o) (_dig_H5 o) (_dig_H6 o).

Definition set_dig_T3 (v : Z) (o : ErriezBMX280) : ErriezBMX280 :=
  mkBMX280 (_i2cAddr o) (_chipID o) (_t_fine o)
           (_dig_T1 o) (_dig_T2 o) v
           (_dig_P1 o) (_dig_P2 o) (_dig_P3 o) (_dig_P4 o) (_dig_P5 o)
           (_dig_P6 o) (_dig_P7 o) (_dig_P8 o) (_dig_P9 o)
           (_dig_H1 o) (_dig_H2 o) (_dig_H3 o) (_dig_H4 o) (_dig_H5 o) (_dig_H6 o).

Definition set_dig_P1 (v : Z) (o : ErriezBMX280) : ErriezBMX280 :=
  mkBMX280 (_i2cAddr o) (_chipID o) (_t_fine o)
           (_dig_T1 o) (_dig_T2 o) (_dig_T3 o)
           v (_dig_P2 o) (_dig_P3 o) (_dig_P4 o) (_dig_P5 o)
           (_dig_P6 o) (_dig_P7 o) (_dig_P8 o) (_dig_P9 o)
           (_dig_H1 o) (_dig_H2 o) (_dig_H3 o) (_dig_H4 o) (_dig_H5 o) (_dig_H6 o).

Definition set_dig_P2 (v : Z) (o : ErriezBMX280) : ErriezBMX280 :=
  mkBMX280 (_i2cAddr o) (_chipID o) (_t_fine o)
           (_dig_T1 o) (_dig_T2 o) (_dig_T3 o)
           (_dig_P1 o) v (_dig_P3 o) (_dig_P4 o) (_dig_P5 o)
           (_dig_P6 o) (_dig_P7 o) (_dig_P8 o) (_dig_P9 o)
           (_dig_H1 o) (_dig_H2 o) (_dig_H3 o) (_dig_H4 o) (_dig_H5 o) (_dig_H6 o).

Definition set_dig_P3 (v : Z) (o : ErriezBMX280) : ErriezBMX280 :=
  mkBMX280 (_i2cAddr o) (_chipID o) (_t_fine o)
           (_dig_T1 o) (_dig_T2 o) (_dig_T3 o)
           (_dig_P1 o) (_dig_P2 o) v (_dig_P4 o) (_dig_P5 o)
           (_dig_P6 o) (_dig_P7 o) (_dig_P8 o) (_dig_P9 o)
           (_dig_H1 o) (_dig_H2 o) (_dig_H3 o) (_dig_H4 o) (_dig_H5 o) (_dig_H6 o).

Definition set_dig_P4 (v : Z) (o : ErriezBMX280) : ErriezBMX280 :=
  mkBMX280 (_i2cAddr o) (_chipID o) (_t_fine o)
           (_dig_T1 o) (_dig_T2 o) (_dig_T3 o)
           (_dig_P1 o) (_dig_P2 o) (_dig_P3 o) v (_dig_P5 o)
           (_dig_P6 o) (_dig_P7 o) (_dig_P8 o) (_dig_P9 o)
           (_dig_H1 o) (_dig_H2 o) (_dig_H3 o) (_dig_H4 o) (_dig_H5 o) (_dig_H6 o).

Definition set_dig_P5 (v : Z) (o : ErriezBMX280) : ErriezBMX280 :=
  mkBMX280 (_i2cAddr o) (_chipID o) (_t_fine o)
           (_dig_T1 o) (_dig_T2 o) (_dig_T3 o)
           (_dig_P1 o) (_dig_P2 o) (_dig_P3 o) (_dig_P4 o) v
           (_dig_P6 o) (_dig_P7 o) (_dig_P8 o) (_dig_P9 o)
           (_dig_H1 o) (_dig_H2 o) (_dig_H3 o) (_dig_H4 o) (_dig_H5 o) (_dig_H6 o).

Definition set_dig_P6 (v : Z) (o : ErriezBMX280) : ErriezBMX280 :=
  mkBMX280 (_i2cAddr o) (_chipID o) (_t_fine o)
           (_dig_T1 o) (_dig_T2 o) (_dig_T3 o)
           (_dig_P1 o) (_dig_P2 o) (_dig_P3 o) (_dig_P4 o) (_dig_P5 o)
           v (_dig_P7 o) (_dig_P8 o) (_dig_P9 o)
           (_dig_H1 o) (_dig_H2 o) (_dig_H3 o) (_dig_H4 o) (_dig_H5 o) (_dig_H6 o).

Definition set_dig_P7 (v : Z) (o : ErriezBMX280) : ErriezBMX280 :=
  mkBMX280 (_i2cAddr o) (_chipID o) (_t_fine o)
           (_dig_T1 o) (_dig_T2 o) (_dig_T3 o)
           (_dig_P1 o) (_dig_P2 o) (_dig_P3 o) (_dig_P4 o) (_dig_P5 o)
           (_dig_P6 o) v (_dig_P8 o) (_dig_P9 o)
           (_dig_H1 o) (_dig_H2 o) (_dig_H3 o) (_dig_H4 o) (_dig_H5 o) (_dig_H6 o).

Definition set_dig_P8 (v : Z) (o : ErriezBMX280) : ErriezBMX280 :=
  mkBMX280 (_i2cAddr o) (_chipID o) (_t_fine o)
           (_dig_T1 o) (_dig_T2 o) (_dig_T3 o)
           (_dig_P1 o) (_dig_P2 o) (_dig_P3 o) (_dig_P4 o) (_dig_P5 o)
           (_dig_P6 o) (_dig_P7 o) v (_dig_P9 o)
           (_dig_H1 o) (_dig_H2 o) (_dig_H3 o) (_dig_H4 o) (_dig_H5 o) (_dig_H6 o).

Definition set_dig_P9 (v : Z) (o : ErriezBMX280) : ErriezBMX280 :=
  mkBMX280 (_i2cAddr o) (_chipID o) (_t_fine o)
           (_dig_T1 o) (_dig_T2 o) (_dig_T3 o)
           (_dig_P1 o) (_dig_P2 o) (_dig_P3 o) (_dig_P4 o) (_dig_P5 o)
           (_dig_P6 o) (_dig_P7 o) (_dig_P8 o) v
           (_dig_H1 o) (_dig_H2 o) (_dig_H3 o) (_dig_H4 o) (_dig_H5 o) (_dig_H6 o).

Definition set_dig_H1 (v : Z) (o : ErriezBMX280) : ErriezBMX280 :=
  mkBMX280 (_i2cAddr o) (_chipID o) (_t_fine o)
           (_dig_T1 o) (_dig_T2 o) (_dig_T3 o)
           (_dig_P1 o) (_dig_P2 o) (_dig_P3 o) (_dig_P4 o) (_dig_P5 o)
           (_dig_P6 o) (_dig_P7 o) (_dig_P8 o) (_dig_P9 o)
           v (_dig_H2 o) (_dig_H3 o) (_dig_H4 o) (_dig_H5 o) (_dig_H6 o).

Definition set_dig_H2 (v : Z) (o : ErriezBMX280) : ErriezBMX280 :=
  mkBMX280 (_i2cAddr o) (_chipID o) (_t_fine o)
           (_dig_T1 o) (_dig_T2 o) (_dig_T3 o)
           (_dig_P1 o) (_dig_P2 o) (_dig_P3 o) (_dig_P4 o) (_dig_P5 o)
           (_dig_P6 o) (_dig_P7 o) (_dig_P8 o) (_dig_P9 o)
           (_dig_H1 o) v (_dig_H3 o) (_dig_H4 o) (_dig_H5 o) (_dig_H6 o).

Definition set_dig_H3 (v : Z) (o : ErriezBMX280) : ErriezBMX280 :=
  mkBMX280 (_i2cAddr o) (_chipID o) (_t_fine o)
           (_dig_T1 o) (_dig_T2 o) (_dig_T3 o)
           (_dig_P1 o) (_dig_P2 o) (_dig_P3 o) (_dig_P4 o) (_dig_P5 o)
           (_dig_P6 o) (_dig_P7 o) (_dig_P8 o) (_dig_P9 o)
           (_dig_H1 o) (_dig_H2 o) v (_dig_H4 o) (_dig_H5 o) (_dig_H6 o).

Definition set_dig_H4 (v : Z) (o : ErriezBMX280) : ErriezBMX280 :=
  mkBMX280 (_i2cAddr o) (_chipID o) (_t_fine o)
           (_dig_T1 o) (_dig_T2 o) (_dig_T3 o)
           (_dig_P1 o) (_dig_P2 o) (_dig_P3 o) (_dig_P4 o) (_dig_P5 o)
           (_dig_P6 o) (_dig_P7 o) (_dig_P8 o) (_dig_P9 o)
           (_dig_H1 o) (_dig_H2 o) (_dig_H3 o) v (_dig_H5 o) (_dig_H6 o).

Definition set_dig_H5 (v : Z) (o : ErriezBMX280) : ErriezBMX280 :=
  mkBMX280 (_i2cAddr o) (_chipID o) (_t_fine o)
           (_dig_T1 o) (_dig_T2 o) (_dig_T3 o)
           (_dig_P1 o) (_dig_P2 o) (_dig_P3 o) (_dig_P4 o) (_dig_P5 o)
           (_dig_P6 o) (_dig_P7 o) (_dig_P8 o) (_dig_P9 o)
           (_dig_H1 o) (_dig_H2 o) (_dig_H3 o) (_dig_H4 o) v (_dig_H6 o).

Definition set_dig_H6 (v : Z) (o : ErriezBMX280) : ErriezBMX280 :=
  mkBMX280 (_i2cAddr o) (_chipID o) (_t_fine o)
           (_dig_T1 o) (_dig_T2 o) (_dig_T3 o)
           (_dig_P1 o) (_dig_P2 o) (_dig_P3 o) (_dig_P4 o) (_dig_P5 o)
           (_dig_P6 o) (_dig_P7 o) (_dig_P8 o) (_dig_P9 o)
           (_dig_H1 o) (_dig_H2 o) (_dig_H3 o) (_dig_H4 o) (_dig_H5 o) v.

(** The constructor: [_i2cAddr(i2cAddr), _t_fine(0)].  The other members
    are not initialised by the source; [init] supplies their content. *)
Definition ErriezBMX280_ctor (i2cAddr : Z) (init : ErriezBMX280)
  : ErriezBMX280 :=
  mkBMX280 (to_uint8 i2cAddr) (_chipID init) 0
           (_dig_T1 init) (_dig_T2 init) (_dig_T3 init)
           (_dig_P1 init) (_dig_P2 init) (_dig_P3 init) (_dig_P4 init)
           (_dig_P5 init) (_dig_P6 init) (_dig_P7 init) (_dig_P8 init)
           (_dig_P9 init)
           (_dig_H1 init) (_dig_H2 init) (_dig_H3 init) (_dig_H4 init)
           (_dig_H5 init) (_dig_H6 init).

(* ================================================================== *)
(** ** The integer parts of the compensation formulas

    The arithmetic of [readPressure] and [readHumidity] between the
    register reads and the conversion to [float], on the members of the
    object. *)

(** Lines 147-150 of [readPressure]: [var2] before the guard. *)
Definition readPressure_var2 (o : ErriezBMX280) : Z :=
  let var1 := sub64 (to_int64 (_t_fine o)) 128000 in
  let var2 := mul64 (mul64 var1 var1) (to_int64 (_dig_P6 o)) in
  let var2 := add64 var2 (shl64 (mul64 var1 (to_int64 (_dig_P5 o))) 17) in
  let var2 := add64 var2 (shl64 (to_int64 (_dig_P4 o)) 35) in
  var2.

(** Lines 147, 151 and 152 of [readPressure]: [var1] at the guard. *)
Definition readPressure_var1 (o : ErriezBMX280) : Z :=
  let var1 := sub64 (to_int64 (_t_fine o)) 128000 in
  let var1 :=
    add64 (shr64 (mul64 (mul64 var1 var1) (to_int64 (_dig_P3 o))) 8)
          (shl64 (mul64 var1 (to_int64 (_dig_P2 o))) 12) in
  let var1 :=
    shr64 (mul64 (add64 (shl64 (to_int64 1) 47) var1)
                 (to_int64 (_dig_P1 o))) 33 in
  var1.

(** Lines 157-162 of [readPressure]: [p] after the guard.  [None] is the
    division of line 158 performed with a zero divisor. *)
Definition readPressure_p (o : ErriezBMX280) (adc_P var1 var2 : Z)
  : option Z :=
  let p := to_int64 (sub32 1048576 adc_P) in
  match div64 (mul64 (sub64 (shl64 p 31) var2) 3125) var1 with
  | None => None
  | Some p =>
      let var1 :=
        shr64 (mul64 (mul64 (to_int64 (_dig_P9 o)) (shr64 p 13))
                     (shr64 p 13)) 25 in
      let var2 := shr64 (mul64 (to_int64 (_dig_P8 o)) p) 19 in
      let p :=
        add64 (shr64 (add64 (add64 p var1) var2) 8)
              (shl64 (to_int64 (_dig_P7 o)) 4) in
      Some p
  end.

(** Lines 204-215 of [readHumidity]: [v_x1_u32r] before the clamp. *)
Definition readHumidity_v_x1_u32r (o : ErriezBMX280) (adc_H : Z) : Z :=
  let v_x1_u32r := sub32 (_t_fine o) 76800 in
  let v_x1_u32r :=
    mul32
      (shr32 (add32 (sub32 (sub32 (shl32 adc_H 14)
                                  (shl32 (to_int32 (_dig_H4 o)) 20))
                           (mul32 (to_int32 (_dig_H5 o)) v_x1_u32r))
                    16384) 15)
      (shr32
         (add32
            (mul32
               (add32
                  (shr32
                     (mul32
                        (shr32 (mul32 v_x1_u32r (to_int32 (_dig_H6 o))) 10)
                        (add32
                           (shr32 (mul32 v_x1_u32r (to_int32 (_dig_H3 o)))
                                  11)
                           32768))
                     10)
                  2097152)
               (to_int32 (_dig_H2 o)))
            8192)
         14) in
  let v_x1_u32r :=
    sub32 v_x1_u32r
          (shr32 (mul32 (shr32 (mul32 (shr32 v_x1_u32r 15)
                                      (shr32 v_x1_u32r 15)) 7)
                        (to_int32 (_dig_H1 o))) 4) in
  v_x1_u32r.

(* ================================================================== *)
(** ** The I2C bus and the Wire object *)

(** What happened on the bus (and the calls of [delay]), oldest first. *)
Inductive BusEvent :=
| Transmit (addr : Z) (bytes : list Z) (status : Z)
| Request (addr : Z) (quantity : Z) (bytes : list Z)
| Delay (ms : Z).

(** The bus with the devices attached to it.  [bus_transmit addr bytes]
    sends a write transaction and yields the status [endTransmission]
    reports (0 is success); [bus_request addr n] performs a read
    transaction of [n] bytes and yields the bytes received. *)
Class I2CBus (D : Type) := {
  bus_transmit : Z -> list Z -> D -> Z * D;
  bus_request : Z -> Z -> D -> list Z * D
}.

Section Driver.

Context {D : Type} `{I2CBus D}.

(** The [Wire] object. *)
Record TwoWire := mkWire {
  txAddress : Z;
  txBuffer : list Z;
  rxBuffer : list Z;
  bus : D;
  trace : list BusEvent
}.

Record World := mkWorld {
  this : ErriezBMX280;
  Wire : TwoWire
}.

(** State transformers. *)
Definition M (A : Type) : Type := World -> A * World.

Definition ret {A} (a : A) : M A := fun w => (a, w).
Definition bind {A B} (m : M A) (k : A -> M B) : M B :=
  fun w => let (a, w') := m w in k a w'.

Notation "x <- m ;; k" := (bind m (fun x => k))
  (at level 61, m at next level, right associativity).
Notation "m ;;; k" := (bind m (fun _ => k))
  (at level 61, right associativity).

Definition get_this : M ErriezBMX280 := fun w => (this w, w).
Definition modify_this (f : ErriezBMX280 -> ErriezBMX280) : M unit :=
  fun w => (tt, mkWorld (f (this w)) (Wire w)).
Definition modify_Wire (f : TwoWire -> TwoWire) : M unit :=
  fun w => (tt, mkWorld (this w) (f (Wire w))).

(** *** Wire *)

Definition Wire_beginTransmission (addr : Z) : M unit :=
  modify_Wire (fun W =>
    mkWire (to_uint8 addr) [] (rxBuffer W) (bus W) (trace W)).

Definition Wire_write (b : Z) : M unit :=
  modify_Wire (fun W =>
    mkWire (txAddress W) (txBuffer W ++ [to_uint8 b]) (rxBuffer W)
           (bus W) (trace W)).

Definition Wire_endTransmission : M Z := fun w =>
  let W := Wire w in
  let (status, d) := bus_transmit (txAddress W) (txBuffer W) (bus W) in
  let status := to_uint8 status in
  (status,
   mkWorld (this w)
     (mkWire (txAddress W) [] (rxBuffer W) d
        (trace W ++ [Transmit (txAddress W) (txBuffer W) status]))).

Definition Wire_requestFrom (addr quantity : Z) : M Z := fun w =>
  let W := Wire w in
  let addr := to_uint8 addr in
  let quantity := to_uint8 quantity in
  let (bytes, d) := bus_request addr quantity (bus W) in
  let bytes := firstn (Z.to_nat quantity) (map to_uint8 bytes) in
  (Z.of_nat (length bytes),
   mkWorld (this w)
     (mkWire (txAddress W) (txBuffer W) bytes d
        (trace W ++ [Request addr quantity bytes]))).

(** [Wire.read()]: the next received byte, or -1 when there is none. *)
Definition Wire_read : M Z := fun w =>
  let W := Wire w in
  match rxBuffer W with
  | [] => (-1, w)
  | b :: rest =>
      (b, mkWorld (this w)
            (mkWire (txAddress W) (txBuffer W) rest (bus W) (trace W)))
  end.

Definition delay (ms : Z) : M unit :=
  modify_Wire (fun W =>
    mkWire (txAddress W) (txBuffer W) (rxBuffer W) (bus W)
           (trace W ++ [Delay ms])).

(** *** Register access *)

Definition read8 (reg : Z) : M Z :=
  o <- get_this ;;
  Wire_beginTransmission (_i2cAddr o) ;;;
  Wire_write reg ;;;
  st <- Wire_endTransmission ;;
  if negb (st =? 0) then ret 0
  else
    Wire_requestFrom (_i2cAddr o) 1 ;;;
    v <- Wire_read ;;
    ret (to_uint8 v).

Definition write8 (reg value : Z) : M unit :=
  o <- get_this ;;
  Wire_beginTransmission (_i2cAddr o) ;;;
  Wire_write reg ;;;
  Wire_write value ;;;
  Wire_endTransmission ;;;
  ret tt.

(** The operands of [|] are evaluated left to right: the first
    [Wire.read()] is the one that is shifted. *)
Definition read16 (reg : Z) : M Z :=
  o <- get_this ;;
  Wire_beginTransmission (_i2cAddr o) ;;;
  Wire_write reg ;;;
  st <- Wire_endTransmission ;;
  if negb (st =? 0) then ret 0
  else
    Wire_requestFrom (_i2cAddr o) 2 ;;;
    hi <- Wire_read ;;
    lo <- Wire_read ;;
    ret (to_uint16 (Z.lor (Z.shiftl hi 8) lo)).

Definition read16_LE (reg : Z) : M Z :=
  value <- read16 reg ;;
  ret (to_uint16 (Z.lor (Z.shiftr value 8) (Z.shiftl value 8))).

Definition readS16_LE (reg : Z) : M Z :=
  v <- read16_LE reg ;;
  ret (to_int16 v).

Definition read24 (reg : Z) : M Z :=
  o <- get_this ;;
  Wire_beginTransmission (_i2cAddr o) ;;;
  Wire_write reg ;;;
  Wire_endTransmission ;;;
  Wire_requestFrom (_i2cAddr o) 3 ;;;
  b0 <- Wire_read ;;
  let value := to_uint32 b0 in
  let value := to_uint32 (Z.shiftl value 8) in
  b1 <- Wire_read ;;
  let value := Z.lor value (to_uint32 b1) in
  let value := to_uint32 (Z.shiftl value 8) in
  b2 <- Wire_read ;;
  let value := Z.lor value (to_uint32 b2) in
  ret value.

(** *** readTemperature *)

Definition readTemperature : M Q :=
  raw <- read24 BMX280_REG_TEMP ;;
  let adc_T := to_int32 raw in
  let adc_T := shr32 adc_T 4 in
  o <- get_this ;;
  let var1 :=
    shr32 (mul32 (sub32 (shr32 adc_T 3) (shl32 (to_int32 (_dig_T1 o)) 1))
                 (to_int32 (_dig_T2 o))) 11 in
  let var2 :=
    shr32 (mul32 (shr32 (mul32 (sub32 (shr32 adc_T 4) (to_int32 (_dig_T1 o)))
                               (sub32 (shr32 adc_T 4) (to_int32 (_dig_T1 o))))
                        12)
                 (to_int32 (_dig_T3 o))) 14 in
  modify_this (set_t_fine (add32 var1 var2)) ;;;
  o <- get_this ;;
  let temperature := shr32 (add32 (mul32 (_t_fine o) 5) 128) 8 in
  ret (float_div temperature 100).

(** *** readPressure

    The result is [None] when the division at line 158 is reached with
    a zero divisor. *)

Definition readPressure : M (option Q) :=
  readTemperature ;;;
  raw <- read24 BMX280_REG_PRESS ;;
  let adc_P := to_int32 raw in
  let adc_P := shr32 adc_P 4 in
  o <- get_this ;;
  let var2 := readPressure_var2 o in
  let var1 := readPressure_var1 o in
  if var1 =? 0 then ret (Some (float_of_int 0))
  else
    match readPressure_p o adc_P var1 var2 with
    | None => ret None
    | Some p => ret (Some (float_div (to_float p) 256))
    end.

(** *** readHumidity *)

Definition readHumidity : M Q :=
  o <- get_this ;;
  if negb (_chipID o =? CHIP_ID_BME280) then ret (float_of_int 0)
  else
    readTemperature ;;;
    raw <- read16 BME280_REG_HUM ;;
    let adc_H := to_int32 raw in
    o <- get_this ;;
    let v_x1_u32r := readHumidity_v_x1_u32r o adc_H in
    let v_x1_u32r := if v_x1_u32r <? 0 then 0 else v_x1_u32r in
    let v_x1_u32r :=
      if v_x1_u32r >? 419430400 then 419430400 else v_x1_u32r in
    let humidity := shr32 v_x1_u32r 12 in
    ret (float_div humidity 1024).

(** *** readCoefficients

    In the two [|] expressions the left operand's [read8] is performed
    first. *)

Definition readCoefficients : M unit :=
  v <- read16_LE BMX280_REG_DIG_T1 ;; modify_this (set_dig_T1 v) ;;;
  v <- readS16_LE BMX280_REG_DIG_T2 ;; modify_this (set_dig_T2 v) ;;;
  v <- readS16_LE BMX280_REG_DIG_T3 ;; modify_this (set_dig_T3 v) ;;;

  v <- read16_LE BMX280_REG_DIG_P1 ;; modify_this (set_dig_P1 v) ;;;
  v <- readS16_LE BMX280_REG_DIG_P2 ;; modify_this (set_dig_P2 v) ;;;
  v <- readS16_LE BMX280_REG_DIG_P3 ;; modify_this (set_dig_P3 v) ;;;
  v <- readS16_LE BMX280_REG_DIG_P4 ;; modify_this (set_dig_P4 v) ;;;
  v <- readS16_LE BMX280_REG_DIG_P5 ;; modify_this (set_dig_P5 v) ;;;
  v <- readS16_LE BMX280_REG_DIG_P6 ;; modify_this (set_dig_P6 v) ;;;
  v <- readS16_LE BMX280_REG_DIG_P7 ;; modify_this (set_dig_P7 v) ;;;
  v <- readS16_LE BMX280_REG_DIG_P8 ;; modify_this (set_dig_P8 v) ;;;
  v <- readS16_LE BMX280_REG_DIG_P9 ;; modify_this (set_dig_P9 v) ;;;

  o <- get_this ;;
  if _chipID o =? CHIP_ID_BME280 then
    v <- read8 BME280_REG_DIG_H1 ;; modify_this (set_dig_H1 v) ;;;
    v <- readS16_LE BME280_REG_DIG_H2 ;; modify_this (set_dig_H2 v) ;;;
    v <- read8 BME280_REG_DIG_H3 ;; modify_this (set_dig_H3 v) ;;;
    a <- read8 BME280_REG_DIG_H4 ;;
    b <- read8 (BME280_REG_DIG_H4 + 1) ;;
    modify_this
      (set_dig_H4 (to_int16 (Z.lor (Z.shiftl (to_int8 a) 4)
                                   (Z.land b 0xF)))) ;;;
    a <- read8 (BME280_REG_DIG_H5 + 1) ;;
    b <- read8 BME280_REG_DIG_H5 ;;
    modify_this
      (set_dig_H5 (to_int16 (Z.lor (Z.shiftl (to_int8 a) 4)
                                   (Z.shiftr b 4)))) ;;;
    v <- read8 BME280_REG_DIG_H6 ;; modify_this (set_dig_H6 (to_int8 v))
  else ret tt.

(** *** setSampling *)

Definition setSampling (mode : BMX280_Mode_e)
                       (tempSampling pressSampling humSampling
                          : BMX280_Sampling_e)
                       (filter : BMX280_Filter_e)
                       (standbyDuration : BMX280_Standby_e) : M unit :=
  write8 BMX280_REG_CTRL_MEAS (mode_code BMX280_MODE_SLEEP) ;;;
  o <- get_this ;;
  (if _chipID o =? CHIP_ID_BME280
   then write8 BME280_REG_CTRL_HUM (sampling_code humSampling)
   else ret tt) ;;;
  write8 BMX280_REG_CONFIG
         (Z.lor (Z.shiftl (standby_code standbyDuration) 5)
                (Z.shiftl (filter_code filter) 2)) ;;;
  write8 BMX280_REG_CTRL_MEAS
         (Z.lor (Z.lor (Z.shiftl (sampling_code tempSampling) 5)
                       (Z.shiftl (sampling_code pressSampling) 2))
                (mode_code mode)).

(** [setSampling()] with the default arguments of the declaration. *)
Definition setSampling_default : M unit :=
  setSampling BMX280_MODE_NORMAL BMX280_SAMPLING_X16 BMX280_SAMPLING_X16
              BMX280_SAMPLING_X16 BMX280_FILTER_OFF BMX280_STANDBY_MS_0_5.

(** *** begin

    The loop of lines 71-73.  [fuel] bounds the number of times the loop
    body runs; [None] means the bound was reached with the loop still
    running. *)

Fixpoint wait_im_update (fuel : nat) (w : World) : option World :=
  let (status, w1) := read8 BMX280_REG_STATUS w in
  if negb (Z.land status (Z.shiftl 1 STATUS_IM_UPDATE) =? 0) then
    match fuel with
    | O => None
    | S fuel' => wait_im_update fuel' (snd (delay 10 w1))
    end
  else Some w1.

Definition begin (fuel : nat) (w : World) : option (bool * World) :=
  let (id, w) := read8 BME280_REG_CHIPID w in
  let (_, w) := modify_this (set_chipID id) w in
  if negb (_chipID (this w) =? CHIP_ID_BMP280)
     && negb (_chipID (this w) =? CHIP_ID_BME280)
  then Some (false, w)
  else
    let (_, w) := write8 BME280_REG_RESET RESET_KEY w in
    let (_, w) := delay 10 w in
    match wait_im_update fuel w with
    | None => None
    | Some w =>
        let (_, w) := readCoefficients w in
        let (_, w) := setSampling_default w in
        let (_, w) := delay 100 w in
        Some (true, w)
    end.

Definition getChipID : M Z :=
  o <- get_this ;; ret (_chipID o).

End Driver.

Arguments TwoWire D : clear implicits.
Arguments World D : clear implicits.

(* ================================================================== *)
(** ** A register-file device

    A bus with one sensor on it, used to run the driver.  The sensor's
    registers hold [mem]; the first byte of a write transaction selects
    the register to read from; a read returns consecutive registers,
    lowest address first.  A write transaction that starts with a
    register address in [nak] is not acknowledged (status 2).  While
    [sim_busy] is positive a read of the status register reports the
    im_update bit and counts [sim_busy] down. *)

Record SimDevice := mkSim {
  sim_pointer : Z;
  sim_busy : nat
}.

Definition sim_transmit (nak : Z -> bool) (addr : Z) (bytes : list Z)
                        (d : SimDevice) : Z * SimDevice :=
  match bytes with
  | [] => (0, d)
  | reg :: _ =>
      if nak reg then (2, d) else (0, mkSim reg (sim_busy d))
  end.

Definition sim_request (mem : Z -> Z) (addr quantity : Z) (d : SimDevice)
  : list Z * SimDevice :=
  let p := sim_pointer d in
  match sim_busy d with
  | S n =>
      if p =? BMX280_REG_STATUS
      then ([Z.lor (mem p) 1], mkSim (p + 1) n)
      else (map (fun i => mem (p + Z.of_nat i)) (seq 0 (Z.to_nat quantity)),
            mkSim (p + quantity) (S n))
  | O =>
      (map (fun i => mem (p + Z.of_nat i)) (seq 0 (Z.to_nat quantity)),
       mkSim (p + quantity) O)
  end.

Definition SimBus (mem : Z -> Z) (nak : Z -> bool) : I2CBus SimDevice :=
  {| bus_transmit := sim_transmit nak; bus_request := sim_request mem |}.

(** Register contents given as an association list; other registers
    read 0. *)
Fixpoint mem_of (l : list (Z * Z)) (reg : Z) : Z :=
  match l with
  | [] => 0
  | (r, v) :: l' => if r =? reg then v else mem_of l' reg
  end.

Definition never (reg : Z) : bool := false.

Definition blank : ErriezBMX280 :=
  mkBMX280 0 0 0 0 0 0 0 0 0 0 0 0 0 0 0 0 0 0 0 0 0.

Definition idle_Wire : TwoWire SimDevice := mkWire 0 [] [] (mkSim 0 0) [].

(** A freshly constructed driver on an idle bus. *)
Definition power_on (i2cAddr : Z) : World SimDevice :=
  mkWorld (ErriezBMX280_ctor i2cAddr blank) idle_Wire.

(** The same, on a sensor that reports im_update for the next [n] status
    reads. *)
Definition busy_world (n : nat) : World SimDevice :=
  mkWorld (ErriezBMX280_ctor BMX280_I2C_ADDR blank)
          (mkWire 0 [] [] (mkSim 0 n) []).

(** The worked example of the BMP280 data sheet (section 8.2 of the
    BME280 data sheet has the same formulas). *)
Definition datasheet_mem : Z -> Z :=
  mem_of [ (0xD0, 0x58);
           (0x88, 0x70); (0x89, 0x6B);     (* dig_T1 = 27504 *)
           (0x8A, 0x43); (0x8B, 0x67);     (* dig_T2 = 26435 *)
           (0x8C, 0x18); (0x8D, 0xFC);     (* dig_T3 = -1000 *)
           (0x8E, 0x7D); (0x8F, 0x8E);     (* dig_P1 = 36477 *)
           (0x90, 0x43); (0x91, 0xD6);     (* dig_P2 = -10685 *)
           (0x92, 0xD0); (0x93, 0x0B);     (* dig_P3 = 3024 *)
           (0x94, 0x27); (0x95, 0x0B);     (* dig_P4 = 2855 *)
           (0x96, 0x8C); (0x97, 0x00);     (* dig_P5 = 140 *)
           (0x98, 0xF9); (0x99, 0xFF);     (* dig_P6 = -7 *)
           (0x9A, 0x8C); (0x9B, 0x3C);     (* dig_P7 = 15500 *)
           (0x9C, 0xF8); (0x9D, 0xC6);     (* dig_P8 = -14600 *)
           (0x9E, 0x70); (0x9F, 0x17);     (* dig_P9 = 6000 *)
           (0xFA, 0x7E); (0xFB, 0xED); (0xFC, 0x00);   (* adc_T = 519888 *)
           (0xF7, 0x65); (0xF8, 0x5A); (0xF9, 0xC0) ]. (* adc_P = 415148 *)

(** The driver object after [begin] on that sensor. *)
Definition datasheet_object : ErriezBMX280 :=
  mkBMX280 BMX280_I2C_ADDR CHIP_ID_BMP280 0
           27504 26435 (-1000)
           36477 (-10685) 3024 2855 140 (-7) 15500 (-14600) 6000
           0 0 0 0 0 0.

Definition datasheet_world : World SimDevice :=
  mkWorld datasheet_object idle_Wire.

(** A BME280: the same temperature and pressure block, humidity
    coefficients 75, 367, 0, 311, 50, 30 and a humidity reading. *)
Definition bme280_mem : Z -> Z :=
  mem_of [ (0xD0, 0x60);
           (0xA1, 0x4B);                   (* dig_H1 = 75 *)
           (0xE1, 0x6F); (0xE2, 0x01);     (* dig_H2 = 367 *)
           (0xE3, 0x00);                   (* dig_H3 = 0 *)
           (0xE4, 0x13); (0xE5, 0x27);     (* dig_H4 = 311 *)
           (0xE6, 0x03);                   (* dig_H5 = 50 *)
           (0xE7, 0x1E);                   (* dig_H6 = 30 *)
           (0xFD, 0x6E); (0xFE, 0x00);     (* adc_H = 28160 *)
           (0x88, 0x70); (0x89, 0x6B); (0x8A, 0x43); (0x8B, 0x67);
           (0x8C, 0x18); (0x8D, 0xFC); (0x8E, 0x7D); (0x8F, 0x8E);
           (0x90, 0x43); (0x91, 0xD6); (0x92, 0xD0); (0x93, 0x0B);
           (0x94, 0x27); (0x95, 0x0B); (0x96, 0x8C); (0x97, 0x00);
           (0x98, 0xF9); (0x99, 0xFF); (0x9A, 0x8C); (0x9B, 0x3C);
           (0x9C, 0xF8); (0x9D, 0xC6); (0x9E, 0x70); (0x9F, 0x17);
           (0xFA, 0x7E); (0xFB, 0xED); (0xFC, 0x00);
           (0xF7, 0x65); (0xF8, 0x5A); (0xF9, 0xC0) ].

Definition bme280_object : ErriezBMX280 :=
  mkBMX280 BMX280_I2C_ADDR CHIP_ID_BME280 0
           27504 26435 (-1000)
           36477 (-10685) 3024 2855 140 (-7) 15500 (-14600) 6000
           75 367 0 311 50 30.

Definition bme280_world : World SimDevice :=
  mkWorld bme280_object idle_Wire.

(** A BME280 whose only non-zero coefficients are dig_H2 = 400 and
    dig_H4 = 100, with the humidity registers reading 0x0000 and 0xFFFF:
    the two readings drive the intermediate below 0 and above
    419430400. *)
Definition clamp_object : ErriezBMX280 :=
  mkBMX280 BMX280_I2C_ADDR CHIP_ID_BME280 0
           0 0 0
           0 0 0 0 0 0 0 0 0
           0 400 0 100 0 0.

Definition clamp_world : World SimDevice := mkWorld clamp_object idle_Wire.

Definition humidity_0000_mem : Z -> Z := mem_of [].

Definition humidity_FFFF_mem : Z -> Z := mem_of [ (0xFD, 0xFF); (0xFE, 0xFF) ].

(** A sensor that answers the identity read with 0x60 and the status read
    with im_update set, for ever. *)
Definition stuck_mem : Z -> Z := mem_of [ (0xD0, 0x60); (0xF3, 0x01) ].

(** A device that is neither chip (identity 0x00) and whose status
    register reads 0x01. *)
Definition foreign_mem : Z -> Z := mem_of [ (0xF3, 0x01) ].

(** Not acknowledging the status register address. *)
Definition nak_status (reg : Z) : bool := reg =? BMX280_REG_STATUS.

(** Not acknowledging the temperature and pressure coefficient block. *)
Definition nak_coefficients (reg : Z) : bool :=
  (BMX280_REG_DIG_T1 <=? reg) && (reg <=? BMX280_REG_DIG_P9 + 1).

(* ================================================================== *)
(** ** The compensation formulas as the specification words them *)

Module Spec.

(** Fine temperature from the 24-bit register value: low 4 bits
    dropped, two-term polynomial in 32-bit signed arithmetic. *)
Definition fineTemperature (raw dig_T1 dig_T2 dig_T3 : Z) : Z :=
  let adc_T := Z.shiftr raw 4 in
  let var1 :=
    shr32 (mul32 (sub32 (Z.shiftr adc_T 3) (shl32 dig_T1 1)) dig_T2) 11 in
  let var2 :=
    shr32 (mul32 (shr32 (mul32 (sub32 (Z.shiftr adc_T 4) dig_T1)
                               (sub32 (Z.shiftr adc_T 4) dig_T1)) 12)
                 dig_T3) 14 in
  add32 var1 var2.

(** Degrees Celsius times 100. *)
Definition centidegrees (fine : Z) : Z :=
  shr32 (add32 (mul32 fine 5) 128) 8.

Definition celsius (fine : Z) : Q := centidegrees fine # 100.

(** The divisor of the pressure formula. *)
Definition pressure_var1 (fine dig_P1 dig_P2 dig_P3 : Z) : Z :=
  let v := sub64 fine 128000 in
  shr64 (mul64 (add64 (shl64 1 47)
                      (add64 (shr64 (mul64 (mul64 v v) dig_P3) 8)
                             (shl64 (mul64 v dig_P2) 12)))
               dig_P1) 33.

(** The humidity clamp and the final scaling. *)
Definition clamp (x : Z) : Z := Z.min 419430400 (Z.max 0 x).

Definition percent (intermediate : Z) : Q :=
  Z.shiftr (clamp intermediate) 12 # 1024.

(** The value of a [w]-bit pattern read as two's complement. *)
Definition signed (w x : Z) : Z :=
  if x <? 2 ^ (w - 1) then x else x - 2 ^ w.

(** The 16-bit value stored low byte first at [reg] and [reg + 1]. *)
Definition le16 (byte : Z -> Z) (reg : Z) : Z :=
  byte reg + 256 * byte (reg + 1).

End Spec.

(* ================================================================== *)
(** ** The course of the status poll *)

Section Poll.

Context {D : Type} `{I2CBus D}.

(** Whether a read of the status register in state [w] reports the
    im_update bit. *)
Definition im_update (w : World D) : bool :=
  Z.testbit (fst (read8 BMX280_REG_STATUS w)) STATUS_IM_UPDATE.

(** The state in which the poll loop makes its [n]-th re-read of the
    status register, when started in [w] and not left before. *)
Fixpoint poll_state (n : nat) (w : World D) : World D :=
  match n with
  | O => w
  | S n' =>
      poll_state n' (snd (delay 10 (snd (read8 BMX280_REG_STATUS w))))
  end.

(** The state in which [begin] enters the poll loop: identity read and
    recorded, reset written, 10 ms waited. *)
Definition after_reset (w : World D) : World D :=
  let (id, w) := read8 BME280_REG_CHIPID w in
  let (_, w) := modify_this (set_chipID id) w in
  let (_, w) := write8 BME280_REG_RESET RESET_KEY w in
  let (_, w) := delay 10 w in
  w.

(** What [begin] does once the poll loop is left in state [w]. *)
Definition after_poll (w : World D) : World D :=
  let (_, w) := readCoefficients w in
  let (_, w) := setSampling_default w in
  let (_, w) := delay 100 w in
  w.

End Poll.

(* ================================================================== *)
(** ** Notions used to state further properties *)

(** Two driver objects agree on every member but [_t_fine]. *)
Definition same_except_t_fine (o o' : ErriezBMX280) : Prop :=
  set_t_fine 0 o = set_t_fine 0 o'.

(** The range of a 12-bit two's complement value. *)
Definition is_int12 (x : Z) : Prop := -2048 <= x < 2048.

(** The members [readCoefficients] assigns from the temperature and
    pressure block, read off the register bytes [byte]. *)
Definition decoded_TP (byte : Z -> Z) (o : ErriezBMX280) : ErriezBMX280 :=
  set_dig_P9 (Spec.signed 16 (Spec.le16 byte BMX280_REG_DIG_P9))
  (set_dig_P8 (Spec.signed 16 (Spec.le16 byte BMX280_REG_DIG_P8))
  (set_dig_P7 (Spec.signed 16 (Spec.le16 byte BMX280_REG_DIG_P7))
  (set_dig_P6 (Spec.signed 16 (Spec.le16 byte BMX280_REG_DIG_P6))
  (set_dig_P5 (Spec.signed 16 (Spec.le16 byte BMX280_REG_DIG_P5))
  (set_dig_P4 (Spec.signed 16 (Spec.le16 byte BMX280_REG_DIG_P4))
  (set_dig_P3 (Spec.signed 16 (Spec.le16 byte BMX280_REG_DIG_P3))
  (set_dig_P2 (Spec.signed 16 (Spec.le16 byte BMX280_REG_DIG_P2))
  (set_dig_P1 (Spec.le16 byte BMX280_REG_DIG_P1)
  (set_dig_T3 (Spec.signed 16 (Spec.le16 byte BMX280_REG_DIG_T3))
  (set_dig_T2 (Spec.signed 16 (Spec.le16 byte BMX280_REG_DIG_T2))
  (set_dig_T1 (Spec.le16 byte BMX280_REG_DIG_T1) o))))))))))).

(** The same for the humidity block. *)
Definition decoded_H (byte : Z -> Z) (o : ErriezBMX280) : ErriezBMX280 :=
  set_dig_H6 (Spec.signed 8 (byte BME280_REG_DIG_H6))
  (set_dig_H5 (Z.lor (Z.shiftl (Spec.signed 8 (byte (BME280_REG_DIG_H5 + 1))) 4)
                     (Z.shiftr (byte BME280_REG_DIG_H5) 4))
  (set_dig_H4 (Z.lor (Z.shiftl (Spec.signed 8 (byte BME280_REG_DIG_H4)) 4)
                     (Z.land (byte (BME280_REG_DIG_H4 + 1)) 0xF))
  (set_dig_H3 (byte BME280_REG_DIG_H3)
  (set_dig_H2 (Spec.signed 16 (Spec.le16 byte BME280_REG_DIG_H2))
  (set_dig_H1 (byte BME280_REG_DIG_H1) o))))).

Definition decoded (byte : Z -> Z) (o : ErriezBMX280) : ErriezBMX280 :=
  if _chipID o =? CHIP_ID_BME280
  then decoded_H byte (decoded_TP byte o)
  else decoded_TP byte o.

(** Register contents [mem] with the 16-bit two's complement pattern of
    [v] stored low byte first at [reg] and [reg + 1]. *)
Definition store16 (reg v : Z) (mem : Z -> Z) : Z -> Z :=
  fun r =>
    if r =? reg then v mod 256
    else if r =? reg + 1 then (v / 256) mod 256
    else mem r.

(** Register contents [mem] with the 12-bit patterns of [h4] and [h5]
    stored the way the sensor packs dig_H4 and dig_H5 into 0xE4..0xE6. *)
Definition store_H4_H5 (h4 h5 : Z) (mem : Z -> Z) : Z -> Z :=
  fun r =>
    if r =? BME280_REG_DIG_H4 then (h4 / 16) mod 256
    else if r =? BME280_REG_DIG_H5 then h4 mod 16 + 16 * (h5 mod 16)
    else if r =? BME280_REG_DIG_H5 + 1 then (h5 / 16) mod 256
    else mem r.

(** A bus on which every write is acknowledged and no read delivers a
    byte. *)
Definition SilentBus : I2CBus unit :=
  {| bus_transmit := fun _ _ d => (0, d);
     bus_request := fun _ _ d => ([], d) |}.

Definition silent_world : World unit :=
  mkWorld (ErriezBMX280_ctor BMX280_I2C_ADDR blank) (mkWire 0 [] [] tt []).

(* ================================================================== *)
(** ** Facts about the fixed-width conversions *)

Lemma to_int32_id x : is_int32 x -> to_int32 x = x.
Proof.
  unfold is_int32, to_int32, wrap_signed. intros Hx.
  change (2 ^ (32 - 1)) with 2147483648. change (2 ^ 32) with 4294967296.
  rewrite Z.mod_small; lia.
Qed.

Lemma to_int64_id x : is_int64 x -> to_int64 x = x.
Proof.
  unfold is_int64, to_int64, wrap_signed. intros Hx.
  change (2 ^ (64 - 1)) with 9223372036854775808.
  change (2 ^ 64) with 18446744073709551616.
  rewrite Z.mod_small; lia.
Qed.

Lemma to_int16_id x : is_int16 x -> to_int16 x = x.
Proof.
  unfold is_int16, to_int16, wrap_signed. intros Hx.
  change (2 ^ (16 - 1)) with 32768. change (2 ^ 16) with 65536.
  rewrite Z.mod_small; lia.
Qed.

Lemma to_uint8_id x : is_uint8 x -> to_uint8 x = x.
Proof.
  unfold is_uint8, to_uint8, wrap_unsigned. intros Hx.
  change (2 ^ 8) with 256. apply Z.mod_small; lia.
Qed.

Lemma to_uint8_range x : is_uint8 (to_uint8 x).
Proof.
  unfold is_uint8, to_uint8, wrap_unsigned. change (2 ^ 8) with 256.
  apply Z.mod_pos_bound; lia.
Qed.

Lemma to_uint16_range x : is_uint16 (to_uint16 x).
Proof.
  unfold is_uint16, to_uint16, wrap_unsigned. change (2 ^ 16) with 65536.
  apply Z.mod_pos_bound; lia.
Qed.

Lemma to_int32_range x : is_int32 (to_int32 x).
Proof.
  unfold is_int32, to_int32, wrap_signed.
  change (2 ^ (32 - 1)) with 2147483648. change (2 ^ 32) with 4294967296.
  pose proof (Z.mod_pos_bound (x + 2147483648) 4294967296). lia.
Qed.

Lemma to_int16_range x : is_int16 (to_int16 x).
Proof.
  unfold is_int16, to_int16, wrap_signed.
  change (2 ^ (16 - 1)) with 32768. change (2 ^ 16) with 65536.
  pose proof (Z.mod_pos_bound (x + 32768) 65536). lia.
Qed.

Lemma to_int8_range x : is_int8 (to_int8 x).
Proof.
  unfold is_int8, to_int8, wrap_signed.
  change (2 ^ (8 - 1)) with 128. change (2 ^ 8) with 256.
  pose proof (Z.mod_pos_bound (x + 128) 256). lia.
Qed.

Lemma int16_is_int32 x : is_int16 x -> is_int32 x.
Proof. unfold is_int16, is_int32. lia. Qed.

Lemma uint16_is_int32 x : is_uint16 x -> is_int32 x.
Proof. unfold is_uint16, is_int32. lia. Qed.

Lemma uint8_is_int32 x : is_uint8 x -> is_int32 x.
Proof. unfold is_uint8, is_int32. lia. Qed.

Lemma int8_is_int32 x : is_int8 x -> is_int32 x.
Proof. unfold is_int8, is_int32. lia. Qed.

Lemma int32_is_int64 x : is_int32 x -> is_int64 x.
Proof. unfold is_int32, is_int64. lia. Qed.

Lemma shiftr_int32 x n : 0 <= n -> is_int32 x -> is_int32 (Z.shiftr x n).
Proof.
  unfold is_int32. intros Hn Hx. rewrite Z.shiftr_div_pow2 by assumption.
  assert (0 < 2 ^ n) by (apply Z.pow_pos_nonneg; lia).
  split.
  - apply Z.div_le_lower_bound; nia.
  - apply Z.div_lt_upper_bound; nia.
Qed.

Create HintDb cint.

(** The integers converted to [float] by [readTemperature] and
    [readHumidity] have fewer than 24 significant bits: the conversion is
    exact in IEEE binary32. *)
Lemma centidegrees_exact_as_float (fine : Z) :
  - 2 ^ 23 <= Spec.centidegrees fine < 2 ^ 23.
Proof.
  unfold Spec.centidegrees, shr32, add32.
  pose proof (to_int32_range (mul32 fine 5 + 128)) as R.
  unfold is_int32 in R.
  rewrite Z.shiftr_div_pow2 by lia.
  change (2 ^ 8) with 256. change (2 ^ 23) with 8388608. split.
  - apply Z.div_le_lower_bound; lia.
  - apply Z.div_lt_upper_bound; lia.
Qed.

Lemma percent_exact_as_float (v : Z) :
  0 <= Z.shiftr (Spec.clamp v) 12 <= 102400.
Proof.
  assert (0 <= Spec.clamp v <= 419430400) by (unfold Spec.clamp; lia).
  rewrite Z.shiftr_div_pow2 by lia. change (2 ^ 12) with 4096. split.
  - apply Z.div_pos; lia.
  - apply Z.div_le_upper_bound; lia.
Qed.

(** *** The conversion to [float]

    An integer of fewer than 25 significant bits is a binary32 number:
    [to_float] leaves it as it is. *)

Lemma digits2_pos_bounds (m : positive) :
  2 ^ (Zpos (digits2_pos m) - 1) <= Zpos m < 2 ^ Zpos (digits2_pos m).
Proof.
  induction m as [m IH|m IH|]; cbn [digits2_pos].
  - rewrite Pos2Z.inj_succ.
    replace (Z.succ (Zpos (digits2_pos m)) - 1)
      with (Zpos (digits2_pos m)) by lia.
    rewrite Z.pow_succ_r by lia.
    assert (E : 2 ^ Zpos (digits2_pos m)
                = 2 * 2 ^ (Zpos (digits2_pos m) - 1)).
    { rewrite <- Z.pow_succ_r by lia. f_equal. lia. }
    lia.
  - rewrite Pos2Z.inj_succ.
    replace (Z.succ (Zpos (digits2_pos m)) - 1)
      with (Zpos (digits2_pos m)) by lia.
    rewrite Z.pow_succ_r by lia.
    assert (E : 2 ^ Zpos (digits2_pos m)
                = 2 * 2 ^ (Zpos (digits2_pos m) - 1)).
    { rewrite <- Z.pow_succ_r by lia. f_equal. lia. }
    lia.
  - cbn. lia.
Qed.

Lemma iter_xO_digits (m k : positive) :
  digits2_pos (Pos.iter xO m k) = (digits2_pos m + k)%positive.
Proof.
  induction k as [|k IH] using Pos.peano_ind.
  - cbn. lia.
  - rewrite Pos.iter_succ. cbn [digits2_pos]. rewrite IH. lia.
Qed.

Lemma iter_xO_value (m k : positive) :
  Zpos (Pos.iter xO m k) = Zpos m * 2 ^ Zpos k.
Proof.
  induction k as [|k IH] using Pos.peano_ind.
  - cbn. lia.
  - rewrite Pos.iter_succ, Pos2Z.inj_xO, IH, Pos2Z.inj_succ.
    rewrite Z.pow_succ_r by lia. lia.
Qed.

Lemma binary_round_exact (s : bool) (m : positive) :
  Zpos m < 2 ^ 24 ->
  match binary_round 24 128 s m 0 with
  | S754_finite s' m' e' => s' = s /\ Z.shiftl (Zpos m') e' = Zpos m
  | _ => False
  end.
Proof.
  intros Hm.
  pose proof (digits2_pos_bounds m) as Hd.
  assert (Hd24 : Zpos (digits2_pos m) <= 24).
  { destruct (Z_le_gt_dec (Zpos (digits2_pos m)) 24) as [L|G]; [exact L|].
    assert (2 ^ 24 <= 2 ^ (Zpos (digits2_pos m) - 1))
      by (apply Z.pow_le_mono_r; lia).
    lia. }
  unfold binary_round.
  assert (Ef : fexp 24 128 (Zpos (digits2_pos m) + 0)
               = Zpos (digits2_pos m) - 24).
  { unfold fexp, emin. lia. }
  rewrite Ef. unfold shl_align.
  destruct (Zpos (digits2_pos m) - 24 - 0) as [|dd|dd] eqn:Ed; [|lia|].
  - (* 24 digits *)
    unfold binary_round_aux, shr_fexp.
    cbn [Zdigits2 shr_record_of_loc].
    assert (E0 : fexp 24 128 (Zpos (digits2_pos m) + 0) - 0 = 0)
      by (unfold fexp, emin; lia).
    rewrite E0. cbn [shr shr_m loc_of_shr_record round_nearest_even].
    cbn [Zdigits2 shr_record_of_loc]. rewrite E0.
    cbn [shr shr_m]. change (0 <=? 128 - 24) with true. cbv iota.
    split; [reflexivity|]. apply Z.shiftl_0_r.
  - (* fewer digits: aligned to 24 *)
    assert (Edd : Zpos dd = 24 - Zpos (digits2_pos m)) by lia.
    set (mz := Pos.iter xO m dd).
    set (ez := Zpos (digits2_pos m) - 24).
    assert (Edig : Zpos (digits2_pos mz) = 24).
    { unfold mz. rewrite iter_xO_digits. lia. }
    unfold binary_round_aux, shr_fexp.
    cbn [Zdigits2 shr_record_of_loc].
    assert (E0 : fexp 24 128 (Zpos (digits2_pos mz) + ez) - ez = 0)
      by (unfold fexp, emin, ez; lia).
    rewrite E0. cbn [shr shr_m loc_of_shr_record round_nearest_even].
    cbn [Zdigits2 shr_record_of_loc]. rewrite E0.
    cbn [shr shr_m].
    assert (El : (ez <=? 128 - 24) = true)
      by (apply Z.leb_le; unfold ez; lia).
    rewrite El. split; [reflexivity|].
    unfold mz. rewrite iter_xO_value.
    rewrite Z.shiftl_div_pow2 by (unfold ez; lia).
    replace (- ez) with (Zpos dd) by (unfold ez; lia).
    apply Z.div_mul. apply Z.pow_nonzero; lia.
Qed.

Lemma to_float_exact (n : Z) :
  - 2 ^ 24 < n < 2 ^ 24 -> to_float n = n.
Proof.
  intros Hn. unfold to_float, binary_normalize.
  destruct n as [|m|m].
  - reflexivity.
  - pose proof (binary_round_exact false m ltac:(lia)) as R.
    destruct (binary_round 24 128 false m 0) as [| | |s' m' e'];
      try contradiction.
    destruct R as [-> E]. cbn [cond_Zopp]. exact E.
  - pose proof (binary_round_exact true m ltac:(lia)) as R.
    destruct (binary_round 24 128 true m 0) as [| | |s' m' e'];
      try contradiction.
    destruct R as [-> E]. cbn [cond_Zopp]. rewrite E. reflexivity.
Qed.

(** So the conversions of [readTemperature] and [readHumidity] round
    nothing. *)
Lemma to_float_centidegrees (fine : Z) :
  to_float (Spec.centidegrees fine) = Spec.centidegrees fine.
Proof.
  apply to_float_exact.
  pose proof (centidegrees_exact_as_float fine) as R.
  change (2 ^ 23) with 8388608 in R. change (2 ^ 24) with 16777216. lia.
Qed.

Lemma to_float_percent (v : Z) :
  to_float (Z.shiftr (Spec.clamp v) 12) = Z.shiftr (Spec.clamp v) 12.
Proof.
  apply to_float_exact.
  pose proof (percent_exact_as_float v) as R.
  change (2 ^ 24) with 16777216. lia.
Qed.

#[local] Hint Resolve to_int32_range to_int16_range to_int8_range
  to_uint8_range to_uint16_range int16_is_int32 uint16_is_int32
  uint8_is_int32 int8_is_int32 int32_is_int64 : cint.

(* ================================================================== *)
(** ** Byte order and nibbles *)

Lemma lor_shiftl_small (x y k : Z) :
  0 <= k -> 0 <= y < 2 ^ k -> Z.lor (Z.shiftl x k) y = x * 2 ^ k + y.
Proof.
  intros Hk Hy.
  assert (E : Z.land (Z.shiftl x k) y = 0).
  { apply Z.bits_inj'. intros n Hn.
    rewrite Z.land_spec, Z.bits_0.
    destruct (Z.lt_ge_cases n k) as [Hlt|Hge].
    - rewrite Z.shiftl_spec_low by assumption. reflexivity.
    - rewrite <- (Z.mod_small y (2 ^ k)) by assumption.
      rewrite Z.mod_pow2_bits_high by lia. apply andb_false_r. }
  pose proof (Z.add_lor_land (Z.shiftl x k) y) as A.
  rewrite E, Z.add_0_r in A. rewrite A.
  rewrite Z.shiftl_mul_pow2 by assumption. reflexivity.
Qed.

(** The byte swap of [read16_LE] applied to what [read16] assembles from
    the bytes [b0] (received first) and [b1]: [b0] is the low byte. *)
Lemma read16_LE_swap (b0 b1 : Z) :
  is_uint8 b0 -> is_uint8 b1 ->
  let value := to_uint16 (Z.lor (Z.shiftl b0 8) b1) in
  to_uint16 (Z.lor (Z.shiftr value 8) (Z.shiftl value 8)) = b0 + 256 * b1.
Proof.
  unfold is_uint8, to_uint16, wrap_unsigned. intros H0 H1. cbv zeta.
  change (2 ^ 16) with 65536.
  rewrite (lor_shiftl_small b0 b1 8) by (change (2 ^ 8) with 256; lia).
  change (2 ^ 8) with 256.
  rewrite (Z.mod_small (b0 * 256 + b1)) by lia.
  rewrite Z.shiftr_div_pow2 by lia. change (2 ^ 8) with 256.
  replace ((b0 * 256 + b1) / 256) with b0
    by (apply Z.div_unique with (r := b1); lia).
  rewrite Z.lor_comm.
  rewrite (lor_shiftl_small (b0 * 256 + b1) b0 8)
    by (change (2 ^ 8) with 256; lia).
  change (2 ^ 8) with 256.
  symmetry. apply Z.mod_unique with (q := b0); lia.
Qed.

(** What [read24] assembles from the bytes [b0], [b1], [b2] in the order
    received: [b0] is the most significant byte. *)
Lemma read24_assemble (b0 b1 b2 : Z) :
  is_uint8 b0 -> is_uint8 b1 -> is_uint8 b2 ->
  Z.lor (to_uint32 (Z.shiftl (Z.lor (to_uint32 (Z.shiftl (to_uint32 b0) 8))
                                    (to_uint32 b1)) 8))
        (to_uint32 b2)
  = b0 * 65536 + b1 * 256 + b2.
Proof.
  unfold is_uint8, to_uint32, wrap_unsigned. intros H0 H1 H2.
  change (2 ^ 32) with 4294967296.
  rewrite (Z.mod_small b0), (Z.mod_small b1), (Z.mod_small b2) by lia.
  assert (E1 : Z.shiftl b0 8 = b0 * 256)
    by (rewrite Z.shiftl_mul_pow2 by lia; reflexivity).
  rewrite (Z.mod_small (Z.shiftl b0 8)) by (rewrite E1; lia).
  rewrite (lor_shiftl_small b0 b1 8) by (change (2 ^ 8) with 256; lia).
  change (2 ^ 8) with 256.
  assert (E2 : Z.shiftl (b0 * 256 + b1) 8 = (b0 * 256 + b1) * 256)
    by (rewrite Z.shiftl_mul_pow2 by lia; reflexivity).
  rewrite (Z.mod_small (Z.shiftl (b0 * 256 + b1) 8)) by (rewrite E2; lia).
  rewrite (lor_shiftl_small (b0 * 256 + b1) b2 8)
    by (change (2 ^ 8) with 256; lia).
  change (2 ^ 8) with 256. lia.
Qed.

(* ================================================================== *)
(** ** Properties of the driver on every bus *)

Section Properties.

Context {D : Type} `{I2CBus D}.

(** Register reads leave the driver object alone. *)
Lemma read24_this reg (w : World D) : this (snd (read24 reg w)) = this w.
Proof.
  unfold read24, bind, get_this, Wire_beginTransmission, Wire_write,
    Wire_endTransmission, Wire_requestFrom, Wire_read, modify_Wire, ret.
  cbn.
  destruct (bus_transmit _ _ _) as [st d]; cbn.
  destruct (bus_request _ _ _) as [bs d']; cbn.
  repeat (match goal with
          | |- context [match ?l with [] => _ | _ :: _ => _ end] =>
              destruct l; cbn
          end); reflexivity.
Qed.

(** C1.  When the temperature register read yields a 24-bit value
    [raw] and the three temperature coefficients hold values of their
    types, [readTemperature] drops the low four bits of [raw], evaluates
    the two-term polynomial in 32-bit signed arithmetic, stores the sum
    in [_t_fine] and returns [(((_t_fine * 5) + 128) >> 8) / 100]. *)
Theorem readTemperature_formula (w w1 : World D) (raw : Z) :
  read24 BMX280_REG_TEMP w = (raw, w1) ->
  0 <= raw < 2 ^ 24 ->
  is_uint16 (_dig_T1 (this w)) ->
  is_int16 (_dig_T2 (this w)) ->
  is_int16 (_dig_T3 (this w)) ->
  let fine :=
    Spec.fineTemperature raw (_dig_T1 (this w)) (_dig_T2 (this w))
                         (_dig_T3 (this w)) in
  readTemperature w
  = (Spec.celsius fine, mkWorld (set_t_fine fine (this w1)) (Wire w1))
  /\ _t_fine (this (snd (readTemperature w))) = fine
  /\ is_int32 fine.
Proof.
  intros Hread Hraw HT1 HT2 HT3 fine.
  assert (Hthis : this w1 = this w).
  { pose proof (read24_this BMX280_REG_TEMP w) as E.
    rewrite Hread in E. exact E. }
  assert (Hfine : readTemperature w
    = (Spec.celsius fine, mkWorld (set_t_fine fine (this w1)) (Wire w1))).
  { unfold readTemperature, bind. rewrite Hread.
    cbv beta iota zeta delta [get_this modify_this ret].
    cbn [this Wire _t_fine set_t_fine]. rewrite Hthis.
    rewrite (to_int32_id raw) by (unfold is_int32; change (2 ^ 24) with 16777216 in Hraw; lia).
    rewrite (to_int32_id (_dig_T1 (this w))) by auto with cint.
    rewrite (to_int32_id (_dig_T2 (this w))) by auto with cint.
    rewrite (to_int32_id (_dig_T3 (this w))) by auto with cint.
    unfold fine, Spec.celsius, Spec.centidegrees, Spec.fineTemperature,
      float_div, shr32.
    reflexivity. }
  split; [exact Hfine|]. split.
  - rewrite Hfine. cbn [snd this _t_fine set_t_fine]. reflexivity.
  - clear Hfine. unfold fine, Spec.fineTemperature, add32. auto with cint.
Qed.

(** [readTemperature] changes [_t_fine] and no other member, and what
    it stores is a 32-bit value. *)
Lemma readTemperature_this (w : World D) :
  exists fine,
    is_int32 fine
    /\ this (snd (readTemperature w)) = set_t_fine fine (this w).
Proof.
  unfold readTemperature, bind.
  pose proof (read24_this BMX280_REG_TEMP w) as E.
  destruct (read24 BMX280_REG_TEMP w) as [raw w1]. cbn [snd] in E.
  cbv beta iota zeta delta [get_this modify_this ret].
  cbn [this Wire snd]. rewrite E.
  eexists. split; [|reflexivity]. unfold add32. auto with cint.
Qed.

(** C2.  [readPressure] first refreshes the temperature and reads the
    pressure registers.  With [var1] the 64-bit term
    [((1<<47) + (((v*v*dig_P3)>>8) + ((v*dig_P2)<<12))) * dig_P1 >> 33],
    [v = _t_fine - 128000]: when [var1] is zero the call returns 0
    with no further computation; otherwise the division by [var1] is
    performed and its quotient gives the result, [(float)p / 256] with
    [p] rounded to binary32 by the conversion.  In no case is the
    division reached with a zero divisor. *)
Theorem readPressure_guard (w : World D) :
  is_uint16 (_dig_P1 (this w)) ->
  is_int16 (_dig_P2 (this w)) ->
  is_int16 (_dig_P3 (this w)) ->
  let w1 := snd (readTemperature w) in
  let raw := fst (read24 BMX280_REG_PRESS w1) in
  let w2 := snd (read24 BMX280_REG_PRESS w1) in
  let o := this w2 in
  let var1 :=
    Spec.pressure_var1 (_t_fine o) (_dig_P1 o) (_dig_P2 o) (_dig_P3 o) in
  readPressure_var1 o = var1
  /\ (var1 = 0 -> readPressure w = (Some (float_of_int 0), w2))
  /\ (var1 <> 0 ->
      exists p,
        readPressure_p o (shr32 (to_int32 raw) 4) var1 (readPressure_var2 o)
        = Some p
        /\ readPressure w = (Some (float_div (to_float p) 256), w2))
  /\ fst (readPressure w) <> None.
Proof.
  intros HP1 HP2 HP3 w1 raw w2 o var1.
  assert (Ho : exists fine, is_int32 fine /\ o = set_t_fine fine (this w)).
  { destruct (readTemperature_this w) as [fine [Hf E]].
    exists fine. split; [exact Hf|].
    unfold o, w2. rewrite read24_this. exact E. }
  destruct Ho as [fine [Hf Ho]].
  assert (Hvar1 : readPressure_var1 o = var1).
  { unfold var1, readPressure_var1, Spec.pressure_var1. rewrite Ho.
    cbn [_t_fine _dig_P1 _dig_P2 _dig_P3 set_t_fine].
    rewrite (to_int64_id fine) by auto with cint.
    rewrite (to_int64_id (_dig_P1 (this w))) by auto with cint.
    rewrite (to_int64_id (_dig_P2 (this w))) by auto with cint.
    rewrite (to_int64_id (_dig_P3 (this w))) by auto with cint.
    reflexivity. }
  assert (Hrun : readPressure w
    = if var1 =? 0 then (Some (float_of_int 0), w2)
      else match readPressure_p o (shr32 (to_int32 raw) 4) var1
                                (readPressure_var2 o) with
           | None => (None, w2)
           | Some p => (Some (float_div (to_float p) 256), w2)
           end).
  { clear Ho. unfold readPressure, bind.
    subst var1 o w2 raw w1.
    destruct (readTemperature w) as [t w1'].
    cbn [snd] in *.
    destruct (read24 BMX280_REG_PRESS w1') as [r w2'].
    cbn [fst snd] in *.
    cbv beta iota zeta delta [get_this ret].
    rewrite Hvar1.
    match goal with
    | |- context [if ?c then _ else _] => destruct c
    end; [reflexivity|].
    destruct (readPressure_p _ _ _ _); reflexivity. }
  split; [exact Hvar1|].
  split; [|split].
  - intros Hz. rewrite Hrun. rewrite Hz. reflexivity.
  - intros Hnz. rewrite Hrun.
    destruct (Z.eqb_spec var1 0) as [Hz|_]; [contradiction|].
    unfold readPressure_p, div64.
    destruct (Z.eqb_spec var1 0) as [Hz|_]; [contradiction|].
    eexists. split; reflexivity.
  - rewrite Hrun.
    destruct (Z.eqb_spec var1 0) as [Hz|Hnz]; [discriminate|].
    unfold readPressure_p, div64.
    destruct (Z.eqb_spec var1 0) as [Hz|_]; [contradiction|].
    discriminate.
Qed.

(** Unfolds the monad and the [Wire] calls and splits on what the bus
    answers and on how many bytes are left in the receive buffer. *)
Ltac run_wire :=
  cbv beta iota zeta delta
    [bind ret get_this modify_this modify_Wire Wire_beginTransmission
     Wire_write Wire_endTransmission Wire_requestFrom Wire_read delay];
  cbn [this Wire txAddress txBuffer rxBuffer bus trace fst snd app];
  repeat
    (match goal with
     | |- context [bus_transmit ?a ?b ?d] =>
         let st := fresh "st" in
         let d' := fresh "d" in
         destruct (bus_transmit a b d) as [st d']
     | |- context [bus_request ?a ?b ?d] =>
         let bs := fresh "bs" in
         let d' := fresh "d" in
         destruct (bus_request a b d) as [bs d']
     | |- context [if negb (?c =? 0) then _ else _] =>
         destruct (Z.eqb_spec c 0)
     | |- context [match ?l with [] => _ | _ :: _ => _ end] =>
         destruct l
     end;
     cbn [this Wire txAddress txBuffer rxBuffer bus trace fst snd app negb]).

Lemma read16_this reg (w : World D) : this (snd (read16 reg w)) = this w.
Proof. unfold read16. run_wire; reflexivity. Qed.

Lemma read8_this reg (w : World D) : this (snd (read8 reg w)) = this w.
Proof. unfold read8. run_wire; reflexivity. Qed.

Lemma read16_range reg (w : World D) : is_uint16 (fst (read16 reg w)).
Proof.
  unfold read16. run_wire;
    first [ apply to_uint16_range | unfold is_uint16; lia ].
Qed.

Lemma read8_range reg (w : World D) : is_uint8 (fst (read8 reg w)).
Proof.
  unfold read8. run_wire;
    first [ apply to_uint8_range | unfold is_uint8; lia ].
Qed.

(** The two conditional assignments of lines 217 and 218 are the clamp
    to [0, 419430400]. *)
Lemma clamp_steps (v : Z) :
  (let v := if v <? 0 then 0 else v in
   if v >? 419430400 then 419430400 else v) = Spec.clamp v.
Proof.
  unfold Spec.clamp. cbv zeta.
  destruct (Z.ltb_spec v 0).
  - change (0 >? 419430400) with false. cbv iota. lia.
  - rewrite Z.gtb_ltb. destruct (Z.ltb_spec 419430400 v); lia.
Qed.

(** On the BME280 [readHumidity] is: the temperature refresh, the
    humidity register read, and the clamped and scaled intermediate. *)
Lemma readHumidity_run (w : World D) :
  _chipID (this w) = CHIP_ID_BME280 ->
  let w1 := snd (readTemperature w) in
  let adc_H := fst (read16 BME280_REG_HUM w1) in
  let w2 := snd (read16 BME280_REG_HUM w1) in
  readHumidity w
  = (Spec.percent (readHumidity_v_x1_u32r (this w2) adc_H), w2).
Proof.
  intros Hid w1 adc_H w2.
  pose proof (read16_range BME280_REG_HUM w1) as Hr.
  subst w2 adc_H w1.
  unfold readHumidity, bind at 1, get_this at 1. rewrite Hid.
  change (negb (CHIP_ID_BME280 =? CHIP_ID_BME280)) with false.
  cbv iota. unfold bind.
  destruct (readTemperature w) as [t w1']. cbn [snd] in *.
  destruct (read16 BME280_REG_HUM w1') as [r w2']. cbn [fst snd] in *.
  cbv beta iota delta [get_this ret].
  rewrite (to_int32_id r) by auto with cint.
  rewrite clamp_steps. reflexivity.
Qed.

(** C3.  On the BME280, whatever the humidity register read, the
    coefficients and the refreshed [_t_fine] are, [readHumidity] returns
    [(clamp v >> 12) / 1024] where [v] is the 32-bit intermediate before
    scaling and [clamp] bounds it to [0, 419430400]: a negative [v]
    gives the result of 0, a [v] above 419430400 gives the result of
    419430400, and a [v] in between is used as it is. *)
Theorem readHumidity_clamp (w : World D) :
  _chipID (this w) = CHIP_ID_BME280 ->
  let w1 := snd (readTemperature w) in
  let adc_H := fst (read16 BME280_REG_HUM w1) in
  let w2 := snd (read16 BME280_REG_HUM w1) in
  let v := readHumidity_v_x1_u32r (this w2) adc_H in
  readHumidity w = (Spec.percent v, w2)
  /\ 0 <= Spec.clamp v <= 419430400
  /\ (v < 0 -> fst (readHumidity w) = Spec.percent 0)
  /\ (419430400 < v -> fst (readHumidity w) = Spec.percent 419430400)
  /\ (0 <= v <= 419430400 -> fst (readHumidity w) = Z.shiftr v 12 # 1024).
Proof.
  intros Hid w1 adc_H w2 v.
  pose proof (readHumidity_run w Hid) as Hrun. cbv zeta in Hrun.
  fold w1 in Hrun. fold adc_H w2 in Hrun. fold v in Hrun.
  split; [exact Hrun|].
  split; [unfold Spec.clamp; lia|].
  rewrite Hrun. cbn [fst]. unfold Spec.percent, Spec.clamp.
  split; [|split]; intros Hv.
  - rewrite (Z.max_l 0 v) by lia. reflexivity.
  - rewrite (Z.max_r 0 v), (Z.min_l 419430400 v) by lia. reflexivity.
  - rewrite (Z.max_r 0 v), (Z.min_r 419430400 v) by lia. reflexivity.
Qed.

(** C10.  When the recorded chip identity is not the BME280's,
    [readHumidity] returns 0 and leaves the whole state - the members of
    the object, [_t_fine] among them, and the bus with its trace - as
    it was. *)
Theorem readHumidity_other_chip (w : World D) :
  _chipID (this w) <> CHIP_ID_BME280 ->
  readHumidity w = (float_of_int 0, w).
Proof.
  intros Hid. unfold readHumidity, bind, get_this.
  destruct (Z.eqb_spec (_chipID (this w)) CHIP_ID_BME280) as [E|_];
    [contradiction|].
  reflexivity.
Qed.

(** *** What the register reads put on the bus *)

Lemma read24_trace reg (w : World D) :
  exists st bs,
    trace (Wire (snd (read24 reg w)))
    = trace (Wire w)
      ++ [Transmit (to_uint8 (_i2cAddr (this w))) [to_uint8 reg] st;
          Request (to_uint8 (_i2cAddr (this w))) 3 bs].
Proof.
  unfold read24. run_wire; rewrite <- app_assoc;
    eexists; eexists; reflexivity.
Qed.

Lemma read16_trace reg (w : World D) :
  exists st bs,
    trace (Wire (snd (read16 reg w)))
    = trace (Wire w)
      ++ Transmit (to_uint8 (_i2cAddr (this w))) [to_uint8 reg] st
         :: (if st =? 0
             then [Request (to_uint8 (_i2cAddr (this w))) 2 bs]
             else []).
Proof.
  unfold read16. run_wire; try rewrite <- app_assoc;
    match goal with
    | e : ?st = 0 |- _ =>
        exists st; eexists; rewrite e; reflexivity
    | n : ?st <> 0 |- _ =>
        exists st, []; apply Z.eqb_neq in n; rewrite n; reflexivity
    end.
Qed.

Lemma read8_trace reg (w : World D) :
  exists st bs,
    trace (Wire (snd (read8 reg w)))
    = trace (Wire w)
      ++ Transmit (to_uint8 (_i2cAddr (this w))) [to_uint8 reg] st
         :: (if st =? 0
             then [Request (to_uint8 (_i2cAddr (this w))) 1 bs]
             else []).
Proof.
  unfold read8. run_wire; try rewrite <- app_assoc;
    match goal with
    | e : ?st = 0 |- _ =>
        exists st; eexists; rewrite e; reflexivity
    | n : ?st <> 0 |- _ =>
        exists st, []; apply Z.eqb_neq in n; rewrite n; reflexivity
    end.
Qed.

Lemma write8_trace reg value (w : World D) :
  exists st,
    write8 reg value w
    = (tt, mkWorld (this w)
             (mkWire (to_uint8 (_i2cAddr (this w))) [] (rxBuffer (Wire w))
                (snd (bus_transmit (to_uint8 (_i2cAddr (this w)))
                        [to_uint8 reg; to_uint8 value]
                        (bus (Wire w))))
                (trace (Wire w)
                 ++ [Transmit (to_uint8 (_i2cAddr (this w)))
                       [to_uint8 reg; to_uint8 value] st]))).
Proof.
  unfold write8.
  cbv beta iota zeta delta
    [bind ret get_this modify_this modify_Wire Wire_beginTransmission
     Wire_write Wire_endTransmission].
  cbn [this Wire txAddress txBuffer rxBuffer bus trace fst snd app].
  destruct (bus_transmit _ _ _) as [st d]. cbn [snd].
  eexists. reflexivity.
Qed.

(** *** The stale [_t_fine] is never used *)

Lemma readTemperature_Wire (w : World D) :
  Wire (snd (readTemperature w))
  = Wire (snd (read24 BMX280_REG_TEMP w)).
Proof.
  unfold readTemperature, bind.
  destruct (read24 BMX280_REG_TEMP w) as [raw w1]. reflexivity.
Qed.

Lemma readTemperature_stale (stale : Z) (o : ErriezBMX280)
      (W : TwoWire D) :
  readTemperature (mkWorld (set_t_fine stale o) W)
  = readTemperature (mkWorld o W).
Proof.
  unfold readTemperature, read24.
  cbv beta iota zeta delta
    [bind ret get_this modify_this modify_Wire Wire_beginTransmission
     Wire_write Wire_endTransmission Wire_requestFrom Wire_read].
  cbn [this Wire txAddress txBuffer rxBuffer bus trace
       _i2cAddr _dig_T1 _dig_T2 _dig_T3 _t_fine set_t_fine].
  run_wire; reflexivity.
Qed.

Lemma readPressure_snd (w : World D) :
  snd (readPressure w)
  = snd (read24 BMX280_REG_PRESS (snd (readTemperature w))).
Proof.
  unfold readPressure, bind.
  destruct (readTemperature w) as [t w1]. cbn [snd].
  destruct (read24 BMX280_REG_PRESS w1) as [raw w2]. cbn [snd].
  cbv beta iota zeta delta [get_this ret].
  destruct (_ =? 0); [reflexivity|].
  destruct (readPressure_p _ _ _ _); reflexivity.
Qed.

Lemma readHumidity_snd (w : World D) :
  _chipID (this w) = CHIP_ID_BME280 ->
  snd (readHumidity w)
  = snd (read16 BME280_REG_HUM (snd (readTemperature w))).
Proof.
  intros Hid. rewrite (readHumidity_run w Hid). reflexivity.
Qed.

Lemma readTemperature_i2cAddr (w : World D) :
  _i2cAddr (this (snd (readTemperature w))) = _i2cAddr (this w).
Proof.
  destruct (readTemperature_this w) as [fine [_ E]]. rewrite E.
  reflexivity.
Qed.

(** C4.  [readPressure], and [readHumidity] on the BME280, begin with a
    full [readTemperature]: the pressure (humidity) registers are read in
    the state that [readTemperature] left; on the bus the temperature
    registers are read before the pressure (humidity) registers and
    nothing else happens; the [_t_fine] left behind is the one that
    temperature computation stored; and the outcome of the call does not
    depend on the [_t_fine] held before the call. *)
Theorem temperature_refreshed_first (w : World D) :
  let a := to_uint8 (_i2cAddr (this w)) in
  let fresh := _t_fine (this (snd (readTemperature w))) in
  (snd (readPressure w)
   = snd (read24 BMX280_REG_PRESS (snd (readTemperature w)))
   /\ (exists st1 bs1 st2 bs2,
       trace (Wire (snd (readPressure w)))
       = trace (Wire w)
         ++ [Transmit a [BMX280_REG_TEMP] st1; Request a 3 bs1;
             Transmit a [BMX280_REG_PRESS] st2; Request a 3 bs2])
   /\ _t_fine (this (snd (readPressure w))) = fresh
   /\ (forall stale,
         readPressure (mkWorld (set_t_fine stale (this w)) (Wire w))
         = readPressure w))
  /\ (_chipID (this w) = CHIP_ID_BME280 ->
      snd (readHumidity w)
      = snd (read16 BME280_REG_HUM (snd (readTemperature w)))
      /\ (exists st1 bs1 st2 bs2,
          trace (Wire (snd (readHumidity w)))
          = trace (Wire w)
            ++ [Transmit a [BMX280_REG_TEMP] st1; Request a 3 bs1]
            ++ Transmit a [BME280_REG_HUM] st2
               :: (if st2 =? 0 then [Request a 2 bs2] else []))
      /\ _t_fine (this (snd (readHumidity w))) = fresh
      /\ (forall stale,
            readHumidity (mkWorld (set_t_fine stale (this w)) (Wire w))
            = readHumidity w)).
Proof.
  intros a fresh.
  split; [split; [|split; [|split]]|intros Hid; split; [|split; [|split]]].
  - apply readPressure_snd.
  - rewrite readPressure_snd.
    destruct (read24_trace BMX280_REG_PRESS (snd (readTemperature w)))
      as [st2 [bs2 E2]].
    destruct (read24_trace BMX280_REG_TEMP w) as [st1 [bs1 E1]].
    rewrite E2, readTemperature_Wire, E1, readTemperature_i2cAddr.
    rewrite <- app_assoc. exists st1, bs1, st2, bs2. reflexivity.
  - rewrite readPressure_snd, read24_this. reflexivity.
  - intros stale. destruct w as [o W]. cbn [this Wire].
    unfold readPressure, bind. rewrite readTemperature_stale.
    reflexivity.
  - apply (readHumidity_snd w Hid).
  - rewrite (readHumidity_snd w Hid).
    destruct (read16_trace BME280_REG_HUM (snd (readTemperature w)))
      as [st2 [bs2 E2]].
    destruct (read24_trace BMX280_REG_TEMP w) as [st1 [bs1 E1]].
    rewrite E2, readTemperature_Wire, E1, readTemperature_i2cAddr.
    rewrite <- app_assoc. exists st1, bs1, st2, bs2. reflexivity.
  - rewrite (readHumidity_snd w Hid), read16_this. reflexivity.
  - intros stale. destruct w as [o W]. cbn [this Wire] in *.
    rewrite (readHumidity_run (mkWorld o W) Hid).
    rewrite (readHumidity_run (mkWorld (set_t_fine stale o) W) Hid).
    cbv zeta. rewrite readTemperature_stale. reflexivity.
Qed.

(** *** setSampling *)

(** The packed control bytes fit in the [uint8_t] parameter of
    [write8]. *)
Lemma config_byte_fits sb f :
  to_uint8 (Z.lor (Z.shiftl (standby_code sb) 5)
                  (Z.shiftl (filter_code f) 2))
  = Z.lor (Z.shiftl (standby_code sb) 5) (Z.shiftl (filter_code f) 2).
Proof. destruct sb, f; reflexivity. Qed.

Lemma ctrl_meas_byte_fits t p m :
  to_uint8 (Z.lor (Z.lor (Z.shiftl (sampling_code t) 5)
                         (Z.shiftl (sampling_code p) 2))
                  (mode_code m))
  = Z.lor (Z.lor (Z.shiftl (sampling_code t) 5)
                 (Z.shiftl (sampling_code p) 2))
          (mode_code m).
Proof. destruct t, p, m; reflexivity. Qed.

Lemma ctrl_hum_byte_fits h :
  to_uint8 (sampling_code h) = sampling_code h.
Proof. destruct h; reflexivity. Qed.

(** Replaces the first [write8] of the goal by its effect. *)
Ltac step_write8 st :=
  match goal with
  | |- context [write8 ?r ?v ?x] =>
      let E := fresh "E" in
      destruct (write8_trace r v x) as [st E];
      rewrite E; clear E;
      cbn [this Wire rxBuffer trace bus]
  end.

Lemma setSampling_this mode t p h f sb (w : World D) :
  this (snd (setSampling mode t p h f sb w)) = this w.
Proof.
  unfold setSampling, bind, get_this, ret.
  step_write8 st1. cbn [this].
  destruct (_chipID (this w) =? CHIP_ID_BME280).
  - step_write8 st2. step_write8 st3. step_write8 st4. reflexivity.
  - step_write8 st3. step_write8 st4. reflexivity.
Qed.

(** C6.  Whatever the arguments, [setSampling] performs these write
    transactions and no other bus activity, in this order: ctrl_meas
    with the sleep mode; ctrl_hum with the humidity oversampling code,
    only when the chip is the BME280; config with
    [(standby << 5) | (filter << 2)]; ctrl_meas with
    [(temp << 5) | (press << 2) | mode].  Standby 500 ms with filter x16
    packs to 0x90. *)
Theorem setSampling_writes (mode : BMX280_Mode_e)
        (tempSampling pressSampling humSampling : BMX280_Sampling_e)
        (filter : BMX280_Filter_e) (standbyDuration : BMX280_Standby_e)
        (w : World D) :
  let a := to_uint8 (_i2cAddr (this w)) in
  let w' :=
    snd (setSampling mode tempSampling pressSampling humSampling filter
                     standbyDuration w) in
  (exists st1 st2 st3 st4,
      trace (Wire w')
      = trace (Wire w)
        ++ [Transmit a [BMX280_REG_CTRL_MEAS; mode_code BMX280_MODE_SLEEP]
                     st1]
        ++ (if _chipID (this w) =? CHIP_ID_BME280
            then [Transmit a [BME280_REG_CTRL_HUM;
                              sampling_code humSampling] st2]
            else [])
        ++ [Transmit a [BMX280_REG_CONFIG;
                        Z.lor (Z.shiftl (standby_code standbyDuration) 5)
                              (Z.shiftl (filter_code filter) 2)] st3;
            Transmit a [BMX280_REG_CTRL_MEAS;
                        Z.lor (Z.lor (Z.shiftl (sampling_code tempSampling) 5)
                                     (Z.shiftl (sampling_code pressSampling) 2))
                              (mode_code mode)] st4])
  /\ this w' = this w
  /\ Z.lor (Z.shiftl (standby_code BMX280_STANDBY_MS_500) 5)
           (Z.shiftl (filter_code BMX280_FILTER_X16) 2) = 0x90.
Proof.
  intros a w'. subst w'.
  split; [|split; [apply setSampling_this|reflexivity]].
  unfold setSampling, bind, get_this, ret.
  step_write8 st1. cbn [this].
  destruct (_chipID (this w) =? CHIP_ID_BME280).
  - step_write8 st2. step_write8 st3. step_write8 st4. cbn [snd Wire trace].
    rewrite config_byte_fits, ctrl_meas_byte_fits, ctrl_hum_byte_fits.
    exists st1, st2, st3, st4. rewrite <- !app_assoc. reflexivity.
  - step_write8 st3. step_write8 st4. cbn [snd Wire trace].
    rewrite config_byte_fits, ctrl_meas_byte_fits.
    exists st1, 0, st3, st4. rewrite <- !app_assoc. reflexivity.
Qed.

(** *** begin *)

(** C7.  When the identity register read yields a byte that is neither
    0x58 nor 0x60, [begin] returns [false] at once, for every bound on
    the poll loop: the only bus activity is that one register read - no
    reset write, no status poll, no coefficient read, no configuration
    write, no delay - and the only member changed is [_chipID]. *)
Theorem begin_unrecognized (fuel : nat) (w : World D) :
  let id := fst (read8 BME280_REG_CHIPID w) in
  let w1 := snd (read8 BME280_REG_CHIPID w) in
  let a := to_uint8 (_i2cAddr (this w)) in
  id <> CHIP_ID_BMP280 ->
  id <> CHIP_ID_BME280 ->
  begin fuel w = Some (false, mkWorld (set_chipID id (this w)) (Wire w1))
  /\ exists st bs,
      trace (Wire w1)
      = trace (Wire w)
        ++ Transmit a [BME280_REG_CHIPID] st
           :: (if st =? 0 then [Request a 1 bs] else []).
Proof.
  intros id w1 a H58 H60. split.
  - unfold begin. subst id w1.
    pose proof (read8_this BME280_REG_CHIPID w) as Ethis.
    destruct (read8 BME280_REG_CHIPID w) as [i w1']. cbn [fst snd] in *.
    unfold modify_this. cbn [this _chipID set_chipID].
    destruct (Z.eqb_spec i CHIP_ID_BMP280); [contradiction|].
    destruct (Z.eqb_spec i CHIP_ID_BME280); [contradiction|].
    cbn [negb andb]. rewrite Ethis. reflexivity.
  - exact (read8_trace BME280_REG_CHIPID w).
Qed.

(** The loop condition of line 71 tests bit [STATUS_IM_UPDATE]. *)
Lemma loop_condition (status : Z) :
  negb (Z.land status (Z.shiftl 1 STATUS_IM_UPDATE) =? 0)
  = Z.testbit status STATUS_IM_UPDATE.
Proof.
  change (Z.shiftl 1 STATUS_IM_UPDATE) with (Z.ones 1).
  rewrite Z.land_ones by lia. change (2 ^ 1) with 2.
  unfold STATUS_IM_UPDATE. rewrite <- Z.bit0_mod.
  destruct (Z.testbit status 0); reflexivity.
Qed.

Lemma wait_im_update_eq (fuel : nat) (w : World D) :
  wait_im_update fuel w
  = if im_update w
    then match fuel with
         | O => None
         | S fuel' =>
             wait_im_update fuel'
               (snd (delay 10 (snd (read8 BMX280_REG_STATUS w))))
         end
    else Some (snd (read8 BMX280_REG_STATUS w)).
Proof.
  unfold im_update.
  destruct fuel; cbn [wait_im_update];
    destruct (read8 BMX280_REG_STATUS w) as [status w1];
    rewrite loop_condition; reflexivity.
Qed.

(** The loop is still running after [fuel] rounds exactly when the bit
    was set at each of the [fuel + 1] reads made so far. *)
Lemma wait_im_update_None (fuel : nat) (w : World D) :
  wait_im_update fuel w = None
  <-> forall n, (n <= fuel)%nat -> im_update (poll_state n w) = true.
Proof.
  revert w. induction fuel as [|fuel IH]; intros w;
    rewrite wait_im_update_eq.
  - split.
    + intros Hw n Hn. replace n with O by lia. cbn [poll_state].
      destruct (im_update w); [reflexivity|discriminate].
    + intros Hall. pose proof (Hall O (Nat.le_refl _)) as E.
      cbn [poll_state] in E. rewrite E. reflexivity.
  - split.
    + intros Hw n Hn.
      destruct (im_update w) eqn:E; [|discriminate].
      destruct n as [|n]; [exact E|].
      cbn [poll_state]. apply IH; [exact Hw|lia].
    + intros Hall.
      pose proof (Hall O (Nat.le_0_l _)) as E. cbn [poll_state] in E.
      rewrite E. apply IH. intros n Hn.
      apply (Hall (S n)). lia.
Qed.

(** The loop is left within [fuel] rounds only through a read that
    found the bit clear. *)
Lemma wait_im_update_Some (fuel : nat) (w w' : World D) :
  wait_im_update fuel w = Some w' ->
  exists n, (n <= fuel)%nat
            /\ im_update (poll_state n w) = false
            /\ w' = snd (read8 BMX280_REG_STATUS (poll_state n w)).
Proof.
  revert w. induction fuel as [|fuel IH]; intros w;
    rewrite wait_im_update_eq; destruct (im_update w) eqn:E.
  - discriminate.
  - intros [= <-]. exists O. cbn [poll_state]. auto.
  - intros Hw. destruct (IH _ Hw) as [n [Hn [Hb Hw']]].
    exists (S n). cbn [poll_state]. split; [lia|]. split; assumption.
  - intros [= <-]. exists O. cbn [poll_state].
    split; [lia|]. split; [exact E|reflexivity].
Qed.

(** With a supported identity byte, [begin] is: enter the poll loop,
    and, if it is left, continue and return [true]. *)
Lemma begin_recognized (fuel : nat) (w : World D) :
  fst (read8 BME280_REG_CHIPID w) = CHIP_ID_BMP280
  \/ fst (read8 BME280_REG_CHIPID w) = CHIP_ID_BME280 ->
  begin fuel w
  = match wait_im_update fuel (after_reset w) with
    | None => None
    | Some w3 => Some (true, after_poll w3)
    end.
Proof.
  intros Hid. unfold begin, after_reset, after_poll.
  destruct (read8 BME280_REG_CHIPID w) as [id w1]. cbn [fst] in Hid.
  unfold modify_this at 1 2. cbn [this _chipID set_chipID].
  assert (E : negb (id =? CHIP_ID_BMP280) && negb (id =? CHIP_ID_BME280)
              = false).
  { destruct Hid as [-> | ->]; reflexivity. }
  rewrite E.
  destruct (write8 BME280_REG_RESET RESET_KEY _) as [u w2].
  destruct (delay 10 w2) as [u' w3].
  destruct (wait_im_update fuel w3) as [w4|]; [|reflexivity].
  destruct (readCoefficients w4) as [u1 w5].
  destruct (setSampling_default w5) as [u2 w6].
  destruct (delay 100 w6) as [u3 w7]. reflexivity.
Qed.

(** C9, as amended.  A status read is [read8] of the status register:
    it yields the byte the register returned or, when the address write
    is not acknowledged, 0.  When the identity byte read by [begin] is
    0x58 or 0x60: [begin] has not returned within a bound on the loop
    rounds exactly when every status read made up to that bound yielded
    a value with bit 0 set; so [begin] returns only after a status read
    that yielded bit 0 clear, it does return [true] once there is one,
    and when all status reads yield bit 0 set it returns for no bound.
    A status read whose address write is refused counts as bit 0
    clear. *)
Theorem begin_blocks_while_im_update (w : World D) :
  fst (read8 BME280_REG_CHIPID w) = CHIP_ID_BMP280
  \/ fst (read8 BME280_REG_CHIPID w) = CHIP_ID_BME280 ->
  (forall fuel,
      begin fuel w = None
      <-> forall n, (n <= fuel)%nat
                    -> im_update (poll_state n (after_reset w)) = true)
  /\ (forall fuel r,
         begin fuel w = Some r ->
         exists n, (n <= fuel)%nat
                   /\ im_update (poll_state n (after_reset w)) = false)
  /\ ((forall w' : World D, im_update w' = true) ->
      forall fuel, begin fuel w = None)
  /\ (forall fuel n,
         (n <= fuel)%nat ->
         im_update (poll_state n (after_reset w)) = false ->
         exists w', begin fuel w = Some (true, w'))
  /\ (forall w' : World D,
         to_uint8 (fst (bus_transmit (to_uint8 (_i2cAddr (this w')))
                                     [to_uint8 BMX280_REG_STATUS]
                                     (bus (Wire w')))) <> 0 ->
         im_update w' = false).
Proof.
  intros Hid.
  assert (Hnone : forall fuel,
             begin fuel w = None
             <-> forall n, (n <= fuel)%nat
                    -> im_update (poll_state n (after_reset w)) = true).
  { intros fuel. rewrite (begin_recognized fuel w Hid).
    rewrite <- wait_im_update_None.
    destruct (wait_im_update fuel (after_reset w)); split;
      intros E; solve [discriminate | reflexivity]. }
  split; [exact Hnone|]. split; [|split; [|split]].
  - intros fuel r. rewrite (begin_recognized fuel w Hid).
    destruct (wait_im_update fuel (after_reset w)) as [w3|] eqn:E;
      [|discriminate].
    intros _. destruct (wait_im_update_Some _ _ _ E) as [n [Hn [Hb _]]].
    exists n. split; assumption.
  - intros Hall fuel. apply Hnone. intros n _. apply Hall.
  - intros fuel n Hn Hclear.
    destruct (begin fuel w) as [[found w']|] eqn:E.
    + rewrite (begin_recognized fuel w Hid) in E.
      destruct (wait_im_update fuel (after_reset w)); [|discriminate].
      injection E as <- <-. eexists. reflexivity.
    + rewrite (proj1 (Hnone fuel) E n Hn) in Hclear. discriminate.
  - intros w' Hfail. unfold im_update. revert Hfail. unfold read8.
    cbv beta iota zeta delta
      [bind ret get_this modify_this modify_Wire Wire_beginTransmission
       Wire_write Wire_endTransmission].
    cbn [this Wire txAddress txBuffer rxBuffer bus trace fst snd app].
    destruct (bus_transmit _ _ _) as [st d]. cbn [fst snd].
    intros Hst. destruct (Z.eqb_spec (to_uint8 st) 0); [contradiction|].
    reflexivity.
Qed.

(** *** Transport failures *)

(** A register read whose address write is not acknowledged yields 0. *)
Lemma read8_failed reg (w : World D) :
  to_uint8 (fst (bus_transmit (to_uint8 (_i2cAddr (this w)))
                              [to_uint8 reg] (bus (Wire w)))) <> 0 ->
  fst (read8 reg w) = 0.
Proof.
  unfold read8.
  cbv beta iota zeta delta
    [bind ret get_this modify_this modify_Wire Wire_beginTransmission
     Wire_write Wire_endTransmission].
  cbn [this Wire txAddress txBuffer rxBuffer bus trace fst snd app].
  destruct (bus_transmit _ _ _) as [st d]. cbn [fst snd].
  intros Hst. destruct (Z.eqb_spec (to_uint8 st) 0); [contradiction|].
  reflexivity.
Qed.

Lemma read16_failed reg (w : World D) :
  to_uint8 (fst (bus_transmit (to_uint8 (_i2cAddr (this w)))
                              [to_uint8 reg] (bus (Wire w)))) <> 0 ->
  fst (read16 reg w) = 0.
Proof.
  unfold read16.
  cbv beta iota zeta delta
    [bind ret get_this modify_this modify_Wire Wire_beginTransmission
     Wire_write Wire_endTransmission].
  cbn [this Wire txAddress txBuffer rxBuffer bus trace fst snd app].
  destruct (bus_transmit _ _ _) as [st d]. cbn [fst snd].
  intros Hst. destruct (Z.eqb_spec (to_uint8 st) 0); [contradiction|].
  reflexivity.
Qed.

(** C8, as amended.  A coefficient read whose bus transmission fails
    yields the value 0, through [read8], [read16_LE] and [readS16_LE]
    alike; and with a supported identity byte [begin] goes on to return
    [true] as soon as the status poll ends, whatever happened on the bus
    while the coefficients were read: it never returns [false]. *)
Theorem begin_ignores_transport_failure (fuel : nat) (w : World D) :
  fst (read8 BME280_REG_CHIPID w) = CHIP_ID_BMP280
  \/ fst (read8 BME280_REG_CHIPID w) = CHIP_ID_BME280 ->
  (forall reg (w' : World D),
      to_uint8 (fst (bus_transmit (to_uint8 (_i2cAddr (this w')))
                                  [to_uint8 reg] (bus (Wire w')))) <> 0 ->
      fst (read8 reg w') = 0
      /\ fst (read16_LE reg w') = 0
      /\ fst (readS16_LE reg w') = 0)
  /\ (forall w3,
         wait_im_update fuel (after_reset w) = Some w3 ->
         begin fuel w = Some (true, after_poll w3))
  /\ (forall w', begin fuel w <> Some (false, w')).
Proof.
  intros Hid. split; [|split].
  - intros reg w' Hfail. split; [exact (read8_failed reg w' Hfail)|].
    pose proof (read16_failed reg w' Hfail) as E.
    unfold readS16_LE, read16_LE, bind, ret.
    destruct (read16 reg w') as [v w'']. cbn [fst] in *. subst v.
    split; reflexivity.
  - intros w3 E. rewrite (begin_recognized fuel w Hid), E. reflexivity.
  - intros w'. rewrite (begin_recognized fuel w Hid).
    destruct (wait_im_update fuel (after_reset w)); discriminate.
Qed.

(* ------------------------------------------------------------------ *)
(** *** Further properties: what the calls leave alone *)

Lemma read16_LE_this reg (w : World D) :
  this (snd (read16_LE reg w)) = this w.
Proof.
  unfold read16_LE, bind, ret.
  pose proof (read16_this reg w) as E.
  destruct (read16 reg w) as [v w1]. exact E.
Qed.

Lemma readS16_LE_this reg (w : World D) :
  this (snd (readS16_LE reg w)) = this w.
Proof.
  unfold readS16_LE, bind, ret.
  pose proof (read16_LE_this reg w) as E.
  destruct (read16_LE reg w) as [v w1]. exact E.
Qed.

Lemma read16_LE_range reg (w : World D) :
  is_uint16 (fst (read16_LE reg w)).
Proof.
  unfold read16_LE, bind, ret.
  destruct (read16 reg w) as [v w1]. apply to_uint16_range.
Qed.

Lemma readS16_LE_range reg (w : World D) :
  is_int16 (fst (readS16_LE reg w)).
Proof.
  unfold readS16_LE, bind, ret.
  destruct (read16_LE reg w) as [v w1]. apply to_int16_range.
Qed.

Lemma write8_this reg value (w : World D) :
  this (snd (write8 reg value w)) = this w.
Proof.
  destruct (write8_trace reg value w) as [st E]. rewrite E. reflexivity.
Qed.

Lemma same_except_t_fine_set (fine : Z) (o : ErriezBMX280) :
  same_except_t_fine o (set_t_fine fine o).
Proof. reflexivity. Qed.

(** X1.  The three measurement calls change no member of the driver
    object other than [_t_fine]: the I2C address, the chip identity and
    all eighteen calibration coefficients are what they were, on every
    bus and whatever the registers return. *)
Theorem measurements_keep_calibration (w : World D) :
  same_except_t_fine (this w) (this (snd (readTemperature w)))
  /\ same_except_t_fine (this w) (this (snd (readPressure w)))
  /\ same_except_t_fine (this w) (this (snd (readHumidity w))).
Proof.
  assert (HT : forall w0 : World D,
             same_except_t_fine (this w0) (this (snd (readTemperature w0)))).
  { intros w0. destruct (readTemperature_this w0) as [fine [_ E]].
    rewrite E. apply same_except_t_fine_set. }
  split; [apply HT|]. split.
  - rewrite readPressure_snd, read24_this. apply HT.
  - destruct (Z.eq_dec (_chipID (this w)) CHIP_ID_BME280) as [Hid|Hid].
    + rewrite (readHumidity_snd w Hid), read16_this. apply HT.
    + unfold readHumidity, bind, get_this.
      destruct (Z.eqb_spec (_chipID (this w)) CHIP_ID_BME280);
        [contradiction|].
      reflexivity.
Qed.

(** X2.  On every bus and in every state [readHumidity] returns a value
    between 0 and 100 percent. *)
Theorem readHumidity_percent_range (w : World D) :
  (0 <= fst (readHumidity w) <= 100)%Q.
Proof.
  destruct (Z.eq_dec (_chipID (this w)) CHIP_ID_BME280) as [Hid|Hid].
  - rewrite (readHumidity_run w Hid). cbn [fst]. unfold Spec.percent.
    pose proof (percent_exact_as_float
                  (readHumidity_v_x1_u32r
                     (this (snd (read16 BME280_REG_HUM
                                        (snd (readTemperature w)))))
                     (fst (read16 BME280_REG_HUM
                                  (snd (readTemperature w)))))) as R.
    unfold Qle. cbn [Qnum Qden]. lia.
  - unfold readHumidity, bind, get_this.
    destruct (Z.eqb_spec (_chipID (this w)) CHIP_ID_BME280);
      [contradiction|].
    cbn. unfold Qle. cbn. lia.
Qed.

(* ------------------------------------------------------------------ *)
(** *** Further properties: readCoefficients on every bus *)

Ltac simpl_members :=
  cbn [this Wire fst snd
       _i2cAddr _chipID _t_fine _dig_T1 _dig_T2 _dig_T3
       _dig_P1 _dig_P2 _dig_P3 _dig_P4 _dig_P5 _dig_P6 _dig_P7 _dig_P8
       _dig_P9 _dig_H1 _dig_H2 _dig_H3 _dig_H4 _dig_H5 _dig_H6
       set_chipID set_t_fine set_dig_T1 set_dig_T2 set_dig_T3
       set_dig_P1 set_dig_P2 set_dig_P3 set_dig_P4 set_dig_P5 set_dig_P6
       set_dig_P7 set_dig_P8 set_dig_P9 set_dig_H1 set_dig_H2 set_dig_H3
       set_dig_H4 set_dig_H5 set_dig_H6] in *.

(** Names the value and the state the next register read of the goal
    yields, keeping what is known of them. *)
Ltac coef_step :=
  first
    [ match goal with
      | |- context [readS16_LE ?r ?x] =>
          let v := fresh "v" in
          let w' := fresh "w" in
          let Et := fresh "Et" in
          let Er := fresh "Er" in
          pose proof (readS16_LE_this r x) as Et;
          pose proof (readS16_LE_range r x) as Er;
          destruct (readS16_LE r x) as [v w']
      | |- context [read16_LE ?r ?x] =>
          let v := fresh "v" in
          let w' := fresh "w" in
          let Et := fresh "Et" in
          let Er := fresh "Er" in
          pose proof (read16_LE_this r x) as Et;
          pose proof (read16_LE_range r x) as Er;
          destruct (read16_LE r x) as [v w']
      end
    | match goal with
      | |- context [read8 ?r ?x] =>
          let v := fresh "v" in
          let w' := fresh "w" in
          let Et := fresh "Et" in
          let Er := fresh "Er" in
          pose proof (read8_this r x) as Et;
          pose proof (read8_range r x) as Er;
          destruct (read8 r x) as [v w']
      end ];
  cbv beta iota zeta delta [modify_this];
  simpl_members.

(** Rewrites the object of each intermediate state down to the initial
    one. *)
Ltac back_to_start :=
  repeat (match goal with
          | E : this _ = _ |- _ => rewrite E
          end; simpl_members).

(** Splits the conjunctions of the goal, not the range predicates. *)
Ltac conjs := repeat match goal with |- _ /\ _ => split end.

Lemma dig_H4_int12 (a b : Z) :
  is_int12 (Z.lor (Z.shiftl (to_int8 a) 4) (Z.land b 0xF)).
Proof.
  pose proof (to_int8_range a) as Ha. unfold is_int8 in Ha.
  change 0xF with (Z.ones 4). rewrite Z.land_ones by lia.
  pose proof (Z.mod_pos_bound b (2 ^ 4) eq_refl) as Hb.
  rewrite lor_shiftl_small by (try assumption; lia).
  change (2 ^ 4) with 16 in *. unfold is_int12. lia.
Qed.

Lemma dig_H5_int12 (a b : Z) :
  is_uint8 b -> is_int12 (Z.lor (Z.shiftl (to_int8 a) 4) (Z.shiftr b 4)).
Proof.
  intros Hb. unfold is_uint8 in Hb.
  pose proof (to_int8_range a) as Ha. unfold is_int8 in Ha.
  assert (Hs : 0 <= Z.shiftr b 4 < 2 ^ 4).
  { rewrite Z.shiftr_div_pow2 by lia. change (2 ^ 4) with 16. split.
    - apply Z.div_pos; lia.
    - apply Z.div_lt_upper_bound; lia. }
  rewrite lor_shiftl_small by (try assumption; lia).
  change (2 ^ 4) with 16 in *. unfold is_int12. lia.
Qed.

Lemma int12_is_int16 x : is_int12 x -> is_int16 x.
Proof. unfold is_int12, is_int16. lia. Qed.

(** [readCoefficients] leaves the address, the chip identity and
    [_t_fine] alone. *)
Lemma readCoefficients_frame (w : World D) :
  _i2cAddr (this (snd (readCoefficients w))) = _i2cAddr (this w)
  /\ _chipID (this (snd (readCoefficients w))) = _chipID (this w)
  /\ _t_fine (this (snd (readCoefficients w))) = _t_fine (this w).
Proof.
  unfold readCoefficients.
  cbv beta iota zeta delta [bind get_this ret].
  do 12 coef_step.
  match goal with
  | |- context [if ?c then _ else _] => destruct c
  end.
  - do 8 coef_step. back_to_start. repeat split; reflexivity.
  - back_to_start. repeat split; reflexivity.
Qed.

(** X3.  Whatever the bus delivers, [readCoefficients] leaves every
    temperature and pressure coefficient within its declared type, and
    on the BME280 every humidity coefficient too, dig_H4 and dig_H5
    within the 12-bit two's complement range; on another chip the
    humidity members keep their values.  The address, the chip identity
    and [_t_fine] are not touched. *)
Theorem readCoefficients_ranges (w : World D) :
  let o := this w in
  let o' := this (snd (readCoefficients w)) in
  (_i2cAddr o' = _i2cAddr o /\ _chipID o' = _chipID o
   /\ _t_fine o' = _t_fine o)
  /\ (is_uint16 (_dig_T1 o') /\ is_int16 (_dig_T2 o')
      /\ is_int16 (_dig_T3 o'))
  /\ (is_uint16 (_dig_P1 o') /\ is_int16 (_dig_P2 o')
      /\ is_int16 (_dig_P3 o') /\ is_int16 (_dig_P4 o')
      /\ is_int16 (_dig_P5 o') /\ is_int16 (_dig_P6 o')
      /\ is_int16 (_dig_P7 o') /\ is_int16 (_dig_P8 o')
      /\ is_int16 (_dig_P9 o'))
  /\ (_chipID o = CHIP_ID_BME280 ->
      is_uint8 (_dig_H1 o') /\ is_int16 (_dig_H2 o')
      /\ is_uint8 (_dig_H3 o') /\ is_int12 (_dig_H4 o')
      /\ is_int12 (_dig_H5 o') /\ is_int8 (_dig_H6 o'))
  /\ (_chipID o <> CHIP_ID_BME280 ->
      _dig_H1 o' = _dig_H1 o /\ _dig_H2 o' = _dig_H2 o
      /\ _dig_H3 o' = _dig_H3 o /\ _dig_H4 o' = _dig_H4 o
      /\ _dig_H5 o' = _dig_H5 o /\ _dig_H6 o' = _dig_H6 o).
Proof.
  intros o o'. subst o o'.
  split; [apply readCoefficients_frame|].
  unfold readCoefficients.
  cbv beta iota zeta delta [bind get_this ret].
  do 12 coef_step.
  match goal with
  | |- context [if ?c =? ?d then _ else _] => destruct (Z.eqb_spec c d) as [Hid|Hid]
  end.
  - do 8 coef_step.
    revert Hid. back_to_start. intros Hid.
    match goal with
    | |- context [to_int16 (Z.lor (Z.shiftl (to_int8 ?a) 4) (Z.land ?b 0xF))] =>
        pose proof (dig_H4_int12 a b) as H4r;
        rewrite (to_int16_id _ (int12_is_int16 _ H4r))
    end.
    match goal with
    | Hb : is_uint8 ?b
      |- context [to_int16 (Z.lor (Z.shiftl (to_int8 ?a) 4) (Z.shiftr ?b 4))] =>
        pose proof (dig_H5_int12 a b Hb) as H5r;
        rewrite (to_int16_id _ (int12_is_int16 _ H5r))
    end.
    split; [conjs; assumption|].
    split; [conjs; assumption|].
    split; [intros _|intros E; contradiction].
    conjs; try assumption; apply to_int8_range.
  - revert Hid. back_to_start. intros Hid.
    split; [conjs; assumption|].
    split; [conjs; assumption|].
    split; [intros E; contradiction|intros _].
    conjs; reflexivity.
Qed.

(* ------------------------------------------------------------------ *)
(** *** Further properties: begin and getChipID *)

Lemma wait_im_update_this (fuel : nat) :
  forall w w' : World D,
    wait_im_update fuel w = Some w' -> this w' = this w.
Proof.
  induction fuel as [|fuel IH]; intros w w';
    rewrite wait_im_update_eq; destruct (im_update w).
  - discriminate.
  - intros [= <-]. apply read8_this.
  - intros E. rewrite (IH _ _ E). unfold delay, modify_Wire.
    cbn [snd this]. apply read8_this.
  - intros [= <-]. apply read8_this.
Qed.

Lemma after_reset_this (w : World D) :
  this (after_reset w)
  = set_chipID (fst (read8 BME280_REG_CHIPID w)) (this w).
Proof.
  unfold after_reset.
  pose proof (read8_this BME280_REG_CHIPID w) as E.
  destruct (read8 BME280_REG_CHIPID w) as [id w1]. cbn [fst snd] in *.
  unfold modify_this.
  match goal with
  | |- context [write8 ?r ?v ?x] =>
      pose proof (write8_this r v x) as E2;
      destruct (write8 r v x) as [u w2]
  end.
  cbn [snd this] in E2. unfold delay, modify_Wire. cbn [this].
  rewrite E2, E. reflexivity.
Qed.

Lemma after_poll_this (w : World D) :
  this (after_poll w) = this (snd (readCoefficients w)).
Proof.
  unfold after_poll.
  destruct (readCoefficients w) as [u w1]. cbn [snd].
  unfold setSampling_default.
  match goal with
  | |- context [setSampling ?m ?t ?p ?h ?f ?s ?x] =>
      pose proof (setSampling_this m t p h f s x) as E2;
      destruct (setSampling m t p h f s x) as [u2 w2]
  end.
  cbn [snd] in E2. unfold delay, modify_Wire. cbn [this]. exact E2.
Qed.

Lemma after_poll_chipID (w : World D) :
  _chipID (this (after_poll w)) = _chipID (this w).
Proof.
  unfold after_poll.
  destruct (readCoefficients_frame w) as [_ [E _]].
  destruct (readCoefficients w) as [u w1]. cbn [snd] in E.
  unfold setSampling_default.
  match goal with
  | |- context [setSampling ?m ?t ?p ?h ?f ?s ?x] =>
      pose proof (setSampling_this m t p h f s x) as E2;
      destruct (setSampling m t p h f s x) as [u2 w2]
  end.
  cbn [snd] in E2. unfold delay, modify_Wire. cbn [this].
  rewrite E2. exact E.
Qed.

(** X4.  Whenever [begin] returns, the chip identity that [getChipID]
    reports afterwards is the byte the identity register read yielded,
    and the result of [begin] is [true] exactly when that byte is 0x58 or
    0x60; [getChipID] itself touches neither the bus nor the object. *)
Theorem begin_agrees_with_getChipID (fuel : nat) (w w' : World D)
        (found : bool) :
  begin fuel w = Some (found, w') ->
  fst (getChipID w') = fst (read8 BME280_REG_CHIPID w)
  /\ found = ((fst (getChipID w') =? CHIP_ID_BMP280)
              || (fst (getChipID w') =? CHIP_ID_BME280))
  /\ snd (getChipID w') = w'.
Proof.
  intros Hb.
  assert (Hget : fst (getChipID w') = _chipID (this w')) by reflexivity.
  rewrite Hget. split; [|split; [|reflexivity]].
  - destruct (Z.eq_dec (fst (read8 BME280_REG_CHIPID w)) CHIP_ID_BMP280)
      as [E58|N58];
    [|destruct (Z.eq_dec (fst (read8 BME280_REG_CHIPID w)) CHIP_ID_BME280)
        as [E60|N60]].
    1,2: rewrite begin_recognized in Hb by (auto; fail);
      destruct (wait_im_update fuel (after_reset w)) as [w3|] eqn:Ew;
      [|discriminate];
      injection Hb as _ <-;
      rewrite after_poll_chipID, (wait_im_update_this _ _ _ Ew),
        after_reset_this; reflexivity.
    unfold begin in Hb.
    destruct (read8 BME280_REG_CHIPID w) as [id w1]. cbn [fst] in *.
    unfold modify_this in Hb. cbn [this _chipID set_chipID] in Hb.
    destruct (Z.eqb_spec id CHIP_ID_BMP280); [contradiction|].
    destruct (Z.eqb_spec id CHIP_ID_BME280); [contradiction|].
    cbn [negb andb] in Hb. injection Hb as _ <-. reflexivity.
  - destruct (Z.eq_dec (fst (read8 BME280_REG_CHIPID w)) CHIP_ID_BMP280)
      as [E58|N58];
    [|destruct (Z.eq_dec (fst (read8 BME280_REG_CHIPID w)) CHIP_ID_BME280)
        as [E60|N60]].
    1,2: rewrite begin_recognized in Hb by (auto; fail);
      destruct (wait_im_update fuel (after_reset w)) as [w3|] eqn:Ew;
      [|discriminate];
      injection Hb as <- <-;
      rewrite after_poll_chipID, (wait_im_update_this _ _ _ Ew),
        after_reset_this; cbn [_chipID set_chipID];
      first [rewrite E58 | rewrite E60]; reflexivity.
    unfold begin in Hb.
    destruct (read8 BME280_REG_CHIPID w) as [id w1]. cbn [fst] in *.
    unfold modify_this in Hb. cbn [this _chipID set_chipID] in Hb.
    destruct (Z.eqb_spec id CHIP_ID_BMP280); [contradiction|].
    destruct (Z.eqb_spec id CHIP_ID_BME280); [contradiction|].
    cbn [negb andb] in Hb. injection Hb as <- <-.
    cbn [this _chipID set_chipID].
    destruct (Z.eqb_spec id CHIP_ID_BMP280); [contradiction|].
    destruct (Z.eqb_spec id CHIP_ID_BME280); [contradiction|].
    reflexivity.
Qed.

(* ------------------------------------------------------------------ *)
(** *** Further properties: readings with zero coefficients *)

Lemma mul32_0_r (x : Z) : mul32 x 0 = 0.
Proof. unfold mul32. rewrite Z.mul_0_r. reflexivity. Qed.

Lemma mul64_0_r (x : Z) : mul64 x 0 = 0.
Proof. unfold mul64. rewrite Z.mul_0_r. reflexivity. Qed.

(** X5.  With [dig_P1 = 0] - which is what a failed coefficient read
    leaves - the divisor of the pressure formula is zero whatever the
    temperature and the other coefficients are, so [readPressure]
    returns 0 on every bus. *)
Theorem readPressure_zero_dig_P1 (w : World D) :
  _dig_P1 (this w) = 0 ->
  readPressure w
  = (Some (float_of_int 0),
     snd (read24 BMX280_REG_PRESS (snd (readTemperature w)))).
Proof.
  intros HP1. unfold readPressure, bind.
  destruct (readTemperature_this w) as [fine [_ Ethis]].
  destruct (readTemperature w) as [t w1]. cbn [snd] in *.
  pose proof (read24_this BMX280_REG_PRESS w1) as E2.
  destruct (read24 BMX280_REG_PRESS w1) as [raw w2]. cbn [snd] in *.
  cbv beta iota zeta delta [get_this ret].
  assert (Hv : readPressure_var1 (this w2) = 0).
  { unfold readPressure_var1. rewrite E2, Ethis.
    cbn [_t_fine _dig_P1 _dig_P2 _dig_P3 set_t_fine]. rewrite HP1.
    change (to_int64 0) with 0. rewrite mul64_0_r. reflexivity. }
  rewrite Hv. reflexivity.
Qed.

(** X6.  With [dig_T2 = 0] and [dig_T3 = 0] both terms of the temperature
    polynomial vanish: whatever the temperature registers deliver and
    whatever [dig_T1] is, [readTemperature] stores [_t_fine = 0] and
    returns 0/100. *)
Theorem readTemperature_zero_coefficients (w : World D) :
  _dig_T2 (this w) = 0 ->
  _dig_T3 (this w) = 0 ->
  fst (readTemperature w) = 0 # 100
  /\ _t_fine (this (snd (readTemperature w))) = 0.
Proof.
  intros HT2 HT3. unfold readTemperature, bind.
  pose proof (read24_this BMX280_REG_TEMP w) as E.
  destruct (read24 BMX280_REG_TEMP w) as [raw w1]. cbn [snd] in E.
  cbv beta iota zeta delta [get_this modify_this ret].
  cbn [this Wire fst snd _t_fine set_t_fine]. rewrite E, HT2, HT3.
  change (to_int32 0) with 0.
  rewrite !mul32_0_r.
  split; reflexivity.
Qed.

(* ------------------------------------------------------------------ *)
(** *** Further properties: the packed control bytes *)

(** X7.  The last two writes of [setSampling] carry bytes from which
    every setting can be read back: bits 7..5 of the config byte are the
    standby code, bits 4..2 the filter code, bits 1..0 are clear; bits
    7..5 of the ctrl_meas byte are the temperature oversampling code,
    bits 4..2 the pressure oversampling code, bits 1..0 the mode.  No
    field spills into another for any choice of enumerators. *)
Theorem control_bytes_unpack (mode : BMX280_Mode_e)
        (tempSampling pressSampling humSampling : BMX280_Sampling_e)
        (filter : BMX280_Filter_e) (standbyDuration : BMX280_Standby_e)
        (w : World D) :
  let a := to_uint8 (_i2cAddr (this w)) in
  let w' :=
    snd (setSampling mode tempSampling pressSampling humSampling filter
                     standbyDuration w) in
  exists before config ctrl_meas st3 st4,
    trace (Wire w')
    = before ++ [Transmit a [BMX280_REG_CONFIG; config] st3;
                 Transmit a [BMX280_REG_CTRL_MEAS; ctrl_meas] st4]
    /\ (Z.shiftr config 5 = standby_code standbyDuration
        /\ Z.land (Z.shiftr config 2) 7 = filter_code filter
        /\ Z.land config 3 = 0)
    /\ (Z.shiftr ctrl_meas 5 = sampling_code tempSampling
        /\ Z.land (Z.shiftr ctrl_meas 2) 7 = sampling_code pressSampling
        /\ Z.land ctrl_meas 3 = mode_code mode).
Proof.
  intros a w'. subst w'.
  unfold setSampling, bind, get_this, ret.
  step_write8 st1. cbn [this].
  destruct (_chipID (this w) =? CHIP_ID_BME280).
  - step_write8 st2. step_write8 st3. step_write8 st4. cbn [snd Wire trace].
    rewrite config_byte_fits, ctrl_meas_byte_fits.
    eexists. eexists. eexists. exists st3, st4.
    split; [rewrite <- app_assoc; reflexivity|].
    split; [destruct standbyDuration, filter
           |destruct tempSampling, pressSampling, mode];
      repeat split; reflexivity.
  - step_write8 st3. step_write8 st4. cbn [snd Wire trace].
    rewrite config_byte_fits, ctrl_meas_byte_fits.
    eexists. eexists. eexists. exists st3, st4.
    split; [rewrite <- app_assoc; reflexivity|].
    split; [destruct standbyDuration, filter
           |destruct tempSampling, pressSampling, mode];
      repeat split; reflexivity.
Qed.

(* ------------------------------------------------------------------ *)
(** *** Further properties: register reads at the edges *)

Ltac open_read :=
  cbv beta iota zeta delta
    [bind ret get_this modify_this modify_Wire Wire_beginTransmission
     Wire_write Wire_endTransmission Wire_requestFrom Wire_read];
  cbn [this Wire txAddress txBuffer rxBuffer bus trace fst snd app];
  change (to_uint8 1) with 1; change (to_uint8 2) with 2;
  change (to_uint8 3) with 3;
  change (Z.to_nat 1) with 1%nat; change (Z.to_nat 2) with 2%nat;
  change (Z.to_nat 3) with 3%nat.

Lemma lor_all_ones32 (x : Z) :
  Z.lor (to_uint32 x) (to_uint32 (-1)) = 4294967295.
Proof.
  change (to_uint32 (-1)) with (Z.ones 32).
  change 4294967295 with (Z.ones 32).
  unfold to_uint32, wrap_unsigned.
  apply Z.bits_inj'. intros n Hn. rewrite Z.lor_spec.
  destruct (Z.lt_ge_cases n 32) as [Hlt|Hge].
  - rewrite Z.ones_spec_low by lia. apply orb_true_r.
  - rewrite Z.mod_pow2_bits_high by lia.
    rewrite Z.ones_spec_high by lia. reflexivity.
Qed.

Lemma read16_assemble (b0 b1 : Z) :
  is_uint8 b0 -> is_uint8 b1 ->
  to_uint16 (Z.lor (Z.shiftl b0 8) b1) = b0 * 256 + b1.
Proof.
  unfold is_uint8, to_uint16, wrap_unsigned. intros H0 H1.
  rewrite (lor_shiftl_small b0 b1 8) by (change (2 ^ 8) with 256; lia).
  change (2 ^ 8) with 256. change (2 ^ 16) with 65536.
  apply Z.mod_small. lia.
Qed.

(** X8.  When the sensor acknowledges the register address but the read
    transaction delivers too few bytes, the missing bytes read as -1 and
    the register functions return all ones: [read8] 0xFF with no byte,
    [read16] 0xFFFF with fewer than two bytes, [read24] 0xFFFFFFFF with
    fewer than three bytes (here even when the address was not
    acknowledged). *)
Theorem short_reads_give_all_ones (reg : Z) (w : World D) :
  let a := to_uint8 (_i2cAddr (this w)) in
  let st := to_uint8 (fst (bus_transmit a [to_uint8 reg] (bus (Wire w)))) in
  let d := snd (bus_transmit a [to_uint8 reg] (bus (Wire w))) in
  (st = 0 -> fst (bus_request a 1 d) = [] -> fst (read8 reg w) = 0xFF)
  /\ (st = 0 -> (length (fst (bus_request a 2 d)) < 2)%nat ->
      fst (read16 reg w) = 0xFFFF)
  /\ ((length (fst (bus_request a 3 d)) < 3)%nat ->
      fst (read24 reg w) = 0xFFFFFFFF).
Proof.
  intros a st d. subst a st d. split; [|split].
  - unfold read8. open_read.
    destruct (bus_transmit _ _ _) as [st d].
    cbn [this Wire txAddress txBuffer rxBuffer bus trace fst snd].
    intros -> Hreq. change (negb (0 =? 0)) with false. cbv iota.
    cbn [this Wire txAddress txBuffer rxBuffer bus trace fst snd].
    destruct (bus_request _ _ d) as [bs d']. cbn [fst] in Hreq. subst bs.
    reflexivity.
  - unfold read16. open_read.
    destruct (bus_transmit _ _ _) as [st d].
    cbn [this Wire txAddress txBuffer rxBuffer bus trace fst snd].
    intros -> Hreq. change (negb (0 =? 0)) with false. cbv iota.
    cbn [this Wire txAddress txBuffer rxBuffer bus trace fst snd].
    destruct (bus_request _ _ d) as [bs d']. cbn [fst] in Hreq.
    destruct bs as [|b0 [|b1 rest]]; cbn [length] in Hreq; [| |lia];
      cbn [map firstn this Wire rxBuffer fst snd];
      rewrite Z.lor_m1_r; reflexivity.
  - unfold read24. open_read.
    destruct (bus_transmit _ _ _) as [st d].
    cbn [this Wire txAddress txBuffer rxBuffer bus trace fst snd].
    intros Hreq.
    destruct (bus_request _ _ d) as [bs d']. cbn [fst] in Hreq.
    destruct bs as [|b0 [|b1 [|b2 rest]]]; cbn [length] in Hreq;
      [| | |lia];
      cbn [map firstn this Wire rxBuffer fst snd];
      apply lor_all_ones32.
Qed.

(** X9.  When the register address is not acknowledged, [read8] and
    [read16] return 0 and put nothing further on the bus: no read
    transaction follows the failed write.  [read24] does not look at the
    status and requests its three bytes all the same. *)
Theorem unacknowledged_address (reg : Z) (w : World D) :
  let a := to_uint8 (_i2cAddr (this w)) in
  let st := to_uint8 (fst (bus_transmit a [to_uint8 reg] (bus (Wire w)))) in
  st <> 0 ->
  (fst (read8 reg w) = 0
   /\ trace (Wire (snd (read8 reg w)))
      = trace (Wire w) ++ [Transmit a [to_uint8 reg] st])
  /\ (fst (read16 reg w) = 0
      /\ trace (Wire (snd (read16 reg w)))
         = trace (Wire w) ++ [Transmit a [to_uint8 reg] st])
  /\ (exists bs,
         trace (Wire (snd (read24 reg w)))
         = trace (Wire w) ++ [Transmit a [to_uint8 reg] st;
                              Request a 3 bs]).
Proof.
  intros a st. subst a st. intros Hst. split; [|split].
  - revert Hst. unfold read8. open_read.
    destruct (bus_transmit _ _ _) as [st d].
    cbn [this Wire txAddress txBuffer rxBuffer bus trace fst snd]. intros Hst.
    destruct (Z.eqb_spec (to_uint8 st) 0); [contradiction|].
    cbn [negb fst snd this Wire trace]. split; reflexivity.
  - revert Hst. unfold read16. open_read.
    destruct (bus_transmit _ _ _) as [st d].
    cbn [this Wire txAddress txBuffer rxBuffer bus trace fst snd]. intros Hst.
    destruct (Z.eqb_spec (to_uint8 st) 0); [contradiction|].
    cbn [negb fst snd this Wire trace]. split; reflexivity.
  - clear Hst. unfold read24. open_read.
    destruct (bus_transmit _ _ _) as [st d].
    cbn [this Wire txAddress txBuffer rxBuffer bus trace fst snd].
    destruct (bus_request _ _ d) as [bs d'].
    exists (firstn 3 (map to_uint8 bs)).
    repeat (match goal with
            | |- context [match ?l with [] => _ | _ :: _ => _ end] =>
                destruct l
            end;
            cbn [this Wire txAddress txBuffer rxBuffer bus trace fst snd]);
      rewrite <- app_assoc; reflexivity.
Qed.

(** X10.  When the address is acknowledged and the bytes arrive, the
    register functions assemble them in this order: [read16] and [read24]
    take the first byte received as the most significant one,
    [read16_LE] takes it as the least significant one; a [read24] result
    is below 2^24. *)
Theorem register_byte_order (reg : Z) (w : World D) (b0 b1 b2 : Z)
        (rest : list Z) :
  let a := to_uint8 (_i2cAddr (this w)) in
  let st := to_uint8 (fst (bus_transmit a [to_uint8 reg] (bus (Wire w)))) in
  let d := snd (bus_transmit a [to_uint8 reg] (bus (Wire w))) in
  (st = 0 -> fst (bus_request a 2 d) = b0 :: b1 :: rest ->
   fst (read16 reg w) = to_uint8 b0 * 256 + to_uint8 b1
   /\ fst (read16_LE reg w) = to_uint8 b0 + 256 * to_uint8 b1)
  /\ (fst (bus_request a 3 d) = b0 :: b1 :: b2 :: rest ->
      fst (read24 reg w)
      = to_uint8 b0 * 65536 + to_uint8 b1 * 256 + to_uint8 b2
      /\ 0 <= fst (read24 reg w) < 2 ^ 24).
Proof.
  intros a st d. subst a st d.
  pose proof (to_uint8_range b0) as R0.
  pose proof (to_uint8_range b1) as R1.
  pose proof (to_uint8_range b2) as R2.
  split.
  - intros Hst Hreq.
    assert (E : fst (read16 reg w) = to_uint8 b0 * 256 + to_uint8 b1).
    { revert Hst Hreq. unfold read16. open_read.
      destruct (bus_transmit _ _ _) as [st d].
    cbn [this Wire txAddress txBuffer rxBuffer bus trace fst snd].
      intros -> Hreq. change (negb (0 =? 0)) with false. cbv iota.
      cbn [this Wire txAddress txBuffer rxBuffer bus trace fst snd].
    cbn [this Wire txAddress txBuffer rxBuffer bus trace fst snd].
      destruct (bus_request _ _ d) as [bs d']. cbn [fst] in Hreq. subst bs.
      cbn [map firstn this Wire rxBuffer fst snd].
      apply read16_assemble; assumption. }
    split; [exact E|].
    revert Hst Hreq. unfold read16_LE, bind at 1, ret.
    unfold read16. open_read.
    destruct (bus_transmit _ _ _) as [st d].
    cbn [this Wire txAddress txBuffer rxBuffer bus trace fst snd].
    intros -> Hreq. change (negb (0 =? 0)) with false. cbv iota.
    cbn [this Wire txAddress txBuffer rxBuffer bus trace fst snd].
    destruct (bus_request _ _ d) as [bs d']. cbn [fst] in Hreq. subst bs.
    cbn [map firstn this Wire rxBuffer fst snd].
    apply read16_LE_swap; assumption.
  - intros Hreq.
    assert (E : fst (read24 reg w)
                = to_uint8 b0 * 65536 + to_uint8 b1 * 256 + to_uint8 b2).
    { revert Hreq. unfold read24. open_read.
      destruct (bus_transmit _ _ _) as [st d].
    cbn [this Wire txAddress txBuffer rxBuffer bus trace fst snd].
      intros Hreq.
      destruct (bus_request _ _ d) as [bs d']. cbn [fst] in Hreq. subst bs.
      cbn [map firstn this Wire rxBuffer fst snd].
      apply read24_assemble; assumption. }
    split; [exact E|]. rewrite E. unfold is_uint8 in *.
    change (2 ^ 24) with 16777216. lia.
Qed.

(* ------------------------------------------------------------------ *)
(** *** Further properties: the value of readTemperature *)

Lemma readTemperature_value (w : World D) :
  0 <= fst (read24 BMX280_REG_TEMP w) < 2 ^ 24 ->
  is_uint16 (_dig_T1 (this w)) ->
  is_int16 (_dig_T2 (this w)) ->
  is_int16 (_dig_T3 (this w)) ->
  fst (readTemperature w)
  = Spec.celsius
      (Spec.fineTemperature (fst (read24 BMX280_REG_TEMP w))
         (_dig_T1 (this w)) (_dig_T2 (this w)) (_dig_T3 (this w))).
Proof.
  intros Hraw HT1 HT2 HT3. unfold readTemperature, bind.
  pose proof (read24_this BMX280_REG_TEMP w) as E.
  destruct (read24 BMX280_REG_TEMP w) as [raw w1]. cbn [fst snd] in *.
  cbv beta iota zeta delta [get_this modify_this ret].
  cbn [this Wire fst _t_fine set_t_fine]. rewrite E.
  rewrite (to_int32_id raw)
    by (unfold is_int32; change (2 ^ 24) with 16777216 in Hraw; lia).
  rewrite (to_int32_id (_dig_T1 (this w))) by auto with cint.
  rewrite (to_int32_id (_dig_T2 (this w))) by auto with cint.
  rewrite (to_int32_id (_dig_T3 (this w))) by auto with cint.
  unfold Spec.celsius, Spec.centidegrees, Spec.fineTemperature,
    float_div, shr32.
  reflexivity.
Qed.

End Properties.


Lemma to_int16_signed (x : Z) :
  is_uint16 x -> to_int16 x = Spec.signed 16 x.
Proof.
  unfold is_uint16, to_int16, wrap_signed, Spec.signed. intros Hx.
  change (2 ^ (16 - 1)) with 32768. change (2 ^ 16) with 65536.
  destruct (Z.ltb_spec x 32768).
  - rewrite Z.mod_small; lia.
  - replace (x + 32768) with (x - 32768 + 1 * 65536) by lia.
    rewrite Z.mod_add by lia. rewrite Z.mod_small; lia.
Qed.

Lemma to_int8_signed (x : Z) :
  is_uint8 x -> to_int8 x = Spec.signed 8 x.
Proof.
  unfold is_uint8, to_int8, wrap_signed, Spec.signed. intros Hx.
  change (2 ^ (8 - 1)) with 128. change (2 ^ 8) with 256.
  destruct (Z.ltb_spec x 128).
  - rewrite Z.mod_small; lia.
  - replace (x + 128) with (x - 128 + 1 * 256) by lia.
    rewrite Z.mod_add by lia. rewrite Z.mod_small; lia.
Qed.

(** The two 12-bit humidity coefficients fit in [int16_t]. *)
Lemma dig_H4_fits (a b : Z) :
  is_int16 (Z.lor (Z.shiftl (to_int8 a) 4) (Z.land b 0xF)).
Proof.
  pose proof (to_int8_range a) as Ha. unfold is_int8 in Ha.
  change 0xF with (Z.ones 4). rewrite Z.land_ones by lia.
  pose proof (Z.mod_pos_bound b (2 ^ 4) eq_refl) as Hb.
  rewrite lor_shiftl_small by (try assumption; lia).
  change (2 ^ 4) with 16 in *. unfold is_int16. lia.
Qed.

Lemma dig_H5_fits (a b : Z) :
  is_uint8 b -> is_int16 (Z.lor (Z.shiftl (to_int8 a) 4) (Z.shiftr b 4)).
Proof.
  intros Hb. unfold is_uint8 in Hb.
  pose proof (to_int8_range a) as Ha. unfold is_int8 in Ha.
  assert (Hs : 0 <= Z.shiftr b 4 < 2 ^ 4).
  { rewrite Z.shiftr_div_pow2 by lia. change (2 ^ 4) with 16. split.
    - apply Z.div_pos; lia.
    - apply Z.div_lt_upper_bound; lia. }
  rewrite lor_shiftl_small by (try assumption; lia).
  change (2 ^ 4) with 16 in *. unfold is_int16. lia.
Qed.

Section SimProperties.

Variable mem : Z -> Z.

Local Abbreviation bus0 := (SimBus mem never).

Lemma sim_request_plain (a q : Z) (d : SimDevice) :
  sim_pointer d <> BMX280_REG_STATUS ->
  sim_request mem a q d
  = (map (fun i => mem (sim_pointer d + Z.of_nat i)) (seq 0 (Z.to_nat q)),
     mkSim (sim_pointer d + q) (sim_busy d)).
Proof.
  intros Hp. unfold sim_request.
  destruct (sim_busy d); [reflexivity|].
  destruct (Z.eqb_spec (sim_pointer d) BMX280_REG_STATUS);
    [contradiction|reflexivity].
Qed.

Ltac sim_run Hreg Hst :=
  cbv beta iota zeta delta
    [bind ret get_this modify_this modify_Wire Wire_beginTransmission
     Wire_write Wire_endTransmission Wire_requestFrom Wire_read];
  cbn [this Wire txAddress txBuffer rxBuffer bus trace fst snd app
       bus_transmit bus_request SimBus];
  rewrite (to_uint8_id _ Hreg);
  unfold sim_transmit, never;
  change (to_uint8 0) with 0; change (0 =? 0) with true; cbn [negb];
  cbn [this Wire txAddress txBuffer rxBuffer bus trace fst snd app];
  rewrite sim_request_plain by exact Hst;
  cbn [sim_pointer sim_busy];
  change (to_uint8 1) with 1; change (Z.to_nat 1) with 1%nat;
  change (to_uint8 2) with 2; change (Z.to_nat 2) with 2%nat;
  cbn [seq map firstn Z.of_nat Pos.of_succ_nat Pos.succ];
  cbn [this Wire txAddress txBuffer rxBuffer bus trace fst snd app];
  rewrite Z.add_0_r.

Lemma sim_read8 reg (w : World SimDevice) :
  is_uint8 reg -> reg <> BMX280_REG_STATUS ->
  let a := to_uint8 (_i2cAddr (this w)) in
  read8 (H := bus0) reg w
  = (to_uint8 (mem reg),
     mkWorld (this w)
       (mkWire a [] []
          (mkSim (reg + 1) (sim_busy (bus (Wire w))))
          (trace (Wire w)
           ++ [Transmit a [reg] 0;
               Request a 1 [to_uint8 (mem reg)]]))).
Proof.
  intros Hreg Hst a. unfold read8. sim_run Hreg Hst.
  rewrite (to_uint8_id (to_uint8 (mem reg))) by apply to_uint8_range.
  rewrite <- app_assoc. reflexivity.
Qed.

Lemma sim_read16_LE reg (w : World SimDevice) :
  is_uint8 reg -> reg <> BMX280_REG_STATUS ->
  let a := to_uint8 (_i2cAddr (this w)) in
  read16_LE (H := bus0) reg w
  = (to_uint8 (mem reg) + 256 * to_uint8 (mem (reg + 1)),
     mkWorld (this w)
       (mkWire a [] []
          (mkSim (reg + 2) (sim_busy (bus (Wire w))))
          (trace (Wire w)
           ++ [Transmit a [reg] 0;
               Request a 2 [to_uint8 (mem reg);
                            to_uint8 (mem (reg + 1))]]))).
Proof.
  intros Hreg Hst a. unfold read16_LE, read16. sim_run Hreg Hst.
  rewrite read16_LE_swap by apply to_uint8_range.
  rewrite <- app_assoc. reflexivity.
Qed.

Lemma sim_readS16_LE reg (w : World SimDevice) :
  is_uint8 reg -> reg <> BMX280_REG_STATUS ->
  let a := to_uint8 (_i2cAddr (this w)) in
  readS16_LE (H := bus0) reg w
  = (Spec.signed 16 (Spec.le16 (fun r => to_uint8 (mem r)) reg),
     mkWorld (this w)
       (mkWire a [] []
          (mkSim (reg + 2) (sim_busy (bus (Wire w))))
          (trace (Wire w)
           ++ [Transmit a [reg] 0;
               Request a 2 [to_uint8 (mem reg);
                            to_uint8 (mem (reg + 1))]]))).
Proof.
  intros Hreg Hst a. unfold readS16_LE, bind at 1.
  rewrite (sim_read16_LE reg w Hreg Hst). cbv beta iota zeta. unfold ret.
  rewrite to_int16_signed; [reflexivity|].
  pose proof (to_uint8_range (mem reg)) as H0.
  pose proof (to_uint8_range (mem (reg + 1))) as H1.
  unfold is_uint8, is_uint16 in *. lia.
Qed.

(** A 24-bit register read yields the three bytes, first byte highest:
    every 24-bit value is the result of some register content. *)
Lemma sim_read24 reg (w : World SimDevice) :
  is_uint8 reg -> reg <> BMX280_REG_STATUS ->
  let raw :=
    to_uint8 (mem reg) * 65536 + to_uint8 (mem (reg + 1)) * 256
    + to_uint8 (mem (reg + 2)) in
  fst (read24 (H := bus0) reg w) = raw /\ 0 <= raw < 2 ^ 24.
Proof.
  intros Hreg Hst raw.
  pose proof (to_uint8_range (mem reg)) as H0.
  pose proof (to_uint8_range (mem (reg + 1))) as H1.
  pose proof (to_uint8_range (mem (reg + 2))) as H2.
  split.
  - unfold read24.
    cbv beta iota zeta delta
      [bind ret get_this modify_this modify_Wire Wire_beginTransmission
       Wire_write Wire_endTransmission Wire_requestFrom Wire_read].
    cbn [this Wire txAddress txBuffer rxBuffer bus trace fst snd app
         bus_transmit bus_request SimBus].
    rewrite (to_uint8_id _ Hreg).
    unfold sim_transmit, never.
    cbn [this Wire txAddress txBuffer rxBuffer bus trace fst snd app].
    rewrite sim_request_plain by exact Hst.
    cbn [sim_pointer sim_busy].
    change (to_uint8 3) with 3. change (Z.to_nat 3) with 3%nat.
    cbn [seq map firstn Z.of_nat Pos.of_succ_nat Pos.succ].
    cbn [this Wire txAddress txBuffer rxBuffer bus trace fst snd app].
    rewrite Z.add_0_r.
    apply read24_assemble; assumption.
  - unfold raw, is_uint8 in *. change (2 ^ 24) with 16777216. lia.
Qed.

Ltac reg_side :=
  first [ solve [vm_compute; split; [discriminate|reflexivity]]
        | solve [vm_compute; discriminate] ].

Ltac sim_step :=
  first
    [ match goal with
      | |- context [readS16_LE ?r ?x] =>
          rewrite (sim_readS16_LE r x) by reg_side
      | |- context [read16_LE ?r ?x] =>
          rewrite (sim_read16_LE r x) by reg_side
      end
    | match goal with
      | |- context [read8 ?r ?x] =>
          rewrite (sim_read8 r x) by reg_side
      end ];
  cbv beta iota zeta delta [modify_this];
  cbn [this Wire txAddress txBuffer rxBuffer bus trace sim_busy
       sim_pointer _i2cAddr _chipID
       set_dig_T1 set_dig_T2 set_dig_T3 set_dig_P1 set_dig_P2 set_dig_P3
       set_dig_P4 set_dig_P5 set_dig_P6 set_dig_P7 set_dig_P8 set_dig_P9
       set_dig_H1 set_dig_H2 set_dig_H3 set_dig_H4 set_dig_H5
       set_dig_H6].

(** C5.  On a sensor whose registers hold [mem] and whose transfers
    succeed, [readCoefficients] decodes every 16-bit coefficient with
    the byte at the lower address as the low byte; dig_T1 and dig_P1
    are taken unsigned, the other 16-bit coefficients as two's
    complement.  On the BME280 the humidity block is read as well, with
    [dig_H4 = (signed byte at 0xE4 << 4) | (byte at 0xE5 & 0xF)] and
    [dig_H5 = (signed byte at 0xE6 << 4) | (byte at 0xE5 >> 4)].  On any
    other chip the humidity members keep their values and the bus sees
    the twelve 16-bit reads of the temperature and pressure block
    only. *)
Theorem readCoefficients_decoding (w : World SimDevice) :
  let byte r := to_uint8 (mem r) in
  let u16 := Spec.le16 byte in
  let s16 r := Spec.signed 16 (u16 r) in
  let s8 r := Spec.signed 8 (byte r) in
  let a := to_uint8 (_i2cAddr (this w)) in
  let o := this w in
  let w' := snd (readCoefficients (H := bus0) w) in
  let o' := this w' in
  (_dig_T1 o' = u16 BMX280_REG_DIG_T1
   /\ _dig_T2 o' = s16 BMX280_REG_DIG_T2
   /\ _dig_T3 o' = s16 BMX280_REG_DIG_T3)
  /\ (_dig_P1 o' = u16 BMX280_REG_DIG_P1
      /\ _dig_P2 o' = s16 BMX280_REG_DIG_P2
      /\ _dig_P3 o' = s16 BMX280_REG_DIG_P3
      /\ _dig_P4 o' = s16 BMX280_REG_DIG_P4
      /\ _dig_P5 o' = s16 BMX280_REG_DIG_P5
      /\ _dig_P6 o' = s16 BMX280_REG_DIG_P6
      /\ _dig_P7 o' = s16 BMX280_REG_DIG_P7
      /\ _dig_P8 o' = s16 BMX280_REG_DIG_P8
      /\ _dig_P9 o' = s16 BMX280_REG_DIG_P9)
  /\ (_chipID o = CHIP_ID_BME280 ->
      _dig_H1 o' = byte BME280_REG_DIG_H1
      /\ _dig_H2 o' = s16 BME280_REG_DIG_H2
      /\ _dig_H3 o' = byte BME280_REG_DIG_H3
      /\ _dig_H4 o'
         = Z.lor (Z.shiftl (s8 BME280_REG_DIG_H4) 4)
                 (Z.land (byte (BME280_REG_DIG_H4 + 1)) 0xF)
      /\ _dig_H5 o'
         = Z.lor (Z.shiftl (s8 (BME280_REG_DIG_H5 + 1)) 4)
                 (Z.shiftr (byte BME280_REG_DIG_H5) 4)
      /\ _dig_H6 o' = s8 BME280_REG_DIG_H6)
  /\ (_chipID o <> CHIP_ID_BME280 ->
      (_dig_H1 o' = _dig_H1 o /\ _dig_H2 o' = _dig_H2 o
       /\ _dig_H3 o' = _dig_H3 o /\ _dig_H4 o' = _dig_H4 o
       /\ _dig_H5 o' = _dig_H5 o /\ _dig_H6 o' = _dig_H6 o)
      /\ trace (Wire w')
         = trace (Wire w)
           ++ flat_map
                (fun r => [Transmit a [r] 0;
                           Request a 2 [byte r; byte (r + 1)]])
                [BMX280_REG_DIG_T1; BMX280_REG_DIG_T2; BMX280_REG_DIG_T3;
                 BMX280_REG_DIG_P1; BMX280_REG_DIG_P2; BMX280_REG_DIG_P3;
                 BMX280_REG_DIG_P4; BMX280_REG_DIG_P5; BMX280_REG_DIG_P6;
                 BMX280_REG_DIG_P7; BMX280_REG_DIG_P8; BMX280_REG_DIG_P9]).
Proof.
  intros byte u16 s16 s8 a o w' o'. subst w' o'.
  unfold readCoefficients.
  cbv beta iota zeta delta [bind get_this ret].
  do 12 sim_step.
  destruct (Z.eqb_spec (_chipID (this w)) CHIP_ID_BME280) as [Hid|Hid].
  - do 8 sim_step.
    cbn [snd this _dig_T1 _dig_T2 _dig_T3 _dig_P1 _dig_P2 _dig_P3 _dig_P4
         _dig_P5 _dig_P6 _dig_P7 _dig_P8 _dig_P9 _dig_H1 _dig_H2 _dig_H3
         _dig_H4 _dig_H5 _dig_H6].
    rewrite (to_int16_id _ (dig_H4_fits _ _)).
    rewrite (to_int16_id _ (dig_H5_fits _ _ (to_uint8_range _))).
    rewrite !to_int8_signed by apply to_uint8_range.
    split; [|split; [|split]].
    + repeat split; reflexivity.
    + repeat split; reflexivity.
    + intros _. repeat split; reflexivity.
    + intros E. contradiction.
  - cbn [snd this Wire trace _dig_T1 _dig_T2 _dig_T3 _dig_P1 _dig_P2
         _dig_P3 _dig_P4 _dig_P5 _dig_P6 _dig_P7 _dig_P8 _dig_P9 _dig_H1
         _dig_H2 _dig_H3 _dig_H4 _dig_H5 _dig_H6].
    split; [|split; [|split]].
    + repeat split; reflexivity.
    + repeat split; reflexivity.
    + intros E. contradiction.
    + intros _. split; [repeat split; reflexivity|].
      cbn [flat_map app]. rewrite <- !app_assoc. reflexivity.
Qed.

Lemma testbit0_to_uint8 (x : Z) :
  Z.testbit (to_uint8 x) 0 = Z.testbit x 0.
Proof.
  unfold to_uint8, wrap_unsigned. apply Z.mod_pow2_bits_low. lia.
Qed.

(** A sensor whose status register holds a byte with bit 0 set reports
    im_update at every status read, in whatever state the read is made. *)
Lemma sim_im_update_stuck :
  Z.testbit (mem BMX280_REG_STATUS) 0 = true ->
  forall w : World SimDevice, im_update (H := bus0) w = true.
Proof.
  intros Hbit w. unfold im_update, read8.
  cbv beta iota zeta delta
    [bind ret get_this modify_this modify_Wire Wire_beginTransmission
     Wire_write Wire_endTransmission Wire_requestFrom Wire_read].
  cbn [this Wire txAddress txBuffer rxBuffer bus trace fst snd app
       bus_transmit bus_request SimBus].
  unfold sim_transmit, never.
  change (to_uint8 0) with 0. change (0 =? 0) with true. cbn [negb].
  cbn [this Wire txAddress txBuffer rxBuffer bus trace fst snd app].
  unfold sim_request. cbn [sim_pointer sim_busy].
  change (to_uint8 BMX280_REG_STATUS) with BMX280_REG_STATUS.
  change (BMX280_REG_STATUS =? BMX280_REG_STATUS) with true.
  change (to_uint8 1) with 1. change (Z.to_nat 1) with 1%nat.
  unfold STATUS_IM_UPDATE.
  destruct (sim_busy (bus (Wire w)));
    cbn [seq map firstn Z.of_nat fst snd this Wire rxBuffer];
    rewrite !testbit0_to_uint8.
  - rewrite Z.add_0_r. exact Hbit.
  - rewrite Z.lor_spec. apply orb_true_r.
Qed.

(** *** A sensor that is busy for a while

    The status reads of a sensor that reports im_update [n] times and
    whose status register then reads with bit 0 clear. *)

Lemma sim_status_read (w : World SimDevice) :
  let a := to_uint8 (_i2cAddr (this w)) in
  let value :=
    match sim_busy (bus (Wire w)) with
    | S _ => to_uint8 (Z.lor (mem BMX280_REG_STATUS) 1)
    | O => to_uint8 (mem BMX280_REG_STATUS)
    end in
  read8 (H := bus0) BMX280_REG_STATUS w
  = (value,
     mkWorld (this w)
       (mkWire a [] []
          (mkSim (BMX280_REG_STATUS + 1) (pred (sim_busy (bus (Wire w)))))
          (trace (Wire w)
           ++ [Transmit a [BMX280_REG_STATUS] 0; Request a 1 [value]]))).
Proof.
  unfold read8.
  cbv beta iota zeta delta
    [bind ret get_this modify_this modify_Wire Wire_beginTransmission
     Wire_write Wire_endTransmission Wire_requestFrom Wire_read].
  cbn [this Wire txAddress txBuffer rxBuffer bus trace fst snd app
       bus_transmit bus_request SimBus].
  unfold sim_transmit, never.
  change (to_uint8 0) with 0. change (0 =? 0) with true. cbn [negb].
  cbn [this Wire txAddress txBuffer rxBuffer bus trace fst snd app].
  unfold sim_request. cbn [sim_pointer sim_busy].
  change (to_uint8 BMX280_REG_STATUS) with BMX280_REG_STATUS.
  change (BMX280_REG_STATUS =? BMX280_REG_STATUS) with true.
  change (to_uint8 1) with 1. change (Z.to_nat 1) with 1%nat.
  destruct (sim_busy (bus (Wire w)));
    cbn [seq map firstn Z.of_nat fst snd this Wire rxBuffer txAddress
         txBuffer bus trace pred];
    rewrite ?Z.add_0_r;
    rewrite (to_uint8_id (to_uint8 _)) by apply to_uint8_range;
    rewrite <- app_assoc; reflexivity.
Qed.

Section Busy.

Hypothesis status_idle : Z.testbit (mem BMX280_REG_STATUS) 0 = false.

Lemma sim_im_update (w : World SimDevice) :
  im_update (H := bus0) w
  = match sim_busy (bus (Wire w)) with S _ => true | O => false end.
Proof.
  unfold im_update. rewrite sim_status_read. cbn [fst].
  unfold STATUS_IM_UPDATE.
  destruct (sim_busy (bus (Wire w))); rewrite testbit0_to_uint8.
  - exact status_idle.
  - rewrite Z.lor_spec. apply orb_true_r.
Qed.

Lemma sim_wait_im_update (fuel : nat) :
  forall w : World SimDevice,
    wait_im_update (H := bus0) fuel w = None
    <-> (fuel < sim_busy (bus (Wire w)))%nat.
Proof.
  induction fuel as [|fuel IH]; intros w;
    rewrite wait_im_update_eq, sim_im_update;
    destruct (sim_busy (bus (Wire w))) as [|k] eqn:Ek.
  - split; [discriminate|lia].
  - split; [lia|reflexivity].
  - split; [discriminate|lia].
  - rewrite IH. rewrite sim_status_read.
    unfold delay, modify_Wire.
    cbn [snd this Wire bus sim_busy]. rewrite Ek. cbn [pred]. lia.
Qed.

Lemma sim_after_reset_busy (w : World SimDevice) :
  sim_busy (bus (Wire (after_reset (H := bus0) w)))
  = sim_busy (bus (Wire w)).
Proof.
  unfold after_reset.
  rewrite (sim_read8 BME280_REG_CHIPID w)
    by (vm_compute; first [discriminate | split; [discriminate|reflexivity]]).
  unfold modify_this, write8, delay.
  cbv beta iota zeta delta
    [bind ret get_this modify_this modify_Wire Wire_beginTransmission
     Wire_write Wire_endTransmission].
  cbn [this Wire txAddress txBuffer rxBuffer bus trace fst snd app
       bus_transmit SimBus].
  unfold sim_transmit, never. reflexivity.
Qed.

(** X11.  The number of rounds of the poll loop is whatever the sensor
    makes it: a BMP280 or BME280 that reports im_update [n] times keeps
    [begin] in the loop for any bound below [n], and lets it return
    [true] for any bound from [n] on. *)
Lemma begin_waits_as_long_as_busy (n : nat) :
  to_uint8 (mem BME280_REG_CHIPID) = CHIP_ID_BMP280
  \/ to_uint8 (mem BME280_REG_CHIPID) = CHIP_ID_BME280 ->
  (forall fuel, (fuel < n)%nat ->
                begin (H := bus0) fuel (busy_world n) = None)
  /\ (forall fuel, (n <= fuel)%nat ->
                   exists w', begin (H := bus0) fuel (busy_world n)
                              = Some (true, w')).
Proof.
  intros Hid.
  assert (Hid' :
    fst (read8 (H := bus0) BME280_REG_CHIPID (busy_world n))
    = CHIP_ID_BMP280
    \/ fst (read8 (H := bus0) BME280_REG_CHIPID (busy_world n))
       = CHIP_ID_BME280).
  { rewrite (sim_read8 BME280_REG_CHIPID (busy_world n))
      by (vm_compute; first [discriminate | split; [discriminate|reflexivity]]).
    exact Hid. }
  pose proof (sim_after_reset_busy (busy_world n)) as Hbusy.
  cbn [busy_world Wire bus sim_busy] in Hbusy.
  split; intros fuel Hfuel; rewrite (begin_recognized fuel _ Hid').
  - assert (E : wait_im_update (H := bus0) fuel
                  (after_reset (H := bus0) (busy_world n)) = None).
    { apply sim_wait_im_update. rewrite Hbusy. exact Hfuel. }
    rewrite E. reflexivity.
  - destruct (wait_im_update (H := bus0) fuel
                (after_reset (H := bus0) (busy_world n))) as [w3|] eqn:E.
    + eexists. reflexivity.
    + apply sim_wait_im_update in E. rewrite Hbusy in E. lia.
Qed.

End Busy.

(* ------------------------------------------------------------------ *)
(** *** Further properties: from the registers to the members *)

(** The object [readCoefficients] leaves is the decoding of the register
    bytes. *)
Lemma sim_readCoefficients_this (w : World SimDevice) :
  this (snd (readCoefficients (H := bus0) w))
  = decoded (fun r => to_uint8 (mem r)) (this w).
Proof.
  unfold readCoefficients, decoded.
  cbv beta iota zeta delta [bind get_this ret].
  do 12 sim_step.
  destruct (_chipID (this w) =? CHIP_ID_BME280).
  - do 8 sim_step. cbn [snd this].
    rewrite (to_int16_id _ (dig_H4_fits _ _)).
    rewrite (to_int16_id _ (dig_H5_fits _ _ (to_uint8_range _))).
    rewrite !to_int8_signed by apply to_uint8_range.
    reflexivity.
  - reflexivity.
Qed.

(** On a sensor that acknowledges every transfer and stops reporting
    im_update within the bound, [begin] gets through the poll loop with
    the identity byte recorded and nothing else changed in the object. *)
Lemma sim_begin_reaches_readCoefficients (fuel : nat)
      (w : World SimDevice) :
  Z.testbit (mem BMX280_REG_STATUS) 0 = false ->
  to_uint8 (mem BME280_REG_CHIPID) = CHIP_ID_BMP280
  \/ to_uint8 (mem BME280_REG_CHIPID) = CHIP_ID_BME280 ->
  (sim_busy (bus (Wire w)) <= fuel)%nat ->
  exists w3,
    begin (H := bus0) fuel w = Some (true, after_poll (H := bus0) w3)
    /\ this w3 = set_chipID (to_uint8 (mem BME280_REG_CHIPID)) (this w).
Proof.
  intros Hidle Hid Hfuel.
  assert (Eid : fst (read8 (H := bus0) BME280_REG_CHIPID w)
                = to_uint8 (mem BME280_REG_CHIPID)).
  { rewrite (sim_read8 BME280_REG_CHIPID w) by reg_side. reflexivity. }
  assert (Hid' :
    fst (read8 (H := bus0) BME280_REG_CHIPID w) = CHIP_ID_BMP280
    \/ fst (read8 (H := bus0) BME280_REG_CHIPID w) = CHIP_ID_BME280)
    by (rewrite Eid; exact Hid).
  rewrite (begin_recognized fuel w Hid').
  destruct (wait_im_update (H := bus0) fuel (after_reset (H := bus0) w))
    as [w3|] eqn:E.
  - exists w3. split; [reflexivity|].
    rewrite (wait_im_update_this _ _ _ E), after_reset_this, Eid.
    reflexivity.
  - apply (sim_wait_im_update Hidle) in E.
    rewrite (sim_after_reset_busy w) in E. lia.
Qed.

(** X12.  On a BMP280 or BME280 that acknowledges every transfer and
    stops reporting im_update within the bound, [begin] returns [true]
    and leaves the driver object with the identity byte in [_chipID] and
    every calibration member decoded from the sensor's registers: 16-bit
    values low byte first, dig_T1 and dig_P1 unsigned, the humidity
    block only on the BME280. *)
Theorem begin_loads_calibration (fuel : nat) (w : World SimDevice) :
  Z.testbit (mem BMX280_REG_STATUS) 0 = false ->
  to_uint8 (mem BME280_REG_CHIPID) = CHIP_ID_BMP280
  \/ to_uint8 (mem BME280_REG_CHIPID) = CHIP_ID_BME280 ->
  (sim_busy (bus (Wire w)) <= fuel)%nat ->
  exists w',
    begin (H := bus0) fuel w = Some (true, w')
    /\ this w'
       = decoded (fun r => to_uint8 (mem r))
                 (set_chipID (to_uint8 (mem BME280_REG_CHIPID)) (this w)).
Proof.
  intros Hidle Hid Hfuel.
  destruct (sim_begin_reaches_readCoefficients fuel w Hidle Hid Hfuel)
    as [w3 [Eb Et]].
  eexists. split; [exact Eb|].
  rewrite after_poll_this, sim_readCoefficients_this, Et. reflexivity.
Qed.

Lemma le16_range (byte : Z -> Z) (reg : Z) :
  (forall r, is_uint8 (byte r)) -> is_uint16 (Spec.le16 byte reg).
Proof.
  intros Hb. pose proof (Hb reg) as H0. pose proof (Hb (reg + 1)) as H1.
  unfold Spec.le16, is_uint8, is_uint16 in *. lia.
Qed.

Lemma signed16_range (x : Z) : is_uint16 x -> is_int16 (Spec.signed 16 x).
Proof.
  unfold is_uint16, is_int16, Spec.signed.
  change (2 ^ (16 - 1)) with 32768. change (2 ^ 16) with 65536.
  intros Hx. destruct (Z.ltb_spec x 32768); lia.
Qed.

(** X15.  From the registers to degrees: after [begin] on such a sensor,
    [readTemperature] returns the compensation formula applied to the
    three temperature data bytes (0xFA first and most significant) and to
    the temperature coefficients as the sensor stores them at
    0x88..0x8D. *)
Theorem begin_then_readTemperature (fuel : nat) (w : World SimDevice) :
  Z.testbit (mem BMX280_REG_STATUS) 0 = false ->
  to_uint8 (mem BME280_REG_CHIPID) = CHIP_ID_BMP280
  \/ to_uint8 (mem BME280_REG_CHIPID) = CHIP_ID_BME280 ->
  (sim_busy (bus (Wire w)) <= fuel)%nat ->
  let byte r := to_uint8 (mem r) in
  let raw :=
    byte BMX280_REG_TEMP * 65536 + byte (BMX280_REG_TEMP + 1) * 256
    + byte (BMX280_REG_TEMP + 2) in
  exists w',
    begin (H := bus0) fuel w = Some (true, w')
    /\ fst (readTemperature (H := bus0) w')
       = Spec.celsius
           (Spec.fineTemperature raw
              (Spec.le16 byte BMX280_REG_DIG_T1)
              (Spec.signed 16 (Spec.le16 byte BMX280_REG_DIG_T2))
              (Spec.signed 16 (Spec.le16 byte BMX280_REG_DIG_T3))).
Proof.
  intros Hidle Hid Hfuel byte raw.
  destruct (sim_begin_reaches_readCoefficients fuel w Hidle Hid Hfuel)
    as [w3 [Eb Et]].
  eexists. split; [exact Eb|].
  assert (Hbyte : forall r, is_uint8 (byte r))
    by (intros r; apply to_uint8_range).
  assert (Ethis : this (after_poll (H := bus0) w3)
                  = decoded byte
                      (set_chipID (to_uint8 (mem BME280_REG_CHIPID))
                                  (this w))).
  { rewrite after_poll_this, sim_readCoefficients_this, Et. reflexivity. }
  assert (ET : _dig_T1 (this (after_poll (H := bus0) w3))
               = Spec.le16 byte BMX280_REG_DIG_T1
               /\ _dig_T2 (this (after_poll (H := bus0) w3))
                  = Spec.signed 16 (Spec.le16 byte BMX280_REG_DIG_T2)
               /\ _dig_T3 (this (after_poll (H := bus0) w3))
                  = Spec.signed 16 (Spec.le16 byte BMX280_REG_DIG_T3)).
  { rewrite Ethis. unfold decoded.
    destruct (_ =? CHIP_ID_BME280); repeat split; reflexivity. }
  destruct ET as [E1 [E2 E3]].
  destruct (sim_read24 BMX280_REG_TEMP (after_poll (H := bus0) w3)
              ltac:(reg_side) ltac:(reg_side))
    as [Eraw Rraw].
  fold byte in Eraw, Rraw. fold raw in Eraw, Rraw.
  rewrite readTemperature_value.
  - rewrite Eraw, E1, E2, E3. reflexivity.
  - rewrite Eraw. exact Rraw.
  - rewrite E1. apply le16_range. exact Hbyte.
  - rewrite E2. apply signed16_range, le16_range. exact Hbyte.
  - rewrite E3. apply signed16_range, le16_range. exact Hbyte.
Qed.

End SimProperties.

(* ================================================================== *)
(** ** Storing a value and reading it back *)

Lemma signed16_of_pattern (v : Z) :
  is_int16 v -> Spec.signed 16 (v mod 65536) = v.
Proof.
  unfold is_int16, Spec.signed. intros Hv.
  change (2 ^ (16 - 1)) with 32768. change (2 ^ 16) with 65536.
  destruct (Z_lt_le_dec v 0) as [Hneg|Hpos].
  - assert (E : v mod 65536 = v + 65536)
      by (symmetry; apply Z.mod_unique with (q := -1); lia).
    rewrite E. destruct (Z.ltb_spec (v + 65536) 32768); lia.
  - rewrite Z.mod_small by lia. destruct (Z.ltb_spec v 32768); lia.
Qed.

Lemma signed8_of_pattern (v : Z) :
  is_int8 v -> Spec.signed 8 (v mod 256) = v.
Proof.
  unfold is_int8, Spec.signed. intros Hv.
  change (2 ^ (8 - 1)) with 128. change (2 ^ 8) with 256.
  destruct (Z_lt_le_dec v 0) as [Hneg|Hpos].
  - assert (E : v mod 256 = v + 256)
      by (symmetry; apply Z.mod_unique with (q := -1); lia).
    rewrite E. destruct (Z.ltb_spec (v + 256) 128); lia.
  - rewrite Z.mod_small by lia. destruct (Z.ltb_spec v 128); lia.
Qed.

Lemma le16_of_store16 (reg v : Z) (mem : Z -> Z) :
  Spec.le16 (fun r => to_uint8 (store16 reg v mem r)) reg = v mod 65536.
Proof.
  unfold Spec.le16, store16. rewrite Z.eqb_refl.
  destruct (Z.eqb_spec (reg + 1) reg) as [E|_]; [lia|].
  rewrite Z.eqb_refl.
  unfold to_uint8, wrap_unsigned. change (2 ^ 8) with 256.
  rewrite !Z.mod_mod by lia.
  change 65536 with (256 * 256). rewrite Z.rem_mul_r by lia. reflexivity.
Qed.

(** X13.  A 16-bit value stored in two adjacent registers the way the
    sensor stores its coefficients - two's complement pattern, low byte at
    the lower address - is read back unchanged: by [read16_LE] for every
    unsigned 16-bit value, by [readS16_LE] for every signed one. *)
Theorem store16_read_back (reg v : Z) (mem : Z -> Z)
        (w : World SimDevice) :
  is_uint8 reg -> reg <> BMX280_REG_STATUS ->
  (is_uint16 v ->
   fst (read16_LE (H := SimBus (store16 reg v mem) never) reg w) = v)
  /\ (is_int16 v ->
      fst (readS16_LE (H := SimBus (store16 reg v mem) never) reg w) = v).
Proof.
  intros Hreg Hst. split; intros Hv.
  - rewrite (sim_read16_LE (store16 reg v mem) reg w Hreg Hst). cbn [fst].
    pose proof (le16_of_store16 reg v mem) as E. unfold Spec.le16 in E.
    rewrite E. unfold is_uint16 in Hv. apply Z.mod_small. lia.
  - rewrite (sim_readS16_LE (store16 reg v mem) reg w Hreg Hst). cbn [fst].
    rewrite le16_of_store16. apply signed16_of_pattern. exact Hv.
Qed.

(** X14.  Every pair of 12-bit two's complement values packed into the
    registers 0xE4, 0xE5 and 0xE6 the way the BME280 packs dig_H4 and
    dig_H5 (0xE5 shared, its low nibble the low bits of dig_H4, its high
    nibble the low bits of dig_H5) comes back from [readCoefficients] as
    the two members, sign included. *)
Theorem dig_H4_H5_read_back (h4 h5 : Z) (mem : Z -> Z)
        (w : World SimDevice) :
  is_int12 h4 -> is_int12 h5 ->
  _chipID (this w) = CHIP_ID_BME280 ->
  let o' :=
    this (snd (readCoefficients
                 (H := SimBus (store_H4_H5 h4 h5 mem) never) w)) in
  _dig_H4 o' = h4 /\ _dig_H5 o' = h5.
Proof.
  intros H4 H5 Hid o'. subst o'. unfold is_int12 in H4, H5.
  rewrite sim_readCoefficients_this. unfold decoded. rewrite Hid.
  change (CHIP_ID_BME280 =? CHIP_ID_BME280) with true. cbv iota.
  unfold decoded_H.
  cbn [_dig_H4 _dig_H5 set_dig_H1 set_dig_H2 set_dig_H3 set_dig_H4
       set_dig_H5 set_dig_H6].
  change (store_H4_H5 h4 h5 mem BME280_REG_DIG_H4) with ((h4 / 16) mod 256).
  change (store_H4_H5 h4 h5 mem (BME280_REG_DIG_H4 + 1))
    with (h4 mod 16 + 16 * (h5 mod 16)).
  change (store_H4_H5 h4 h5 mem BME280_REG_DIG_H5)
    with (h4 mod 16 + 16 * (h5 mod 16)).
  change (store_H4_H5 h4 h5 mem (BME280_REG_DIG_H5 + 1))
    with ((h5 / 16) mod 256).
  pose proof (Z.mod_pos_bound h4 16 eq_refl) as M4.
  pose proof (Z.mod_pos_bound h5 16 eq_refl) as M5.
  pose proof (Z.div_mod h4 16 ltac:(lia)) as D4.
  pose proof (Z.div_mod h5 16 ltac:(lia)) as D5.
  assert (Q4 : -128 <= h4 / 16 < 128) by lia.
  assert (Q5 : -128 <= h5 / 16 < 128) by lia.
  rewrite (to_uint8_id ((h4 / 16) mod 256))
    by (unfold is_uint8; apply Z.mod_pos_bound; lia).
  rewrite (to_uint8_id ((h5 / 16) mod 256))
    by (unfold is_uint8; apply Z.mod_pos_bound; lia).
  rewrite (to_uint8_id (h4 mod 16 + 16 * (h5 mod 16)))
    by (unfold is_uint8; lia).
  rewrite !signed8_of_pattern by (unfold is_int8; lia).
  change 0xF with (Z.ones 4). rewrite Z.land_ones by lia.
  change (2 ^ 4) with 16.
  assert (E5lo : (h4 mod 16 + 16 * (h5 mod 16)) mod 16 = h4 mod 16).
  { rewrite Z.mul_comm, Z.mod_add by lia. apply Z.mod_mod. lia. }
  assert (E5hi : Z.shiftr (h4 mod 16 + 16 * (h5 mod 16)) 4 = h5 mod 16).
  { rewrite Z.shiftr_div_pow2 by lia. change (2 ^ 4) with 16.
    symmetry. apply Z.div_unique with (r := h4 mod 16); lia. }
  rewrite E5lo, E5hi.
  rewrite !lor_shiftl_small by (change (2 ^ 4) with 16; lia).
  change (2 ^ 4) with 16. lia.
Qed.

(* ================================================================== *)
(** ** The driver run on concrete sensors *)

Ltac by_computation :=
  vm_compute;
  first [ reflexivity | discriminate
        | split; [discriminate|reflexivity]
        | intros; discriminate ].

(** The conversion [(float) n] at small values, at ties and at the ends
    of the 64-bit range. *)
Example to_float_examples :
  to_float 0 = 0 /\ to_float 1 = 1 /\ to_float (-1000) = -1000
  /\ to_float 16777216 = 16777216
  /\ to_float 16777217 = 16777216
  /\ to_float 16777219 = 16777220
  /\ to_float 25767233 = 25767232
  /\ to_float (-25767233) = -25767232
  /\ to_float 9223372036854775807 = 9223372036854775808
  /\ to_float (-9223372036854775808) = -9223372036854775808.
Proof. repeat split; vm_compute; reflexivity. Qed.

(** The data sheet's example: 25.08 degrees Celsius from
    [_t_fine = 128422], and the pressure in Pa as a multiple of 1/256:
    [p = 25767233] before the conversion to [float]. *)
Example datasheet_example :
  match begin (H := SimBus datasheet_mem never) 0 (power_on BMX280_I2C_ADDR)
  with
  | None => None
  | Some (found, w) =>
      let (t, w) := readTemperature (H := SimBus datasheet_mem never) w in
      let (p, w) := readPressure (H := SimBus datasheet_mem never) w in
      Some (found, this w, t, p)
  end
  = Some (true, set_t_fine 128422 datasheet_object,
          2508 # 100, Some (25767232 # 256)).
Proof. vm_compute. reflexivity. Qed.

(** C1 at the data sheet's example. *)
Lemma readTemperature_formula_witness :
  fst (readTemperature (H := SimBus datasheet_mem never) datasheet_world)
  = 2508 # 100
  /\ _t_fine (this (snd (readTemperature (H := SimBus datasheet_mem never)
                                         datasheet_world)))
     = 128422.
Proof.
  destruct (readTemperature_formula (H := SimBus datasheet_mem never)
              datasheet_world
              (snd (read24 (H := SimBus datasheet_mem never)
                           BMX280_REG_TEMP datasheet_world))
              0x7EED00
              ltac:(by_computation) ltac:(by_computation)
              ltac:(by_computation) ltac:(by_computation)
              ltac:(by_computation))
    as [E [F _]].
  split.
  - rewrite E. vm_compute. reflexivity.
  - rewrite F. vm_compute. reflexivity.
Defined.

(** C2 at the data sheet's example (divisor not zero) and on a sensor
    whose dig_P1 is 0 (divisor zero). *)
Lemma readPressure_guard_witness :
  fst (readPressure (H := SimBus datasheet_mem never) datasheet_world)
  = Some (25767232 # 256)
  /\ fst (readPressure (H := SimBus datasheet_mem never)
                       (power_on BMX280_I2C_ADDR))
     = Some (float_of_int 0).
Proof.
  split.
  - destruct (readPressure_guard (H := SimBus datasheet_mem never)
                datasheet_world
                ltac:(by_computation) ltac:(by_computation)
                ltac:(by_computation))
      as [_ [_ [Hnz _]]].
    destruct Hnz as [p [Hp E]]; [by_computation|].
    rewrite E. vm_compute in Hp. injection Hp as <-. reflexivity.
  - destruct (readPressure_guard (H := SimBus datasheet_mem never)
                (power_on BMX280_I2C_ADDR)
                ltac:(by_computation) ltac:(by_computation)
                ltac:(by_computation))
      as [_ [Hz _]].
    rewrite Hz; [reflexivity|by_computation].
Defined.

(** C3 at both ends of the clamp: the humidity registers reading 0xFFFF
    give 100 percent, reading 0x0000 give 0 percent. *)
Lemma readHumidity_clamp_witness :
  fst (readHumidity (H := SimBus humidity_FFFF_mem never) clamp_world)
  = 102400 # 1024
  /\ fst (readHumidity (H := SimBus humidity_0000_mem never) clamp_world)
     = 0 # 1024.
Proof.
  split.
  - destruct (readHumidity_clamp (H := SimBus humidity_FFFF_mem never)
                clamp_world eq_refl)
      as [_ [_ [_ [Hhigh _]]]].
    rewrite Hhigh; by_computation.
  - destruct (readHumidity_clamp (H := SimBus humidity_0000_mem never)
                clamp_world eq_refl)
      as [_ [_ [Hlow _]]].
    rewrite Hlow; by_computation.
Defined.

(** The intermediates behind the two readings. *)
Example clamp_reached_from_both_sides :
  readHumidity_v_x1_u32r (set_t_fine 0 clamp_object) 0 = -163840000
  /\ readHumidity_v_x1_u32r (set_t_fine 0 clamp_object) 65535 = 1513881600.
Proof. split; vm_compute; reflexivity. Qed.

(** C7 on a device that answers the identity read with 0x00. *)
Lemma begin_unrecognized_witness :
  exists w',
    begin (H := SimBus foreign_mem never) 5 (power_on BMX280_I2C_ADDR)
    = Some (false, w')
    /\ trace (Wire w')
       = [Transmit BMX280_I2C_ADDR [BME280_REG_CHIPID] 0;
          Request BMX280_I2C_ADDR 1 [0]].
Proof.
  destruct (begin_unrecognized (H := SimBus foreign_mem never) 5
              (power_on BMX280_I2C_ADDR)
              ltac:(by_computation) ltac:(by_computation))
    as [E _].
  eexists. split; [exact E|]. vm_compute. reflexivity.
Defined.

(** C8: a BME280 that does not acknowledge the coefficient block. *)
Lemma begin_ignores_transport_failure_witness :
  (fst (read8 (H := SimBus bme280_mem nak_coefficients) BME280_REG_CHIPID
              (power_on BMX280_I2C_ADDR)) = CHIP_ID_BMP280
   \/ fst (read8 (H := SimBus bme280_mem nak_coefficients) BME280_REG_CHIPID
                 (power_on BMX280_I2C_ADDR)) = CHIP_ID_BME280)
  /\ (forall w',
         begin (H := SimBus bme280_mem nak_coefficients) 0
               (power_on BMX280_I2C_ADDR)
         <> Some (false, w')).
Proof.
  assert (Hid :
    fst (read8 (H := SimBus bme280_mem nak_coefficients) BME280_REG_CHIPID
               (power_on BMX280_I2C_ADDR)) = CHIP_ID_BMP280
    \/ fst (read8 (H := SimBus bme280_mem nak_coefficients) BME280_REG_CHIPID
                  (power_on BMX280_I2C_ADDR)) = CHIP_ID_BME280).
  { right. vm_compute. reflexivity. }
  split; [exact Hid|].
  exact (proj2 (proj2 (begin_ignores_transport_failure
                         (H := SimBus bme280_mem nak_coefficients) 0
                         (power_on BMX280_I2C_ADDR) Hid))).
Defined.

(** C8 as stated fails: every read of the temperature and pressure
    coefficients is refused by the sensor (status 2), the sensor holds
    0x70 where dig_T1 starts, and [begin] returns [true] with
    [_dig_T1 = 0]. *)
Lemma begin_succeeds_with_failed_coefficient_reads :
  exists w',
    begin (H := SimBus bme280_mem nak_coefficients) 0
          (power_on BMX280_I2C_ADDR)
    = Some (true, w')
    /\ nth_error (trace (Wire w')) 6
       = Some (Transmit BMX280_I2C_ADDR [BMX280_REG_DIG_T1] 2)
    /\ bme280_mem BMX280_REG_DIG_T1 = 0x70
    /\ _dig_T1 (this w') = 0
    /\ _dig_P1 (this w') = 0.
Proof.
  eexists. split; [vm_compute; reflexivity|].
  repeat split; vm_compute; reflexivity.
Qed.

(** C9 on a BME280 that never clears im_update. *)
Lemma begin_blocks_while_im_update_witness :
  (fst (read8 (H := SimBus stuck_mem never) BME280_REG_CHIPID
              (power_on BMX280_I2C_ADDR)) = CHIP_ID_BMP280
   \/ fst (read8 (H := SimBus stuck_mem never) BME280_REG_CHIPID
                 (power_on BMX280_I2C_ADDR)) = CHIP_ID_BME280)
  /\ (forall fuel,
         begin (H := SimBus stuck_mem never) fuel (power_on BMX280_I2C_ADDR)
         = None).
Proof.
  assert (Hid :
    fst (read8 (H := SimBus stuck_mem never) BME280_REG_CHIPID
               (power_on BMX280_I2C_ADDR)) = CHIP_ID_BMP280
    \/ fst (read8 (H := SimBus stuck_mem never) BME280_REG_CHIPID
                  (power_on BMX280_I2C_ADDR)) = CHIP_ID_BME280).
  { right. vm_compute. reflexivity. }
  split; [exact Hid|].
  apply (proj1 (proj2 (proj2 (begin_blocks_while_im_update
                                (H := SimBus stuck_mem never)
                                (power_on BMX280_I2C_ADDR) Hid)))).
  apply sim_im_update_stuck. reflexivity.
Defined.

(** C9 as stated fails, twice over.  On a device whose every status read
    has bit 0 set but whose identity byte is 0x00, [begin] returns.  And
    on a BME280 whose status register holds 0x01 for ever but which does
    not acknowledge the status address, the register never returns a
    byte, the status read yields 0 and [begin] returns [true]. *)
Lemma begin_returns_despite_im_update :
  ((forall w' : World SimDevice,
       im_update (H := SimBus foreign_mem never) w' = true)
   /\ exists w',
       begin (H := SimBus foreign_mem never) 0 (power_on BMX280_I2C_ADDR)
       = Some (false, w'))
  /\ (stuck_mem BMX280_REG_STATUS = 0x01
      /\ exists w',
          begin (H := SimBus stuck_mem nak_status) 0
                (power_on BMX280_I2C_ADDR)
          = Some (true, w')
          /\ nth_error (trace (Wire w')) 4
             = Some (Transmit BMX280_I2C_ADDR [BMX280_REG_STATUS] 2)
          /\ nth_error (trace (Wire w')) 5
             = Some (Transmit BMX280_I2C_ADDR [BMX280_REG_DIG_T1] 0)).
Proof.
  split; split.
  - apply sim_im_update_stuck. reflexivity.
  - eexists. vm_compute. reflexivity.
  - reflexivity.
  - eexists. split; [vm_compute; reflexivity|].
    split; vm_compute; reflexivity.
Qed.

(** C10 on the BMP280 of the data sheet's example. *)
Lemma readHumidity_other_chip_witness :
  _chipID (this datasheet_world) <> CHIP_ID_BME280
  /\ readHumidity (H := SimBus datasheet_mem never) datasheet_world
     = (float_of_int 0, datasheet_world).
Proof.
  assert (Hid : _chipID (this datasheet_world) <> CHIP_ID_BME280)
    by by_computation.
  split; [exact Hid|].
  exact (readHumidity_other_chip (H := SimBus datasheet_mem never)
                                 datasheet_world Hid).
Defined.

(* ================================================================== *)
(** ** The further properties on concrete sensors *)

(** X4 on the BMP280 of the data sheet's example. *)
Lemma begin_agrees_with_getChipID_witness :
  exists w',
    begin (H := SimBus datasheet_mem never) 0 (power_on BMX280_I2C_ADDR)
    = Some (true, w')
    /\ fst (getChipID w') = CHIP_ID_BMP280.
Proof.
  destruct (begin (H := SimBus datasheet_mem never) 0
                  (power_on BMX280_I2C_ADDR))
    as [[found w']|] eqn:E; [|vm_compute in E; discriminate].
  destruct (begin_agrees_with_getChipID
              (H := SimBus datasheet_mem never) 0
              (power_on BMX280_I2C_ADDR) w' found E)
    as [Eid [Efound _]].
  assert (Eid' : fst (getChipID w') = CHIP_ID_BMP280)
    by (rewrite Eid; vm_compute; reflexivity).
  exists w'. split; [|exact Eid'].
  rewrite Efound, Eid'. reflexivity.
Defined.

(** X5 on a driver whose coefficients were never loaded. *)
Lemma readPressure_zero_dig_P1_witness :
  _dig_P1 (this (power_on BMX280_I2C_ADDR)) = 0
  /\ fst (readPressure (H := SimBus datasheet_mem never)
                       (power_on BMX280_I2C_ADDR))
     = Some (float_of_int 0).
Proof.
  split; [reflexivity|].
  rewrite (readPressure_zero_dig_P1 (H := SimBus datasheet_mem never)
             (power_on BMX280_I2C_ADDR) eq_refl).
  reflexivity.
Defined.

(** X6 on the same driver, the temperature registers holding 0x7EED00. *)
Lemma readTemperature_zero_coefficients_witness :
  fst (read24 (H := SimBus datasheet_mem never) BMX280_REG_TEMP
              (power_on BMX280_I2C_ADDR)) = 0x7EED00
  /\ fst (readTemperature (H := SimBus datasheet_mem never)
                          (power_on BMX280_I2C_ADDR)) = 0 # 100
  /\ _t_fine (this (snd (readTemperature (H := SimBus datasheet_mem never)
                                         (power_on BMX280_I2C_ADDR))))
     = 0.
Proof.
  split; [vm_compute; reflexivity|].
  exact (readTemperature_zero_coefficients
           (H := SimBus datasheet_mem never) (power_on BMX280_I2C_ADDR)
           eq_refl eq_refl).
Defined.

(** X8 on a bus that delivers nothing. *)
Lemma short_reads_give_all_ones_witness :
  fst (read8 (H := SilentBus) BME280_REG_CHIPID silent_world) = 0xFF
  /\ fst (read16 (H := SilentBus) BME280_REG_HUM silent_world) = 0xFFFF
  /\ fst (read24 (H := SilentBus) BMX280_REG_TEMP silent_world)
     = 0xFFFFFFFF.
Proof.
  split; [|split].
  - apply (proj1 (short_reads_give_all_ones (H := SilentBus)
                    BME280_REG_CHIPID silent_world)); reflexivity.
  - apply (proj1 (proj2 (short_reads_give_all_ones (H := SilentBus)
                           BME280_REG_HUM silent_world)));
      [reflexivity|cbn; lia].
  - apply (proj2 (proj2 (short_reads_give_all_ones (H := SilentBus)
                           BMX280_REG_TEMP silent_world))).
    cbn. lia.
Defined.

(** X9 on the sensor that refuses the coefficient block. *)
Lemma unacknowledged_address_witness :
  fst (read16 (H := SimBus bme280_mem nak_coefficients) BMX280_REG_DIG_T1
              (power_on BMX280_I2C_ADDR)) = 0
  /\ trace (Wire (snd (read16 (H := SimBus bme280_mem nak_coefficients)
                              BMX280_REG_DIG_T1
                              (power_on BMX280_I2C_ADDR))))
     = [Transmit BMX280_I2C_ADDR [BMX280_REG_DIG_T1] 2].
Proof.
  destruct (unacknowledged_address
              (H := SimBus bme280_mem nak_coefficients) BMX280_REG_DIG_T1
              (power_on BMX280_I2C_ADDR) ltac:(by_computation))
    as [_ [[E T] _]].
  split; [exact E|]. rewrite T. vm_compute. reflexivity.
Defined.

(** X10 on the data sheet's example: dig_T1 and the temperature data. *)
Lemma register_byte_order_witness :
  fst (read16_LE (H := SimBus datasheet_mem never) BMX280_REG_DIG_T1
                 datasheet_world) = 27504
  /\ fst (read24 (H := SimBus datasheet_mem never) BMX280_REG_TEMP
                 datasheet_world) = 0x7EED00.
Proof.
  destruct (register_byte_order (H := SimBus datasheet_mem never)
              BMX280_REG_DIG_T1 datasheet_world 0x70 0x6B 0 [])
    as [H16 _].
  destruct (register_byte_order (H := SimBus datasheet_mem never)
              BMX280_REG_TEMP datasheet_world 0x7E 0xED 0x00 [])
    as [_ H24].
  split.
  - rewrite (proj2 (H16 eq_refl eq_refl)). reflexivity.
  - rewrite (proj1 (H24 eq_refl)). reflexivity.
Defined.

(** X11 on a BME280 that reports im_update three times. *)
Lemma begin_waits_as_long_as_busy_witness :
  (forall fuel, (fuel < 3)%nat ->
                begin (H := SimBus bme280_mem never) fuel (busy_world 3)
                = None)
  /\ (forall fuel, (3 <= fuel)%nat ->
                   exists w',
                     begin (H := SimBus bme280_mem never) fuel
                           (busy_world 3)
                     = Some (true, w')).
Proof.
  exact (begin_waits_as_long_as_busy bme280_mem eq_refl 3
           (or_intror eq_refl)).
Defined.

(** X12 on that BME280, busy for two status reads. *)
Lemma begin_loads_calibration_witness :
  exists w',
    begin (H := SimBus bme280_mem never) 5 (busy_world 2) = Some (true, w')
    /\ this w' = bme280_object.
Proof.
  destruct (begin_loads_calibration bme280_mem 5 (busy_world 2) eq_refl
              (or_intror eq_refl) ltac:(cbn; lia))
    as [w' [E1 E2]].
  exists w'. split; [exact E1|]. rewrite E2. vm_compute. reflexivity.
Defined.

(** X13: -1000 is stored as 0x18, 0xFC and read back. *)
Lemma store16_read_back_witness :
  store16 BMX280_REG_DIG_T3 (-1000) humidity_0000_mem BMX280_REG_DIG_T3
  = 0x18
  /\ store16 BMX280_REG_DIG_T3 (-1000) humidity_0000_mem
             (BMX280_REG_DIG_T3 + 1) = 0xFC
  /\ fst (readS16_LE
            (H := SimBus (store16 BMX280_REG_DIG_T3 (-1000)
                                  humidity_0000_mem) never)
            BMX280_REG_DIG_T3 (power_on BMX280_I2C_ADDR))
     = -1000.
Proof.
  split; [reflexivity|]. split; [reflexivity|].
  apply (proj2 (store16_read_back BMX280_REG_DIG_T3 (-1000)
                  humidity_0000_mem (power_on BMX280_I2C_ADDR)
                  ltac:(by_computation) ltac:(by_computation))).
  by_computation.
Defined.

(** X14: dig_H4 = 311 and dig_H5 = -50 packed and read back. *)
Lemma dig_H4_H5_read_back_witness :
  _dig_H4 (this (snd (readCoefficients
                        (H := SimBus (store_H4_H5 311 (-50) bme280_mem)
                                     never)
                        bme280_world))) = 311
  /\ _dig_H5 (this (snd (readCoefficients
                           (H := SimBus (store_H4_H5 311 (-50) bme280_mem)
                                        never)
                           bme280_world))) = -50.
Proof.
  exact (dig_H4_H5_read_back 311 (-50) bme280_mem bme280_world
           ltac:(by_computation) ltac:(by_computation) eq_refl).
Defined.

(** X15 on the BME280 holding the data sheet's temperature example. *)
Lemma begin_then_readTemperature_witness :
  exists w',
    begin (H := SimBus bme280_mem never) 1 (busy_world 1) = Some (true, w')
    /\ fst (readTemperature (H := SimBus bme280_mem never) w')
       = 2508 # 100.
Proof.
  destruct (begin_then_readTemperature bme280_mem 1 (busy_world 1) eq_refl
              (or_intror eq_refl) ltac:(cbn; lia))
    as [w' [E1 E2]].
  exists w'. split; [exact E1|]. rewrite E2. vm_compute. reflexivity.
Defined.
